(** * MoneyTalk: the fallback transcript analyzer, the insight calculator
      and the recommendation cache

    A shallow embedding of three pieces of the web application:

    - [analyzeTranscriptFallback] of the audio-analysis edge function
      (keyword heuristics used when the AI call fails);
    - [generateBasicInsights] of the AIInsights component (category trends,
      budget alerts, spending patterns);
    - the recommendation cache of the AIInsights component (load on mount,
      [generateAIRecommendations], [handleManualRefresh], [isCacheValid]).

    Modelling conventions.

    - JavaScript numbers that hold money or percentages are exact rationals
      ([Q]); binary64 rounding is outside the model.  Millisecond timestamps
      are integers ([Z]).
    - Strings are [string] (8-bit code units, read as Latin-1).
    - A JavaScript object used as a record from category name to number is
      an association list in insertion order, which is the order
      [Object.keys] and [Object.entries] enumerate (category names are not
      integer-like, and do not name members of [Object.prototype]).
    - [Date] values are milliseconds of local civil time; the zone has a
      fixed offset (no daylight-saving jumps), so a local day is
      [msPerDay] milliseconds and day 0 is Thursday 1970-01-01. *)

From Stdlib Require Import ZArith QArith Qabs Qminmax Qround List String Ascii Bool Lia Lqa.
From Stdlib Require Import Sorting.Sorted DecimalString.
From Stdlib Require Floats.
Import ListNotations.

Open Scope string_scope.
Open Scope list_scope.

(** ** JavaScript number comparisons *)

Module JsNumber.

(** [x < y] and [x > y] on numbers. *)
Definition ltb (x y : Q) : bool := negb (Qle_bool y x).
Definition gtb (x y : Q) : bool := ltb y x.

(** [x || 0]: a missing or zero entry reads as 0. *)
Definition orZero (o : option Q) : Q :=
  match o with
  | Some v => if Qeq_bool v 0 then 0%Q else v
  | None => 0%Q
  end.

End JsNumber.

(** ** JavaScript string primitives *)

Module JsString.

Definition code (c : ascii) : nat := nat_of_ascii c.

(** [String.prototype.toLowerCase] on one Latin-1 code unit: the ASCII
    capitals and the accented capitals U+00C0..U+00DE (without the
    multiplication sign U+00D7) move up by 32. *)
Definition toLowerChar (c : ascii) : ascii :=
  let n := code c in
  if ((65 <=? n) && (n <=? 90))%nat
     || ((192 <=? n) && (n <=? 222) && negb (n =? 215))%nat
  then ascii_of_nat (n + 32)
  else c.

Fixpoint toLowerCase (s : string) : string :=
  match s with
  | EmptyString => EmptyString
  | String c s' => String (toLowerChar c) (toLowerCase s')
  end.

(** [s.startsWith(k)]. *)
Fixpoint startsWith (s k : string) : bool :=
  match k, s with
  | EmptyString, _ => true
  | String _ _, EmptyString => false
  | String a k', String b s' => Ascii.eqb a b && startsWith s' k'
  end.

(** [s.includes(k)]. *)
Fixpoint includes (s k : string) : bool :=
  startsWith s k
  || match s with
     | EmptyString => false
     | String _ s' => includes s' k
     end.

(** [\d] of a regular expression without the unicode flag. *)
Definition isDigit (c : ascii) : bool :=
  ((48 <=? code c) && (code c <=? 57))%nat.

(** White space removed by [trim], within Latin-1: TAB, LF, VT, FF, CR,
    SPACE and NBSP. *)
Definition isSpace (c : ascii) : bool :=
  let n := code c in
  (((9 <=? n) && (n <=? 13)) || (n =? 32) || (n =? 160))%nat.

Fixpoint trimStart (s : string) : string :=
  match s with
  | EmptyString => EmptyString
  | String c s' => if isSpace c then trimStart s' else s
  end.

Fixpoint reverse (acc s : string) : string :=
  match s with
  | EmptyString => acc
  | String c s' => reverse (String c acc) s'
  end.

Definition trimEnd (s : string) : string :=
  reverse "" (trimStart (reverse "" s)).

Definition trim (s : string) : string := trimEnd (trimStart s).

(** The longest run of digits at the head of [s], and what follows it. *)
Fixpoint spanDigits (s : string) : string * string :=
  match s with
  | EmptyString => (EmptyString, EmptyString)
  | String c s' =>
      if isDigit c
      then let (d, r) := spanDigits s' in (String c d, r)
      else (EmptyString, s)
  end.

Definition digitValue (c : ascii) : Z := Z.of_nat (code c) - 48.

Fixpoint digitsValue (acc : Z) (s : string) : Z :=
  match s with
  | EmptyString => acc
  | String c s' => digitsValue (10 * acc + digitValue c) s'
  end.

(** [parseFloat] on a decimal literal [ddd] or [ddd.ddd]: its exact
    value. *)
Definition parseFloat (s : string) : Q :=
  let (ip, rest) := spanDigits s in
  match rest with
  | String "."%char fr =>
      let (fd, _) := spanDigits fr in
      let scale := (10 ^ Z.of_nat (String.length fd))%Z in
      Qred (Qmake (digitsValue 0 ip * scale + digitsValue 0 fd) (Z.to_pos scale))
  | _ => inject_Z (digitsValue 0 ip)
  end.

End JsString.

(** ** The amount pattern [/\$?(\d+(?:\.\d{2})?)/] *)

Module AmountRegex.
Import JsString.

(** A successful match: the text before it, whether the optional dollar
    sign was consumed, capture group 1, and the text after the match. *)
Record matchResult := mkMatch {
  before : string;
  dollar : bool;
  group1 : string;
  after : string
}.

(** [(\d+(?:\.\d{2})?)] anchored at the head of [s]: the greedy digit run,
    then the optional fraction of exactly two digits.  Nothing follows the
    optional part, so the greedy choices are never undone. *)
Definition matchNumber (s : string) : option (string * string) :=
  match spanDigits s with
  | (EmptyString, _) => None
  | (ds, rest) =>
      match rest with
      | String "."%char (String d1 (String d2 rest')) =>
          if isDigit d1 && isDigit d2
          then Some ((ds ++ String "."%char (String d1 (String d2 "")))%string, rest')
          else Some (ds, rest)
      | _ => Some (ds, rest)
      end
  end.

(** The whole pattern anchored at the head of [s]. *)
Definition matchAt (s : string) : option (bool * string * string) :=
  match s with
  | String "$"%char s' =>
      match matchNumber s' with
      | Some (g, r) => Some (true, g, r)
      | None =>
          match matchNumber s with
          | Some (g, r) => Some (false, g, r)
          | None => None
          end
      end
  | _ =>
      match matchNumber s with
      | Some (g, r) => Some (false, g, r)
      | None => None
      end
  end.

(** [s.match(re)]: the leftmost position at which the pattern matches. *)
Fixpoint exec (s : string) : option matchResult :=
  match matchAt s with
  | Some (d, g, r) => Some (mkMatch "" d g r)
  | None =>
      match s with
      | EmptyString => None
      | String c s' =>
          match exec s' with
          | Some m => Some (mkMatch (String c (before m)) (dollar m) (group1 m) (after m))
          | None => None
          end
      end
  end.

(** [s.replace(re, '')]: the first match is cut out. *)
Definition replaceFirst (s : string) : string :=
  match exec s with
  | Some m => (before m ++ after m)%string
  | None => s
  end.

End AmountRegex.

(** ** [analyzeTranscriptFallback] *)

Inductive txType := income | expense.

Module Analyzer.
Import JsString.

Record AudioAnalysis := mkAnalysis {
  type : txType;
  category : string;
  amount : Q;
  description : string;
  confidence : Q
}.

Definition incomeKeywords : list string :=
  ["salary"; "income"; "paid"; "received"; "earned"; "bonus"; "refund"].

Definition expenseKeywords : list string :=
  ["spent"; "bought"; "paid for"; "cost"; "expense"; "bill"].

(** The keyword table, in the order [Object.entries] walks it. *)
Definition categories : list (string * list string) :=
  [ ("Groceries", ["grocery"; "groceries"; "supermarket"; "food shopping"; "market"]);
    ("Food", ["restaurant"; "lunch"; "dinner"; "breakfast"; "cafe"; "food"]);
    ("Transport", ["gas"; "fuel"; "taxi"; "uber"; "bus"; "train"; "transport"]);
    ("Shopping", ["shopping"; "store"; "mall"; "online"; "amazon"; "clothes"]);
    ("Bills", ["bill"; "electricity"; "water"; "internet"; "phone"; "rent"]);
    ("Drinks", ["coffee"; "beer"; "wine"; "drinks"; "bar"; "alcohol"]);
    ("Travel", ["flight"; "hotel"; "vacation"; "trip"; "travel"]);
    ("Education", ["school"; "course"; "book"; "education"; "tuition"]);
    ("Family", ["family"; "kids"; "children"; "babysitter"]);
    ("Salary", ["salary"; "paycheck"; "wage"; "income"]);
    ("Loans", ["loan"; "mortgage"; "credit"; "debt"]) ].

(** [keywords.some(keyword => text.includes(keyword))]. *)
Definition someIncluded (text : string) (keywords : list string) : bool :=
  existsb (includes text) keywords.

Definition extractAmount (text : string) : Q :=
  match AmountRegex.exec text with
  | Some m => parseFloat (AmountRegex.group1 m)
  | None => 0
  end.

Definition isIncome (text : string) : bool := someIncluded text incomeKeywords.

(** Computed by the source and then left unused. *)
Definition isExpense (text : string) : bool :=
  someIncluded text expenseKeywords || JsNumber.gtb (extractAmount text) 0.

(** The [for ... of Object.entries(categories)] loop with its [break]:
    the first category with a matching keyword wins. *)
Fixpoint detectCategory (text : string) (table : list (string * list string))
  : string * Q :=
  match table with
  | [] => ("Shopping", 0.5%Q)
  | (cat, keywords) :: rest =>
      let matches := List.length (filter (includes text) keywords) in
      if (0 <? matches)%nat
      then (cat, Qmin 0.9 (0.6 + inject_Z (Z.of_nat matches) * 0.1)%Q)
      else detectCategory text rest
  end.

Definition isEmpty (s : string) : bool :=
  match s with EmptyString => true | _ => false end.

Definition analyzeTranscriptFallback (transcript : string) : AudioAnalysis :=
  let text := toLowerCase transcript in
  let amount := extractAmount text in
  let type := if isIncome text then income else expense in
  let (detectedCategory, confidence) := detectCategory text categories in
  let fallbackText := (detectedCategory ++ " transaction")%string in
  let description :=
    if JsNumber.gtb amount 0
    then let d := trim (AmountRegex.replaceFirst transcript) in
         if isEmpty d then fallbackText else d
    else transcript in
  mkAnalysis type detectedCategory amount
             (if isEmpty description then fallbackText else description)
             confidence.

End Analyzer.


(** ** Dates: [Date] accessors and the date-fns week functions *)

Module JsDate.
Open Scope Z_scope.

Definition msPerDay : Z := 86400000.

(** Days since 1970-01-01 of the local day that contains instant [t]. *)
Definition dayNumber (t : Z) : Z := t / msPerDay.

(** [Date.prototype.getDay]: 0 is Sunday; day 0 was a Thursday. *)
Definition getDay (t : Z) : Z := (dayNumber t + 4) mod 7.

(** Year and month (1..12) of a day number in the proleptic Gregorian
    calendar, by eras of 400 years that start on 1 March. *)
Definition civilFromDays (days : Z) : Z * Z :=
  let z := days + 719468 in
  let era := z / 146097 in
  let doe := z - era * 146097 in
  let yoe := (doe - doe / 1460 + doe / 36524 - doe / 146096) / 365 in
  let doy := doe - (365 * yoe + yoe / 4 - yoe / 100) in
  let mp := (5 * doy + 2) / 153 in
  let m := if mp <? 10 then mp + 3 else mp - 9 in
  let y := yoe + era * 400 in
  (if m <=? 2 then y + 1 else y, m).

Definition getFullYear (t : Z) : Z := fst (civilFromDays (dayNumber t)).

(** [Date.prototype.getMonth]: 0 is January. *)
Definition getMonth (t : Z) : Z := snd (civilFromDays (dayNumber t)) - 1.

(** [setHours(0, 0, 0, 0)] and [setHours(23, 59, 59, 999)]. *)
Definition startOfDay (t : Z) : Z := dayNumber t * msPerDay.
Definition endOfDay (t : Z) : Z := dayNumber t * msPerDay + (msPerDay - 1).

(** date-fns [addDays]: [setDate(getDate() + amount)], the same time of
    day [amount] days later. *)
Definition addDays (t amount : Z) : Z := t + amount * msPerDay.

(** date-fns [startOfWeek] with the default [weekStartsOn] 0: back to the
    Sunday of the week, at 00:00:00.000. *)
Definition startOfWeek (t : Z) : Z :=
  let day := getDay t in
  let diff := (if day <? 0 then 7 else 0) + day - 0 in
  startOfDay (addDays t (- diff)).

(** date-fns [endOfWeek]: on to the Saturday of the week, at
    23:59:59.999. *)
Definition endOfWeek (t : Z) : Z :=
  let day := getDay t in
  let diff := (if day <? 0 then -7 else 0) + 6 - (day - 0) in
  endOfDay (addDays t diff).

(** date-fns [subWeeks]: [addWeeks(date, -amount)], that is
    [addDays(date, -amount * 7)]. *)
Definition subWeeks (t amount : Z) : Z := addDays t (- amount * 7).

(** date-fns [isWithinInterval]: both ends belong to the interval.  (It
    throws when [start] is after [end]; [generateBasicInsights] never
    passes such an interval, see [week_interval_valid].) *)
Definition isWithinInterval (t start end_ : Z) : bool :=
  (start <=? t) && (t <=? end_).

End JsDate.

(** ** Data of the insight calculator *)

Module Transaction.
Record t := mk {
  id : string;
  amount : Q;
  type : txType;
  category : string;
  description : string;
  created_at : Z
}.
End Transaction.

Module BudgetLimit.
Record t := mk {
  category : string;
  monthly_limit : Q
}.
End BudgetLimit.

Inductive trendKind := increasing | decreasing | stable.

Module Trend.
Record t := mk {
  category : string;
  amount : Q;
  lastMonthAmount : Q;
  trend : trendKind;
  percentage : Q;
  isNew : bool
}.
End Trend.

Module Alert.
Record t := mk {
  category : string;
  spent : Q;
  budget : Q;
  overBudget : Q
}.
End Alert.

Inductive impactLevel := high | medium | low.

Module AIRecommendation.
Record t := mk {
  type : string;
  title : string;
  description : string;
  impact : impactLevel;
  savings : option Q;
  actionItems : option (list string);
  economicContext : option string;
  confidence : Q
}.
End AIRecommendation.

(** The two entries [generateBasicInsights] can push to [patterns].  The
    title, description and insight texts are fixed or formatted from the
    numbers kept here. *)
Inductive pattern :=
  | weekend_spending (weekendPercentage : Q)
  | historical_comparison (overallChange : Q) (weekStart weekEnd : Z).

(** The object [generateBasicInsights] returns. *)
Module BasicInsights.
Record t := mk {
  spendingTrends : list Trend.t;
  recommendations : list AIRecommendation.t;
  budgetAlerts : list Alert.t;
  patterns : list pattern
}.
End BasicInsights.

(** ** A JavaScript object used as [Record<string, number>] *)

Module JsRecord.

Definition t := list (string * Q).

(** [acc[k]]. *)
Fixpoint get (acc : t) (k : string) : option Q :=
  match acc with
  | [] => None
  | (k', v) :: rest => if String.eqb k' k then Some v else get rest k
  end.

(** [acc[k] = v]: an existing key keeps its place, a new key goes last. *)
Fixpoint set (acc : t) (k : string) (v : Q) : t :=
  match acc with
  | [] => [(k, v)]
  | (k', v') :: rest =>
      if String.eqb k' k then (k', v) :: rest else (k', v') :: set rest k v
  end.

(** [Object.keys(acc)]. *)
Definition keys (acc : t) : list string := map fst acc.

(** [acc[k] || 0]. *)
Definition getOrZero (acc : t) (k : string) : Q := JsNumber.orZero (get acc k).

End JsRecord.

(** ** [generateBasicInsights] *)

Module Insights.
Import JsNumber JsDate.

Definition isExpense (t : Transaction.t) : bool :=
  match Transaction.type t with
  | expense => true
  | income => false
  end.

(** The reducer [(acc, t) => { acc[t.category] = (acc[t.category] || 0)
    + t.amount; return acc }]. *)
Definition addToCategory (acc : JsRecord.t) (t : Transaction.t) : JsRecord.t :=
  JsRecord.set acc (Transaction.category t)
    (JsRecord.getOrZero acc (Transaction.category t) + Transaction.amount t)%Q.

Definition sumByCategory (l : list Transaction.t) : JsRecord.t :=
  fold_left addToCategory l [].

(** [sum + t.amount] reduced from 0. *)
Definition total (l : list Transaction.t) : Q :=
  fold_left (fun sum t => (sum + Transaction.amount t)%Q) l 0%Q.

(** Spending by category, over every expense of the list. *)
Definition categorySpending (transactions : list Transaction.t) : JsRecord.t :=
  sumByCategory (filter isExpense transactions).

Definition lastWeekStart (now : Z) : Z := startOfWeek (subWeeks now 1).
Definition lastWeekEnd (now : Z) : Z := endOfWeek (subWeeks now 1).
Definition sameWeekLastMonthStart (now : Z) : Z := startOfWeek (subWeeks now 5).
Definition sameWeekLastMonthEnd (now : Z) : Z := endOfWeek (subWeeks now 5).

Definition lastWeekTransactions (now : Z) (transactions : list Transaction.t) :=
  filter (fun t => isExpense t
                   && isWithinInterval (Transaction.created_at t)
                        (lastWeekStart now) (lastWeekEnd now))
         transactions.

Definition sameWeekLastMonthTransactions (now : Z) (transactions : list Transaction.t) :=
  filter (fun t => isExpense t
                   && isWithinInterval (Transaction.created_at t)
                        (sameWeekLastMonthStart now) (sameWeekLastMonthEnd now))
         transactions.

Definition lastWeekCategorySpending (now : Z) (transactions : list Transaction.t) :=
  sumByCategory (lastWeekTransactions now transactions).

Definition sameWeekLastMonthCategorySpending (now : Z) (transactions : list Transaction.t) :=
  sumByCategory (sameWeekLastMonthTransactions now transactions).

(** [Array.from(new Set(l))]: each value once, in order of first
    appearance. *)
Definition setAdd (seen : list string) (x : string) : list string :=
  if existsb (String.eqb x) seen then seen else seen ++ [x].

Definition arrayFromSet (l : list string) : list string :=
  fold_left setAdd l [].

Definition allCategories (lastWeek sameWeekLastMonth : JsRecord.t) : list string :=
  arrayFromSet (JsRecord.keys lastWeek ++ JsRecord.keys sameWeekLastMonth).

(** The body of the [map] callback. *)
Definition trendOf (lastWeek sameWeekLastMonth : JsRecord.t) (category : string)
  : Trend.t :=
  let lastWeekAmount := JsRecord.getOrZero lastWeek category in
  let lastMonthAmount := JsRecord.getOrZero sameWeekLastMonth category in
  let '(trend, percentage) :=
    if gtb lastMonthAmount 0
    then
      let percentage :=
        (((lastWeekAmount - lastMonthAmount) / lastMonthAmount) * 100)%Q in
      if gtb percentage 5 then (increasing, percentage)
      else if ltb percentage (-5) then (decreasing, percentage)
      else (stable, percentage)
    else if gtb lastWeekAmount 0 then (increasing, 100%Q)
    else (stable, 0%Q) in
  Trend.mk category lastWeekAmount lastMonthAmount trend (Qabs percentage)
           (Qeq_bool lastMonthAmount 0 && gtb lastWeekAmount 0).

(** [Array.prototype.sort] with the comparator [(a, b) => b.amount -
    a.amount]: descending amounts; the sort is stable, so entries of equal
    amount keep their order. *)
Fixpoint insertByAmount (x : Trend.t) (l : list Trend.t) : list Trend.t :=
  match l with
  | [] => [x]
  | y :: ys =>
      if ltb (Trend.amount x) (Trend.amount y)
      then y :: insertByAmount x ys
      else x :: l
  end.

Definition sortByAmountDesc (l : list Trend.t) : list Trend.t :=
  fold_right insertByAmount [] l.

Definition trendsOfWindows (lastWeek sameWeekLastMonth : JsRecord.t) : list Trend.t :=
  firstn 5
    (sortByAmountDesc
       (filter (fun trend => gtb (Trend.amount trend) 0)
          (map (trendOf lastWeek sameWeekLastMonth)
               (allCategories lastWeek sameWeekLastMonth)))).

Definition spendingTrends (now : Z) (transactions : list Transaction.t) : list Trend.t :=
  trendsOfWindows (lastWeekCategorySpending now transactions)
                  (sameWeekLastMonthCategorySpending now transactions).

(** The [forEach] over [Object.entries(categorySpending)]. *)
Definition alertFor (budgetLimits : list BudgetLimit.t) (entry : string * Q)
  : list Alert.t :=
  let (category, amount) := entry in
  match find (fun b => String.eqb (BudgetLimit.category b) category) budgetLimits with
  | Some budgetLimit =>
      if gtb amount (BudgetLimit.monthly_limit budgetLimit)
      then [Alert.mk category amount (BudgetLimit.monthly_limit budgetLimit)
                     (amount - BudgetLimit.monthly_limit budgetLimit)%Q]
      else []
  | None => []
  end.

Definition budgetAlerts (transactions : list Transaction.t)
  (budgetLimits : list BudgetLimit.t) : list Alert.t :=
  flat_map (alertFor budgetLimits) (categorySpending transactions).

Definition isWeekend (t : Z) : bool := (getDay t =? 0)%Z || (getDay t =? 6)%Z.
Definition isWeekday (t : Z) : bool := (1 <=? getDay t)%Z && (getDay t <=? 5)%Z.

Definition weekendSpending (transactions : list Transaction.t) : Q :=
  total (filter (fun t => isExpense t && isWeekend (Transaction.created_at t))
                transactions).

Definition weekdaySpending (transactions : list Transaction.t) : Q :=
  total (filter (fun t => isExpense t && isWeekday (Transaction.created_at t))
                transactions).

Definition weekendPercentage (transactions : list Transaction.t) : Q :=
  ((weekendSpending transactions
    / (weekendSpending transactions + weekdaySpending transactions)) * 100)%Q.

Definition weekendPattern (transactions : list Transaction.t) : list pattern :=
  if gtb (weekendSpending transactions) 0 && gtb (weekdaySpending transactions) 0
  then
    if gtb (weekendPercentage transactions) 35
    then [weekend_spending (weekendPercentage transactions)]
    else []
  else [].

Definition sumAmounts (f : Trend.t -> Q) (l : list Trend.t) : Q :=
  fold_left (fun sum t => (sum + f t)%Q) l 0%Q.

Definition historicalPattern (now : Z) (trends : list Trend.t) : list pattern :=
  match trends with
  | [] => []
  | _ :: _ =>
      let totalLastWeek := sumAmounts Trend.amount trends in
      let totalSameWeekLastMonth := sumAmounts Trend.lastMonthAmount trends in
      if gtb totalSameWeekLastMonth 0
      then [historical_comparison
              (((totalLastWeek - totalSameWeekLastMonth) / totalSameWeekLastMonth) * 100)%Q
              (sameWeekLastMonthStart now) (sameWeekLastMonthEnd now)]
      else []
  end.

(** [now] is the value of [new Date()] read inside the function.  The
    [monthlyData] reduction of the source is never read afterwards and is
    left out. *)
Definition generateBasicInsights (now : Z) (transactions : list Transaction.t)
  (budgetLimits : list BudgetLimit.t) : BasicInsights.t :=
  match transactions with
  | [] => BasicInsights.mk [] [] [] []
  | _ :: _ =>
      let trends := spendingTrends now transactions in
      BasicInsights.mk trends []
        (budgetAlerts transactions budgetLimits)
        (weekendPattern transactions ++ historicalPattern now trends)
  end.

End Insights.

(** ** The budget analysis of [prepareTransactionSummary] *)

Module Summary.
Import JsNumber JsDate.

Inductive budgetStatus := over | warning | good.

Module BudgetLine.
Record t := mk {
  category : string;
  budgeted : Q;
  spent : Q;
  utilization : Z;
  status : budgetStatus
}.
End BudgetLine.

(** [Math.round]: the nearest integer, halves upwards. *)
Definition round (x : Q) : Z := Qfloor (x + (1 # 2))%Q.

Definition currentMonthTransactions (now : Z) (transactions : list Transaction.t) :=
  filter (fun t => (getMonth (Transaction.created_at t) =? getMonth now)%Z
                   && (getFullYear (Transaction.created_at t) =? getFullYear now)%Z)
         transactions.

(** Spending by category, over the expenses of the current month. *)
Definition categorySpending (now : Z) (transactions : list Transaction.t) : JsRecord.t :=
  Insights.sumByCategory
    (filter Insights.isExpense (currentMonthTransactions now transactions)).

Definition budgetAnalysis (now : Z) (transactions : list Transaction.t)
  (budgetLimits : list BudgetLimit.t) : list BudgetLine.t :=
  map (fun limit =>
         let spent :=
           JsRecord.getOrZero (categorySpending now transactions)
                              (BudgetLimit.category limit) in
         let utilization := ((spent / BudgetLimit.monthly_limit limit) * 100)%Q in
         BudgetLine.mk (BudgetLimit.category limit)
                       (BudgetLimit.monthly_limit limit)
                       spent
                       (round utilization)
                       (if gtb utilization 100 then over
                        else if gtb utilization 80 then warning
                        else good))
      budgetLimits.

End Summary.

(** ** The recommendation cache of the AIInsights component *)

Module Cache.

Module CachedAIRecommendations.
Record t := mk {
  data : list AIRecommendation.t;
  timestamp : Z
}.
End CachedAIRecommendations.

(** What [localStorage.getItem('ai-recommendations-cache')] holds: the
    JSON text of a cache record, or text on which [JSON.parse] or the
    field access throws. *)
Inductive storedItem :=
  | Json (cache : CachedAIRecommendations.t)
  | Malformed.

(** The React state of the component that the cache code reads and
    writes, the browser's storage slot, and the number of requests sent
    to the recommendation endpoint so far. *)
Record state := mkState {
  aiRecommendations : list AIRecommendation.t;
  cachedAIRecommendations : option CachedAIRecommendations.t;
  isRefreshingAI : bool;
  lastAIRefresh : option Z;
  aiRecommendationsError : string;
  localStorage : option storedItem;
  requestsSent : nat
}.

Definition cacheValidDuration : Z := 7 * 24 * 60 * 60 * 1000.

(** The mount effect; [now] is [Date.now()].  A [JSON.parse] failure is
    caught and only logged. *)
Definition loadCachedOnMount (now : Z) (s : state) : state :=
  match localStorage s with
  | None => s
  | Some Malformed => s
  | Some (Json parsedCache) =>
      if (now - CachedAIRecommendations.timestamp parsedCache <? cacheValidDuration)%Z
      then mkState (CachedAIRecommendations.data parsedCache)
                   (Some parsedCache)
                   (isRefreshingAI s)
                   (Some (CachedAIRecommendations.timestamp parsedCache))
                   (aiRecommendationsError s)
                   (localStorage s)
                   (requestsSent s)
      else mkState [] None (isRefreshingAI s) None (aiRecommendationsError s)
                   None (requestsSent s)
  end.

Definition isCacheValid (now : Z) (s : state) : bool :=
  match cachedAIRecommendations s with
  | None => false
  | Some cached => (now - CachedAIRecommendations.timestamp cached <? cacheValidDuration)%Z
  end.

(** How the POST to the recommendation endpoint ends. *)
Inductive response :=
  | NetworkFailure (message : string)
  | NotOk (error : option string)
  | BadBody (message : string)
  | Ok (recommendations : option (list AIRecommendation.t)).

Definition exn := string.

(** [errorData.error || 'Failed to generate AI recommendations']. *)
Definition errorText (error : option string) : string :=
  match error with
  | Some (String c rest) => String c rest
  | _ => "Failed to generate AI recommendations"
  end.

(** [fetchAIRecommendations]: the recommendations, or the exception it
    rethrows; and whether a request left the browser. *)
Definition fetchAIRecommendations (user : option string) (r : response)
  : (exn + list AIRecommendation.t) * bool :=
  match user with
  | None => (inl "User not authenticated", false)
  | Some _ =>
      match r with
      | NetworkFailure message => (inl message, true)
      | NotOk error => (inl (errorText error), true)
      | BadBody message => (inl message, true)
      | Ok (Some recommendations) => (inr recommendations, true)
      | Ok None => (inr [], true)
      end
  end.

(** What one run of [generateAIRecommendations] reads from outside the
    component state. *)
Record env := mkEnv {
  transactions : list Transaction.t;
  user : option string;
  reply : response;
  now : Z;
  refreshedAt : Z;
  storageWritable : bool
}.

Definition failureMessage : string :=
  "Failed to generate AI recommendations. Please try refreshing manually.".

Definition countRequest (sent : bool) (n : nat) : nat := if sent then S n else n.

(** The state once the promise of [generateAIRecommendations] has
    settled.  While it is pending the source holds [isRefreshingAI] at
    [true] and the error text empty; the [finally] block puts
    [isRefreshingAI] back to [false].  The request body (transaction
    summary, economic context) does not influence what the component does
    with the reply and is not modelled. *)
Definition generateAIRecommendations (e : env) (s : state) : state :=
  match transactions e with
  | [] => s
  | _ :: _ =>
      let (result, sent) := fetchAIRecommendations (user e) (reply e) in
      match result with
      | inr recommendations =>
          let newCachedRecommendations := CachedAIRecommendations.mk recommendations (now e) in
          mkState recommendations
                  (Some newCachedRecommendations)
                  false
                  (Some (refreshedAt e))
                  ""
                  (if storageWritable e then Some (Json newCachedRecommendations)
                   else localStorage s)
                  (countRequest sent (requestsSent s))
      | inl _ =>
          mkState (aiRecommendations s)
                  (cachedAIRecommendations s)
                  false
                  (lastAIRefresh s)
                  failureMessage
                  (localStorage s)
                  (countRequest sent (requestsSent s))
      end
  end.

Definition handleManualRefresh (e : env) (s : state) : state :=
  generateAIRecommendations e
    (mkState (aiRecommendations s) None (isRefreshingAI s) (lastAIRefresh s)
             (aiRecommendationsError s) None (requestsSent s)).

End Cache.

(** ** Vocabulary of the statements *)

Module Spec.
Import JsDate.

(** The expenses of [category] created in the half-open window
    [[from, to)], and their total. *)
Definition expensesIn (from to : Z) (category : string)
  (transactions : list Transaction.t) : list Transaction.t :=
  filter (fun t => Insights.isExpense t
                   && String.eqb (Transaction.category t) category
                   && ((from <=? Transaction.created_at t)%Z
                       && (Transaction.created_at t <? to)%Z))
         transactions.

Definition spentIn (from to : Z) (category : string)
  (transactions : list Transaction.t) : Q :=
  Insights.total (expensesIn from to category transactions).

(** The total of the expenses of [category] in a list. *)
Definition spentOn (category : string) (transactions : list Transaction.t) : Q :=
  Insights.total
    (filter (fun t => Insights.isExpense t
                      && String.eqb (Transaction.category t) category)
            transactions).


(** The total of all expenses of a list. *)
Definition totalExpenses (transactions : list Transaction.t) : Q :=
  Insights.total (filter Insights.isExpense transactions).

(** The weekend-spending entry is among the patterns. *)
Definition weekendPatternEmitted (patterns : list pattern) : Prop :=
  exists weekendPercentage, In (weekend_spending weekendPercentage) patterns.

(** Amounts are in descending order along the list. *)
Definition descending (l : list Trend.t) : Prop :=
  StronglySorted (fun a b => (Trend.amount b <= Trend.amount a)%Q) l.

(** Every amount of the list is non-negative (the data model has
    [amount > 0]). *)
Definition amountsNonNegative (transactions : list Transaction.t) : Prop :=
  Forall (fun t => (0 <= Transaction.amount t)%Q) transactions.

End Spec.

(** ** Sample data *)

Module Sample.
Import JsDate.

(** Noon of a day given by its number since 1970-01-01. *)
Definition noon (day : Z) : Z := (day * msPerDay + 43200000)%Z.

(** Wednesday 18 June 2025: the week started on Sunday 15 June (day
    20254), last week ran 8..14 June and the earlier window 11..17 May. *)
Definition now : Z := noon 20257.

Definition transactions : list Transaction.t :=
  [ Transaction.mk "t1" 60 expense "Food" "lunches" (noon 20249);
    Transaction.mk "t2" 300 expense "Travel" "train tickets" (noon 20253);
    Transaction.mk "t3" 2000 income "Salary" "June salary" (noon 20248);
    Transaction.mk "t4" 40 expense "Food" "lunches" (noon 20221);
    Transaction.mk "t5" 80 expense "Bills" "electricity" (noon 20220);
    Transaction.mk "t6" 150 expense "Food" "dinner party" (noon 20104) ].

Definition budgetLimits : list BudgetLimit.t :=
  [ BudgetLimit.mk "Food" 100; BudgetLimit.mk "Travel" 500 ].



(** One expense of 150 on 16 January 2025 against a monthly limit of 100,
    looked at on 15 June 2025. *)
Definition january : list Transaction.t :=
  [ Transaction.mk "t1" 150 expense "Food" "dinner party" (noon 20104) ].

Definition foodLimit : list BudgetLimit.t := [ BudgetLimit.mk "Food" 100 ].

Definition june15 : Z := noon 20254.

(** A cached recommendation written at instant 1000, displayed. *)
Definition recommendation : AIRecommendation.t :=
  AIRecommendation.mk "savings" "Build an emergency fund"
    "Set aside three months of expenses" high (Some 50%Q) None None (9 # 10).

Definition cached : Cache.CachedAIRecommendations.t :=
  Cache.CachedAIRecommendations.mk [recommendation] 1000.

Definition displayed : Cache.state :=
  Cache.mkState [recommendation] (Some cached) false (Some 1000%Z) ""
                (Some (Cache.Json cached)) 0.

(** Exactly seven days after the cache was written. *)
Definition weekLater : Z := (1000 + 604800000)%Z.

(** A refresh, eight days later, that the network fails. *)
Definition offline : Cache.env :=
  Cache.mkEnv transactions (Some "user-1") (Cache.NetworkFailure "Failed to fetch")
              (1000 + 691200000)%Z (1000 + 691200000)%Z true.

End Sample.

(** ** Further vocabulary: strings *)

Module Text.
Import JsString.

(** Whether some character of [s] is a digit. *)
Fixpoint hasDigit (s : string) : bool :=
  match s with
  | EmptyString => false
  | String c s' => isDigit c || hasDigit s'
  end.

(** Whether every character of [s] is a digit. *)
Fixpoint allDigits (s : string) : bool :=
  match s with
  | EmptyString => true
  | String c s' => isDigit c && allDigits s'
  end.

(** The optional dollar sign a match has consumed. *)
Definition dollarText (m : AmountRegex.matchResult) : string :=
  if AmountRegex.dollar m then "$" else "".

(** The names of a keyword table. *)
Definition names (table : list (string * list string)) : list string :=
  map fst table.

(** Whether some keyword of the list occurs in [text]. *)
Definition mentions (text : string) (keywords : list string) : bool :=
  existsb (includes text) keywords.

End Text.

(** ** JSON values as JavaScript sees them *)

Module Json.

#[local] Set Warnings "-register-all".

(** The result of [JSON.parse], and [undefined] for what a property
    access may give.  An object lists its own properties, each key
    once. *)
Inductive value :=
  | undefined
  | null
  | boolean (b : bool)
  | number (q : Q)
  | text (s : string)
  | array (items : list value)
  | object (fields : list (string * value)).

(** Truthiness: what [!v], [v || d] and [if (v)] look at. *)
Definition truthy (v : value) : bool :=
  match v with
  | undefined | null => false
  | boolean b => b
  | number q => negb (Qeq_bool q 0)
  | text s => negb (Analyzer.isEmpty s)
  | array _ | object _ => true
  end.

(** [a || b]. *)
Definition or (a b : value) : value := if truthy a then a else b.

Fixpoint lookup (fields : list (string * value)) (k : string) : value :=
  match fields with
  | [] => undefined
  | (k', v) :: rest => if String.eqb k' k then v else lookup rest k
  end.

(** [v.k] for one of the property names the code reads (none of them is
    a built-in property of a string, number, boolean or array): [None]
    is the [TypeError] of reading a property of [null] or [undefined]. *)
Definition get (v : value) (k : string) : option value :=
  match v with
  | undefined | null => None
  | object fields => Some (lookup fields k)
  | _ => Some undefined
  end.

(** [typeof v === 'number']. *)
Definition isNumber (v : value) : bool :=
  match v with number _ => true | _ => false end.

End Json.

(** ** The analyze-audio function: key lookup, AI analysis, handler *)

Module AudioFunction.

(** What a REST call to the database ends in: the [fetch] rejects, or a
    response arrives with its [ok] flag and, when its body is JSON, the
    rows. *)
Inductive rest (A : Type) :=
  | Rejected (message : string)
  | Response (ok : bool) (rows : option (list A)).
Arguments Rejected {A} message.
Arguments Response {A} ok rows.

(** A thrown [Error], by its message. *)
Definition exn := string.

(** What [getOpenAIApiKey] reads: the subscription rows (their
    [subscription_status]), the [OPENAI_API_KEY] of the server, the
    profile rows (their [openai_api_key]), and the message of the
    [SyntaxError] of a body that is not JSON. *)
Record keyEnv := mkKeyEnv {
  subscription : rest (option string);
  serverKey : option string;
  profile : rest (option string);
  syntaxError : string
}.

(** [s || null] on an optional string. *)
Definition nonEmpty (o : option string) : option string :=
  match o with
  | Some (String c s) => Some (String c s)
  | _ => None
  end.

Definition isActive (row : option string) : bool :=
  match row with
  | Some status => String.eqb status "active"
  | None => false
  end.

(** [subscriptionData.length > 0 && subscriptionData[0]?.subscription_status
    === 'active'], when the response is [ok]. *)
Definition hasActivePro (e : keyEnv) : exn + bool :=
  match subscription e with
  | Rejected message => inl message
  | Response false _ => inr false
  | Response true None => inl (syntaxError e)
  | Response true (Some []) => inr false
  | Response true (Some (row :: _)) => inr (isActive row)
  end.

(** [getOpenAIApiKey]: the exception it rethrows, or the key ([None] is
    [null]) with the [isPro] flag. *)
Definition getOpenAIApiKey (e : keyEnv) : exn + (option string * bool) :=
  match hasActivePro e with
  | inl message => inl message
  | inr true =>
      match nonEmpty (serverKey e) with
      | None =>
          inl "Server configuration error: OpenAI API key not configured for Pro users"
      | Some proApiKey => inr (Some proApiKey, true)
      end
  | inr false =>
      match profile e with
      | Rejected message => inl message
      | Response false _ => inl "Failed to fetch user profile"
      | Response true None => inl (syntaxError e)
      | Response true (Some []) => inr (None, false)
      | Response true (Some (row :: _)) => inr (nonEmpty row, false)
      end
  end.

(** The object [analyzeTransactionWithAI] returns.  On the AI path
    [type], [category], [description] and [confidence] are passed on as
    parsed, whatever their JSON type. *)
Record result := mkResult {
  type : Json.value;
  category : Json.value;
  amount : Q;
  description : Json.value;
  confidence : Json.value
}.

Definition typeName (t : txType) : string :=
  match t with
  | income => "income"
  | expense => "expense"
  end.

Definition fallbackResult (transcript : string) : result :=
  let r := Analyzer.analyzeTranscriptFallback transcript in
  mkResult (Json.text (typeName (Analyzer.type r)))
           (Json.text (Analyzer.category r))
           (Analyzer.amount r)
           (Json.text (Analyzer.description r))
           (Json.number (Analyzer.confidence r)).

(** How far the [try] block of [analyzeTransactionWithAI] gets: it
    throws before an analysis is parsed (the request fails, the status is
    not 2xx, the content is empty, the content is not JSON), or
    [JSON.parse] returns a value. *)
Inductive completion :=
  | Failed (message : string)
  | Parsed (analysis : Json.value).

Definition numberOf (v : Json.value) : Q :=
  match v with Json.number q => q | _ => 0%Q end.

Definition analyzeTransactionWithAI (c : completion) (transcript : string) : result :=
  match c with
  | Failed _ => fallbackResult transcript
  | Parsed analysis =>
      match Json.get analysis "type", Json.get analysis "category",
            Json.get analysis "amount", Json.get analysis "description",
            Json.get analysis "confidence" with
      | Some type, Some category, Some amount, Some description, Some confidence =>
          if negb (Json.truthy type) || negb (Json.truthy category)
             || negb (Json.isNumber amount)
          then fallbackResult transcript
          else mkResult type category (Qabs (numberOf amount))
                        (Json.or description (Json.text "Transaction"))
                        (Json.or confidence (Json.number 0.5))
      | _, _, _, _, _ => fallbackResult transcript
      end
  end.

(** The JSON body of a request, typed as [AudioAnalysisRequest]; a
    missing field reads as the empty string. *)
Record body := mkBody {
  audioData : string;
  transcript : string;
  userId : string
}.

Record request := mkRequest {
  method : string;
  json : exn + body
}.

(** What the handler reads from outside: the key lookup, what
    [transcribeAudio] returns or throws, and the chat completion. *)
Record env := mkEnv {
  keys : keyEnv;
  transcription : exn + string;
  chat : completion
}.

(** The services a run has contacted, in order. *)
Inductive call := KeyLookup | Transcription | ChatCompletion.

Inductive payload :=
  | NoBody
  | Error (message : string)
  | Analysis (transcript : string) (r : result).

Record response := mkResponse {
  status : Z;
  content : payload;
  calls : list call
}.

(** [error.message || 'Failed to analyze audio'], status 500. *)
Definition failure (message : exn) (calls : list call) : response :=
  mkResponse 500
    (Error (if Analyzer.isEmpty message then "Failed to analyze audio" else message))
    calls.

(** The handler passed to [Deno.serve]. *)
Definition serve (req : request) (e : env) : response :=
  if String.eqb (method req) "OPTIONS" then mkResponse 200 NoBody []
  else if negb (String.eqb (method req) "POST")
  then mkResponse 405 (Error "Method not allowed") []
  else
    match json req with
    | inl message => failure message []
    | inr b =>
        if Analyzer.isEmpty (userId b) then failure "User ID is required" []
        else
          match getOpenAIApiKey (keys e) with
          | inl message => failure message [KeyLookup]
          | inr (None, _) =>
              failure "OpenAI API key not available. Please upgrade to Pro or add your own API key."
                      [KeyLookup]
          | inr (Some openaiApiKey, _) =>
              let transcribed :=
                if Analyzer.isEmpty (transcript b) && negb (Analyzer.isEmpty (audioData b))
                then Some (transcription e)
                else None in
              let calls :=
                match transcribed with
                | Some _ => [KeyLookup; Transcription]
                | None => [KeyLookup]
                end in
              match transcribed with
              | Some (inl message) =>
                  failure ("Failed to transcribe audio: " ++ message)%string calls
              | _ =>
                  let finalTranscript :=
                    match transcribed with
                    | Some (inr text) => text
                    | _ => transcript b
                    end in
                  if Analyzer.isEmpty finalTranscript
                  then failure "No transcript available and audio transcription failed" calls
                  else mkResponse 200
                         (Analysis finalTranscript
                            (analyzeTransactionWithAI (chat e) finalTranscript))
                         (calls ++ [ChatCompletion])
              end
          end
    end.

End AudioFunction.

(** ** The ai-insights function: cleaning and formatting the reply *)

Module InsightsFunction.
Import JsString.

Fixpoint drop (n : nat) (s : string) : string :=
  match n, s with
  | O, _ => s
  | S n', String _ s' => drop n' s'
  | S _, EmptyString => EmptyString
  end.

(** [s.endsWith(k)]. *)
Definition endsWith (s k : string) : bool :=
  startsWith (reverse "" s) (reverse "" k).

(** [s.replace(/^```json\s*/, '')] and [s.replace(/^```\s*/, '')]: an
    opening fence at the head of [s] goes, with the white space after
    it. *)
Definition stripOpening (opening s : string) : string :=
  if startsWith s opening
  then trimStart (drop (String.length opening) s)
  else s.

(** [s.replace(/\s*```$/, '')]: a closing fence at the very end of [s]
    goes, with the white space before it. *)
Definition stripClosing (s : string) : string :=
  if endsWith s "```"
  then reverse "" (trimStart (drop 3 (reverse "" s)))
  else s.

(** The clean-up of the content before [JSON.parse]. *)
Definition cleanContent (content : string) : string :=
  let cleanContent := trim content in
  if startsWith cleanContent "```json"
  then stripClosing (stripOpening "```json" cleanContent)
  else if startsWith cleanContent "```"
  then stripClosing (stripOpening "```" cleanContent)
  else cleanContent.

(** The callback of [recommendations.map]; [None] is the [TypeError] of
    reading a property of [null]. *)
Definition formatRecommendation (rec : Json.value) : option Json.value :=
  match Json.get rec "type", Json.get rec "title", Json.get rec "description",
        Json.get rec "impact", Json.get rec "savings", Json.get rec "actionItems",
        Json.get rec "economicContext", Json.get rec "confidence" with
  | Some type, Some title, Some description, Some impact, Some savings,
    Some actionItems, Some economicContext, Some confidence =>
      Some (Json.object
              [ ("type", Json.or type (Json.text "general"));
                ("title", Json.or title (Json.text "Financial Recommendation"));
                ("description", Json.or description (Json.text ""));
                ("impact", Json.or impact (Json.text "medium"));
                ("savings", Json.or savings (Json.number 0));
                ("actionItems", Json.or actionItems (Json.array []));
                ("economicContext", Json.or economicContext (Json.text ""));
                ("confidence", Json.or confidence (Json.number 0.8)) ])
  | _, _, _, _, _, _, _, _ => None
  end.

Fixpoint mapAll (items : list Json.value) : option (list Json.value) :=
  match items with
  | [] => Some []
  | rec :: rest =>
      match formatRecommendation rec with
      | None => None
      | Some formatted =>
          match mapAll rest with
          | None => None
          | Some others => Some (formatted :: others)
          end
      end
  end.

(** [recommendations.map(...)] on the parsed reply: only an array has
    [map]; on anything else the call throws. *)
Definition formatRecommendations (parsed : Json.value) : option (list Json.value) :=
  match parsed with
  | Json.array items => mapAll items
  | _ => None
  end.

End InsightsFunction.

(** Vocabulary for strings with white space. *)
Module Blank.
Import JsString.

(** Whether [s] is white space throughout. *)
Fixpoint allSpace (s : string) : bool :=
  match s with
  | EmptyString => true
  | String c s' => isSpace c && allSpace s'
  end.

(** The keys of a formatted recommendation. *)
Definition recommendationKeys : list string :=
  ["type"; "title"; "description"; "impact"; "savings"; "actionItems";
   "economicContext"; "confidence"].

(** A formatted recommendation: the eight keys in order, with type,
    title, impact and confidence truthy. *)
Definition wellFormed (rec : Json.value) : Prop :=
  exists fields,
    rec = Json.object fields
    /\ map fst fields = recommendationKeys
    /\ Json.truthy (Json.lookup fields "type") = true
    /\ Json.truthy (Json.lookup fields "title") = true
    /\ Json.truthy (Json.lookup fields "impact") = true
    /\ Json.truthy (Json.lookup fields "confidence") = true.

(** What the reply says under a key, when truthy, is what the formatted
    recommendation says. *)
Definition keeps (rec formatted : Json.value) : Prop :=
  forall k v,
    In k recommendationKeys ->
    Json.get rec k = Some v -> Json.truthy v = true ->
    Json.get formatted k = Some v.

Definition newline : string := String (ascii_of_nat 10) "".

End Blank.

(** ** More of the AIInsights component *)

Module CacheView.
Import Cache.

(** An integer below 10^21 in a template literal: its decimal digits. *)
Definition show (n : Z) : string :=
  NilZero.string_of_uint (N.to_uint (Z.to_N n)).

(** [getCacheTimeRemaining]; [None] is [null].  The remaining time is
    positive where [Math.floor] and [%] are applied, so they are
    [Z.div] and [Z.modulo]. *)
Definition getCacheTimeRemaining (now : Z) (s : state) : option string :=
  match cachedAIRecommendations s with
  | None => None
  | Some cached =>
      let timeRemaining :=
        (cacheValidDuration - (now - CachedAIRecommendations.timestamp cached))%Z in
      if (timeRemaining <=? 0)%Z then None
      else
        let daysRemaining := (timeRemaining / (24 * 60 * 60 * 1000))%Z in
        let hoursRemaining :=
          ((timeRemaining mod (24 * 60 * 60 * 1000)) / (60 * 60 * 1000))%Z in
        if (0 <? daysRemaining)%Z
        then Some (show daysRemaining ++ "d " ++ show hoursRemaining ++ "h")%string
        else Some (show hoursRemaining ++ "h")%string
  end.

(** Vocabulary: the label for [days] whole days and [hours] whole hours. *)
Definition label (days hours : Z) : string :=
  if (0 <? days)%Z
  then (show days ++ "d " ++ show hours ++ "h")%string
  else (show hours ++ "h")%string.

(** The state of a component that has just been created, over what the
    browser has stored: the initial values of its [useState] calls. *)
Definition initial (storage : option storedItem) : state :=
  mkState [] None false None "" storage 0.

End CacheView.

(** ** More of [prepareTransactionSummary] *)

Module SummaryMonths.
Import JsDate.

Definition prevMonth (now : Z) : Z :=
  if (getMonth now =? 0)%Z then 11%Z else (getMonth now - 1)%Z.

Definition prevYear (now : Z) : Z :=
  if (getMonth now =? 0)%Z then (getFullYear now - 1)%Z else getFullYear now.

Definition prevMonthTransactions (now : Z) (transactions : list Transaction.t) :=
  filter (fun t => (getMonth (Transaction.created_at t) =? prevMonth now)%Z
                   && (getFullYear (Transaction.created_at t) =? prevYear now)%Z)
         transactions.

Definition isIncome (t : Transaction.t) : bool :=
  match Transaction.type t with
  | income => true
  | expense => false
  end.

Definition currentIncome (now : Z) (transactions : list Transaction.t) : Q :=
  Insights.total (filter isIncome (Summary.currentMonthTransactions now transactions)).

Definition currentExpenses (now : Z) (transactions : list Transaction.t) : Q :=
  Insights.total
    (filter Insights.isExpense (Summary.currentMonthTransactions now transactions)).

(** Vocabulary: the months counted from year 0, and the expenses of a
    category made in the month of [now]. *)
Definition monthIndex (t : Z) : Z := (12 * getFullYear t + getMonth t)%Z.

Definition spentThisMonth (now : Z) (category : string)
  (transactions : list Transaction.t) : Q :=
  Insights.total
    (filter (fun t => Insights.isExpense t
                      && String.eqb (Transaction.category t) category
                      && (monthIndex (Transaction.created_at t) =? monthIndex now)%Z)
            transactions).

(** Limits as the table constrains them: positive, one per category. *)
Definition validLimits (budgetLimits : list BudgetLimit.t) : Prop :=
  Forall (fun b => (0 < BudgetLimit.monthly_limit b)%Q) budgetLimits
  /\ NoDup (map BudgetLimit.category budgetLimits).

End SummaryMonths.

(** ** Sample requests to the analyze-audio function *)

Module AudioSample.
Import AudioFunction.

(** A user without subscription who has stored a key of their own. *)
Definition ownKey : keyEnv :=
  mkKeyEnv (Response true (Some [])) None
           (Response true (Some [Some "sk-user"])) "Unexpected token".

(** A subscriber, on a server whose key is configured; the profile also
    holds a personal key. *)
Definition subscriber : keyEnv :=
  mkKeyEnv (Response true (Some [Some "active"])) (Some "sk-server")
           (Response true (Some [Some "sk-user"])) "Unexpected token".

(** The chat completion is down; a transcription would have succeeded. *)
Definition chatDown : env :=
  mkEnv ownKey (inr "Coffee for 4") (Failed "OpenAI API error: Unknown error").

(** A request that brings its transcript along with the audio. *)
Definition withTranscript : request :=
  mkRequest "POST" (inr (mkBody "UklGRg==" "Paid $50 for gas" "user-1")).

(** A request with neither transcript nor audio. *)
Definition emptyRequest : request :=
  mkRequest "POST" (inr (mkBody "" "" "user-1")).

(** Six bare objects in a reply. *)
Definition sixBare : Json.value := Json.array (repeat (Json.object []) 6).

End AudioSample.

(** ** Vocabulary: the runs of the analyze-audio handler *)

Module AudioRuns.
Import AudioFunction.

(** The ways a request can go, with the services contacted on the
    way. *)
Inductive run (req : request) (e : env) : response -> Prop :=
  | run_preflight :
      method req = "OPTIONS" ->
      run req e (mkResponse 200 NoBody [])
  | run_not_allowed :
      method req <> "OPTIONS" -> method req <> "POST" ->
      run req e (mkResponse 405 (Error "Method not allowed") [])
  | run_failure (message : exn) (l : list call) :
      method req = "POST" ->
      (l = [] \/ l = [KeyLookup]
       \/ (l = [KeyLookup; Transcription]
           /\ exists key pro, getOpenAIApiKey (keys e) = inr (Some key, pro))) ->
      run req e (failure message l)
  | run_analysis (b : body) (key : string) (pro : bool) (text : string) (l : list call) :
      method req = "POST" ->
      json req = inr b ->
      userId b <> "" ->
      getOpenAIApiKey (keys e) = inr (Some key, pro) ->
      text <> "" ->
      (transcript b = text /\ l = [KeyLookup; ChatCompletion]
       \/ transcript b = "" /\ audioData b <> "" /\ transcription e = inr text
          /\ l = [KeyLookup; Transcription; ChatCompletion]) ->
      run req e (mkResponse 200 (Analysis text (analyzeTransactionWithAI (chat e) text)) l).

End AudioRuns.

(** ** Sample data for the insights and the cache *)

Module InsightSample.

(** A run that the endpoint answers with one recommendation, at instant
    5000. *)
Definition online : Cache.env :=
  Cache.mkEnv Sample.transactions (Some "user-1")
              (Cache.Ok (Some [Sample.recommendation])) 5000 5000 true.



(** 16 January 2025, and one expense of 31 December 2024. *)
Definition january16 : Z := Sample.noon 20104.

Definition newYearsEve : Transaction.t :=
  Transaction.mk "t1" 25 expense "Drinks" "party" (Sample.noon 20088).

(** Six categories with expenses on 11 June 2025, in the week before that
    of [Sample.now]. *)
Definition sixCategories : list Transaction.t :=
  [ Transaction.mk "t1" 10 expense "Snacks" "crisps" (Sample.noon 20250);
    Transaction.mk "t2" 60 expense "Food" "dinner" (Sample.noon 20250);
    Transaction.mk "t3" 50 expense "Travel" "train" (Sample.noon 20250);
    Transaction.mk "t4" 40 expense "Bills" "water" (Sample.noon 20250);
    Transaction.mk "t5" 30 expense "Shopping" "shirt" (Sample.noon 20250);
    Transaction.mk "t6" 20 expense "Drinks" "coffee" (Sample.noon 20250) ].

End InsightSample.

(** ** The ai-insights function: key lookup and handler *)

Module InsightsHandler.

Definition exn := AudioFunction.exn.

(** What [getOpenAIApiKey] of this function reads: the customer rows of
    the user (their [customer_id]), the subscription rows of the first
    customer (their [status]), the [OPENAI_API_KEY] of the server, the
    profile rows (their [openai_api_key]), and the message of the
    [SyntaxError] of a body that is not JSON. *)
Record keyEnv := mkKeyEnv {
  customers : AudioFunction.rest (option string);
  subscriptions : AudioFunction.rest (option string);
  serverKey : option string;
  profile : AudioFunction.rest (option string);
  syntaxError : string
}.

(** The subscription is looked up only for a customer that exists. *)
Definition hasActivePro (e : keyEnv) : exn + bool :=
  match customers e with
  | AudioFunction.Rejected message => inl message
  | AudioFunction.Response false _ => inr false
  | AudioFunction.Response true None => inl (syntaxError e)
  | AudioFunction.Response true (Some []) => inr false
  | AudioFunction.Response true (Some (_ :: _)) =>
      match subscriptions e with
      | AudioFunction.Rejected message => inl message
      | AudioFunction.Response false _ => inr false
      | AudioFunction.Response true None => inl (syntaxError e)
      | AudioFunction.Response true (Some []) => inr false
      | AudioFunction.Response true (Some (row :: _)) =>
          inr (AudioFunction.isActive row)
      end
  end.

(** [getOpenAIApiKey]: the exception it rethrows, or the key ([None] is
    [null]). *)
Definition getOpenAIApiKey (e : keyEnv) : exn + option string :=
  match hasActivePro e with
  | inl message => inl message
  | inr true =>
      match AudioFunction.nonEmpty (serverKey e) with
      | None =>
          inl "Server configuration error: OpenAI API key not configured for Pro users"
      | Some proApiKey => inr (Some proApiKey)
      end
  | inr false =>
      match profile e with
      | AudioFunction.Rejected message => inl message
      | AudioFunction.Response false _ => inl "Failed to fetch user profile"
      | AudioFunction.Response true None => inl (syntaxError e)
      | AudioFunction.Response true (Some []) => inr None
      | AudioFunction.Response true (Some (row :: _)) =>
          inr (AudioFunction.nonEmpty row)
      end
  end.

(** What [generateAIRecommendations] meets: the chat completion throws
    before the content is read (the request fails, the status is not 2xx,
    the body is not what is expected), or gives a content, [None] when it
    is missing; what [JSON.parse] makes of a text; and the message of the
    [TypeError] of formatting something that is not an array of
    objects. *)
Record chatEnv := mkChatEnv {
  reply : exn + option string;
  parse : string -> exn + Json.value;
  typeError : string
}.

Definition generateAIRecommendations (c : chatEnv) : exn + list Json.value :=
  match reply c with
  | inl message => inl message
  | inr None => inl "No response from OpenAI"
  | inr (Some content) =>
      if Analyzer.isEmpty content then inl "No response from OpenAI"
      else
        match parse c (InsightsFunction.cleanContent content) with
        | inl message => inl message
        | inr recommendations =>
            match InsightsFunction.formatRecommendations recommendations with
            | None => inl (typeError c)
            | Some formatted => inr formatted
            end
        end
  end.

(** The JSON body of a request, typed as [AIInsightsRequest]; a missing
    field reads as the empty string. *)
Record body := mkBody {
  userId : string;
  transactionSummary : string;
  economicContext : string
}.

Record request := mkRequest {
  method : string;
  json : exn + body
}.

Record env := mkEnv {
  keys : keyEnv;
  chat : chatEnv
}.

(** The services a run has contacted, in order. *)
Inductive call := KeyLookup | ChatCompletion.

Inductive payload :=
  | NoBody
  | Error (message : string)
  | Recommendations (recommendations : list Json.value).

Record response := mkResponse {
  status : Z;
  content : payload;
  calls : list call
}.

(** [error.message || 'Failed to generate AI insights'], status 500. *)
Definition failure (message : exn) (calls : list call) : response :=
  mkResponse 500
    (Error (if Analyzer.isEmpty message then "Failed to generate AI insights"
            else message))
    calls.

(** The handler passed to [Deno.serve]. *)
Definition serve (req : request) (e : env) : response :=
  if String.eqb (method req) "OPTIONS" then mkResponse 200 NoBody []
  else if negb (String.eqb (method req) "POST")
  then mkResponse 405 (Error "Method not allowed") []
  else
    match json req with
    | inl message => failure message []
    | inr b =>
        if Analyzer.isEmpty (userId b) then failure "User ID is required" []
        else
          match getOpenAIApiKey (keys e) with
          | inl message => failure message [KeyLookup]
          | inr None =>
              failure "OpenAI API key not available. Please upgrade to Pro or add your own API key."
                      [KeyLookup]
          | inr (Some openaiApiKey) =>
              match generateAIRecommendations (chat e) with
              | inl message => failure message [KeyLookup; ChatCompletion]
              | inr recommendations =>
                  mkResponse 200 (Recommendations recommendations)
                             [KeyLookup; ChatCompletion]
              end
          end
    end.

End InsightsHandler.

(** Sample runs of the ai-insights function. *)
Module InsightsHandlerSample.
Import InsightsHandler.

(** A user who is no customer, with a key of their own; the subscription
    table would answer with an active row. *)
Definition noCustomer : keyEnv :=
  mkKeyEnv (AudioFunction.Response true (Some []))
           (AudioFunction.Response true (Some [Some "active"]))
           (Some "sk-server")
           (AudioFunction.Response true (Some [Some "sk-user"]))
           "Unexpected token".

(** A customer whose first subscription row is active. *)
Definition subscriber : keyEnv :=
  mkKeyEnv (AudioFunction.Response true (Some [Some "cus_1"]))
           (AudioFunction.Response true (Some [Some "active"]))
           (Some "sk-server")
           (AudioFunction.Response true (Some [Some "sk-user"]))
           "Unexpected token".

(** A reply in a fence, read by a parser that knows this one text. *)
Definition fenced : chatEnv :=
  mkChatEnv (inr (Some "```json
[{}]
```"))
            (fun text =>
               if String.eqb text "[{}]" then inr (Json.array [Json.object []])
               else inl "Unexpected token")
            "recommendations.map is not a function".

Definition post : request :=
  mkRequest "POST" (inr (mkBody "user-1" "CURRENT MONTH" "inflation")).

End InsightsHandlerSample.

(** ** The Dashboard: the transaction list and its totals *)

Module Dashboard.
Import JsDate.

(** The three updates of the [transactions] state, as functions of the
    previous list. *)
Definition addTransaction (transaction : Transaction.t)
  (prev : list Transaction.t) : list Transaction.t :=
  transaction :: prev.

Definition updateTransaction (updatedTransaction : Transaction.t)
  (prev : list Transaction.t) : list Transaction.t :=
  map (fun t =>
         if String.eqb (Transaction.id t) (Transaction.id updatedTransaction)
         then updatedTransaction else t)
      prev.

Definition deleteTransaction (transactionId : string)
  (prev : list Transaction.t) : list Transaction.t :=
  filter (fun t => negb (String.eqb (Transaction.id t) transactionId)) prev.



(** The two month cards compare [getMonth()] alone. *)
Definition thisMonthIncome (now : Z) (transactions : list Transaction.t) : Q :=
  Insights.total
    (filter (fun t => SummaryMonths.isIncome t
                      && (getMonth (Transaction.created_at t) =? getMonth now)%Z)
            transactions).

Definition thisMonthExpenses (now : Z) (transactions : list Transaction.t) : Q :=
  Insights.total
    (filter (fun t => Insights.isExpense t
                      && (getMonth (Transaction.created_at t) =? getMonth now)%Z)
            transactions).

End Dashboard.

Module DashboardSample.

(** An expense of June 2024, seen from June 2025. *)
Definition lastJune : Transaction.t :=
  Transaction.mk "t7" 90 expense "Travel" "ferry" (Sample.noon 19889).

Definition edited : Transaction.t :=
  Transaction.mk "t2" 280 expense "Travel" "train tickets, refund" (Sample.noon 20253).

End DashboardSample.

(** ** The BudgetLimitsManager: editing the list of limits *)

Module BudgetLimitsManager.
Import JsString.

(** The state that the list updates read and write.  The number input
    behind [newLimit] holds the empty text, [None] here, or the text of a
    number, which [parseFloat] reads back. *)
Record state := mkState {
  budgetLimits : list BudgetLimit.t;
  newCategory : string;
  newLimit : option Q;
  error : string
}.

Definition reject (message : string) (s : state) : state :=
  mkState (budgetLimits s) (newCategory s) (newLimit s) message.

Definition addBudgetLimit (s : state) : state :=
  match newLimit s with
  | None => reject "Please enter a valid category and limit amount" s
  | Some limit =>
      if Analyzer.isEmpty (newCategory s) || Qle_bool limit 0
      then reject "Please enter a valid category and limit amount" s
      else if existsb (fun limit =>
                         String.eqb (toLowerCase (BudgetLimit.category limit))
                                    (toLowerCase (newCategory s)))
                      (budgetLimits s)
      then reject "Budget limit for this category already exists" s
      else mkState (budgetLimits s ++ [BudgetLimit.mk (newCategory s) limit])
                   "" None ""
  end.

(** [prev.map((limit, i) => ...)] and [prev.filter((_, i) => ...)], with
    the index of the first element. *)
Fixpoint mapFrom {A B : Type} (f : A -> nat -> B) (i : nat) (l : list A) : list B :=
  match l with
  | [] => []
  | x :: rest => f x i :: mapFrom f (S i) rest
  end.

Fixpoint filterFrom {A : Type} (p : A -> nat -> bool) (i : nat) (l : list A) : list A :=
  match l with
  | [] => []
  | x :: rest =>
      if p x i then x :: filterFrom p (S i) rest else filterFrom p (S i) rest
  end.

(** The field of a limit and its new value. *)
Inductive edit :=
  | category (value : string)
  | monthly_limit (value : Q).

(** [{ ...limit, [field]: value }]. *)
Definition withField (limit : BudgetLimit.t) (e : edit) : BudgetLimit.t :=
  match e with
  | category value => BudgetLimit.mk value (BudgetLimit.monthly_limit limit)
  | monthly_limit value => BudgetLimit.mk (BudgetLimit.category limit) value
  end.

Definition updateBudgetLimit (index : nat) (e : edit)
  (prev : list BudgetLimit.t) : list BudgetLimit.t :=
  mapFrom (fun limit i => if Nat.eqb i index then withField limit e else limit)
          0 prev.

Definition removeBudgetLimit (index : nat) (prev : list BudgetLimit.t)
  : list BudgetLimit.t :=
  filterFrom (fun _ i => negb (Nat.eqb i index)) 0 prev.

Definition addPresetCategory (category : string) (prev : list BudgetLimit.t)
  : list BudgetLimit.t :=
  if existsb (fun limit => String.eqb (BudgetLimit.category limit) category) prev
  then prev
  else prev ++ [BudgetLimit.mk category 0].

End BudgetLimitsManager.

Module BudgetLimitsSample.
Import BudgetLimitsManager.

(** The form filled in with a category that differs from an existing one
    in letter case only, and with a new one. *)
Definition sameCategory : state := mkState Sample.budgetLimits "FOOD" (Some 80%Q) "".

Definition newOne : state := mkState Sample.budgetLimits "Bills" (Some 120%Q) "".

End BudgetLimitsSample.

(** ** ExportData: the choice of what to export *)

Module ExportData.

Inductive dateRange := all | month | year.

(** [[...new Set(transactions.map(t => t.category))]]. *)
Definition categories (transactions : list Transaction.t) : list string :=
  Insights.arrayFromSet (map Transaction.category transactions).

(** [includeCategories.includes(c)]. *)
Definition includes (includeCategories : list string) (c : string) : bool :=
  existsb (String.eqb c) includeCategories.

(** [cutoffDate] is the date that [setMonth] or [setFullYear] has left
    in the variable of that name; it is read for the ranges other than
    [all]. *)
Definition getFilteredTransactions (range : dateRange) (cutoffDate : Z)
  (includeCategories : list string) (transactions : list Transaction.t)
  : list Transaction.t :=
  let filtered :=
    match range with
    | all => transactions
    | _ => filter (fun t => (cutoffDate <=? Transaction.created_at t)%Z) transactions
    end in
  match includeCategories with
  | [] => filtered
  | _ :: _ =>
      filter (fun t => includes includeCategories (Transaction.category t)) filtered
  end.

Definition toggleCategory (category : string) (prev : list string) : list string :=
  if includes prev category
  then filter (fun c => negb (String.eqb c category)) prev
  else prev ++ [category].

End ExportData.

(** * The same lines in the arithmetic of the program

    The amounts of the database are decimals; the program reads them as
    binary64 numbers and adds, divides and compares them as such, and its
    spending records are plain objects with [Object.prototype] behind
    them.  Where a statement turns on a comparison at a threshold, or on
    what a category named like a member of [Object.prototype] does, the
    lines are embedded here with that arithmetic and that lookup. *)

Module Binary64.
Import PrimFloat SpecFloat FloatOps.

(** The binary64 number of an integer of less than 63 bits. *)
Definition ofZ (z : Z) : float :=
  if (z <? 0)%Z then (- of_uint63 (Uint63Axioms.of_Z (- z)))%float
  else of_uint63 (Uint63Axioms.of_Z z).

(** The number that [JSON.parse] reads from a decimal: the nearest
    binary64, which for a numerator and a denominator below 2^53 is their
    quotient as the machine rounds it. *)
Definition ofDecimal (q : Q) : float := (ofZ (Qnum q) / ofZ (Zpos (Qden q)))%float.

(** [a > b] and [a < b]; both are false when one side is NaN. *)
Definition gtb (a b : float) : bool := (b <? a)%float.
Definition ltb (a b : float) : bool := (a <? b)%float.

(** Truthiness of a number: neither zero nor NaN. *)
Definition truthy (x : float) : bool := negb (x =? 0)%float && (x =? x)%float.

(** [x || 0]. *)
Definition orZero (x : float) : float := if truthy x then x else 0%float.

(** A value of the specification of binary64 whose sign bit is [s]; NaN
    counts as such. *)
Definition signIs (s : bool) (x : spec_float) : Prop :=
  match x with
  | S754_zero b | S754_infinity b | S754_finite b _ _ => b = s
  | S754_nan => True
  end.

(** The sign bit is clear: a number that is not negative and is not the
    negative zero. *)
Definition unsigned (x : float) : Prop := signIs false (Prim2SF x).

End Binary64.

Module Machine.
Import PrimFloat JsDate.

(** What a property of a spending record, or a variable read from one,
    holds: a number, or something that is no number, namely a function
    inherited from [Object.prototype] or the text that [+] makes of one.
    [ToNumber] of these is NaN. *)
Inductive value :=
  | number (x : float)
  | other.

Definition toNumber (v : value) : float :=
  match v with
  | number x => x
  | other => nan
  end.

Definition truthy (v : value) : bool :=
  match v with
  | number x => Binary64.truthy x
  | other => true
  end.

(** [v || 0], where [None] is [undefined]. *)
Definition orZero (v : option value) : value :=
  match v with
  | Some v => if truthy v then v else number 0
  | None => number 0
  end.

(** [v + amount] for a number [amount]: a sum, or a longer text. *)
Definition plus (v : value) (amount : float) : value :=
  match v with
  | number x => number (x + amount)
  | other => other
  end.

(** [a + b] on two such values. *)
Definition plusValue (a b : value) : value :=
  match a, b with
  | number x, number y => number (x + y)
  | _, _ => other
  end.

(** [v === 0]. *)
Definition isZero (v : value) : bool :=
  match v with
  | number x => (x =? 0)%float
  | other => false
  end.

(** The names a plain object inherits from [Object.prototype]. *)
Definition prototypeMembers : list string :=
  ["constructor"; "__defineGetter__"; "__defineSetter__"; "hasOwnProperty";
   "__lookupGetter__"; "__lookupSetter__"; "isPrototypeOf";
   "propertyIsEnumerable"; "toString"; "valueOf"; "__proto__";
   "toLocaleString"].

Definition inherited (k : string) : bool :=
  existsb (String.eqb k) prototypeMembers.

(** A plain object used as a record: its own properties in the order
    they were created (keys are taken not to be array indices, which an
    object lists first). *)
Module Record.

Definition t := list (string * value).

Fixpoint own (acc : t) (k : string) : option value :=
  match acc with
  | [] => None
  | (k', v) :: rest => if String.eqb k' k then Some v else own rest k
  end.

(** [acc[k]]: the own property, or else what the prototype gives. *)
Definition get (acc : t) (k : string) : option value :=
  match own acc k with
  | Some v => Some v
  | None => if inherited k then Some other else None
  end.

Fixpoint put (acc : t) (k : string) (v : value) : t :=
  match acc with
  | [] => [(k, v)]
  | (k', v') :: rest =>
      if String.eqb k' k then (k', v) :: rest else (k', v') :: put rest k v
  end.

(** [acc[k] = v].  [__proto__] is an accessor of the prototype, and its
    setter ignores a value that is neither an object nor [null]; every
    other name becomes or stays an own property. *)
Definition set (acc : t) (k : string) (v : value) : t :=
  if String.eqb k "__proto__" then acc else put acc k v.

(** [Object.keys(acc)] and [Object.entries(acc)]. *)
Definition keys (acc : t) : list string := map fst acc.
Definition entries (acc : t) : list (string * value) := acc.

(** [acc[k] || 0]. *)
Definition getOrZero (acc : t) (k : string) : value := orZero (get acc k).

End Record.

(** The reducer [(acc, t) => { acc[t.category] = (acc[t.category] || 0)
    + t.amount; return acc }]. *)
Definition addToCategory (acc : Record.t) (t : Transaction.t) : Record.t :=
  Record.set acc (Transaction.category t)
    (plus (Record.getOrZero acc (Transaction.category t))
          (Binary64.ofDecimal (Transaction.amount t))).

Definition sumByCategory (l : list Transaction.t) : Record.t :=
  fold_left addToCategory l [].

(** [sum + t.amount] reduced from 0. *)
Definition total (l : list Transaction.t) : float :=
  fold_left (fun sum t => (sum + Binary64.ofDecimal (Transaction.amount t))%float)
            l 0%float.

Definition categorySpending (transactions : list Transaction.t) : Record.t :=
  sumByCategory (filter Insights.isExpense transactions).

Definition lastWeekCategorySpending (now : Z) (transactions : list Transaction.t) :=
  sumByCategory (Insights.lastWeekTransactions now transactions).

Definition sameWeekLastMonthCategorySpending (now : Z)
  (transactions : list Transaction.t) :=
  sumByCategory (Insights.sameWeekLastMonthTransactions now transactions).

Definition allCategories (lastWeek sameWeekLastMonth : Record.t) : list string :=
  Insights.arrayFromSet (Record.keys lastWeek ++ Record.keys sameWeekLastMonth).

Module Trend.
Record t := mk {
  category : string;
  amount : value;
  lastMonthAmount : value;
  trend : trendKind;
  percentage : float;
  isNew : bool
}.
End Trend.

(** The body of the [map] callback. *)
Definition trendOf (lastWeek sameWeekLastMonth : Record.t) (category : string)
  : Trend.t :=
  let lastWeekAmount := Record.getOrZero lastWeek category in
  let lastMonthAmount := Record.getOrZero sameWeekLastMonth category in
  let '(trend, percentage) :=
    if Binary64.gtb (toNumber lastMonthAmount) 0
    then
      let percentage :=
        (((toNumber lastWeekAmount - toNumber lastMonthAmount)
          / toNumber lastMonthAmount) * 100)%float in
      if Binary64.gtb percentage 5 then (increasing, percentage)
      else if Binary64.ltb percentage (-5) then (decreasing, percentage)
      else (stable, percentage)
    else if Binary64.gtb (toNumber lastWeekAmount) 0 then (increasing, 100%float)
    else (stable, 0%float) in
  Trend.mk category lastWeekAmount lastMonthAmount trend (abs percentage)
           (isZero lastMonthAmount && Binary64.gtb (toNumber lastWeekAmount) 0).

(** [sort((a, b) => b.amount - a.amount)], a stable sort: the difference
    is positive exactly when [a.amount < b.amount], in binary64 too, so
    an entry moves behind those with a larger amount and stays before the
    others. *)
Fixpoint insertByAmount (x : Trend.t) (l : list Trend.t) : list Trend.t :=
  match l with
  | [] => [x]
  | y :: ys =>
      if Binary64.ltb (toNumber (Trend.amount x)) (toNumber (Trend.amount y))
      then y :: insertByAmount x ys
      else x :: l
  end.

Definition sortByAmountDesc (l : list Trend.t) : list Trend.t :=
  fold_right insertByAmount [] l.

Definition trendsOfWindows (lastWeek sameWeekLastMonth : Record.t) : list Trend.t :=
  firstn 5
    (sortByAmountDesc
       (filter (fun trend => Binary64.gtb (toNumber (Trend.amount trend)) 0)
          (map (trendOf lastWeek sameWeekLastMonth)
               (allCategories lastWeek sameWeekLastMonth)))).

Definition spendingTrends (now : Z) (transactions : list Transaction.t)
  : list Trend.t :=
  trendsOfWindows (lastWeekCategorySpending now transactions)
                  (sameWeekLastMonthCategorySpending now transactions).

Module Alert.
Record t := mk {
  category : string;
  spent : value;
  budget : float;
  overBudget : float
}.
End Alert.

(** The [forEach] over [Object.entries(categorySpending)]; the limit of
    the table reaches the program as a number like the amounts. *)
Definition alertFor (budgetLimits : list BudgetLimit.t) (entry : string * value)
  : list Alert.t :=
  let (category, amount) := entry in
  match find (fun b => String.eqb (BudgetLimit.category b) category) budgetLimits with
  | Some budgetLimit =>
      let monthly_limit := Binary64.ofDecimal (BudgetLimit.monthly_limit budgetLimit) in
      if Binary64.gtb (toNumber amount) monthly_limit
      then [Alert.mk category amount monthly_limit
                     (toNumber amount - monthly_limit)%float]
      else []
  | None => []
  end.

Definition budgetAlerts (transactions : list Transaction.t)
  (budgetLimits : list BudgetLimit.t) : list Alert.t :=
  flat_map (alertFor budgetLimits) (Record.entries (categorySpending transactions)).

Inductive pattern :=
  | weekend_spending (weekendPercentage : float)
  | historical_comparison (overallChange : float) (weekStart weekEnd : Z).

Definition weekendSpending (transactions : list Transaction.t) : float :=
  total (filter (fun t => Insights.isExpense t
                          && Insights.isWeekend (Transaction.created_at t))
                transactions).

Definition weekdaySpending (transactions : list Transaction.t) : float :=
  total (filter (fun t => Insights.isExpense t
                          && Insights.isWeekday (Transaction.created_at t))
                transactions).

Definition weekendPercentage (transactions : list Transaction.t) : float :=
  ((weekendSpending transactions
    / (weekendSpending transactions + weekdaySpending transactions)) * 100)%float.

Definition weekendPattern (transactions : list Transaction.t) : list pattern :=
  if Binary64.gtb (weekendSpending transactions) 0
     && Binary64.gtb (weekdaySpending transactions) 0
  then
    if Binary64.gtb (weekendPercentage transactions) 35
    then [weekend_spending (weekendPercentage transactions)]
    else []
  else [].

Definition sumAmounts (f : Trend.t -> value) (l : list Trend.t) : value :=
  fold_left (fun sum t => plusValue sum (f t)) l (number 0).

Definition historicalPattern (now : Z) (trends : list Trend.t) : list pattern :=
  match trends with
  | [] => []
  | _ :: _ =>
      let totalLastWeek := toNumber (sumAmounts Trend.amount trends) in
      let totalSameWeekLastMonth :=
        toNumber (sumAmounts Trend.lastMonthAmount trends) in
      if Binary64.gtb totalSameWeekLastMonth 0
      then [historical_comparison
              (((totalLastWeek - totalSameWeekLastMonth) / totalSameWeekLastMonth)
               * 100)%float
              (Insights.sameWeekLastMonthStart now)
              (Insights.sameWeekLastMonthEnd now)]
      else []
  end.

Module BasicInsights.
Record t := mk {
  spendingTrends : list Trend.t;
  recommendations : list AIRecommendation.t;
  budgetAlerts : list Alert.t;
  patterns : list pattern
}.
End BasicInsights.

Definition generateBasicInsights (now : Z) (transactions : list Transaction.t)
  (budgetLimits : list BudgetLimit.t) : BasicInsights.t :=
  match transactions with
  | [] => BasicInsights.mk [] [] [] []
  | _ :: _ =>
      let trends := spendingTrends now transactions in
      BasicInsights.mk trends []
        (budgetAlerts transactions budgetLimits)
        (weekendPattern transactions ++ historicalPattern now trends)
  end.

(** The budget analysis of [prepareTransactionSummary]; the utilization,
    which the source rounds for display, is kept as computed. *)
Module BudgetLine.
Record t := mk {
  category : string;
  budgeted : float;
  spent : value;
  utilization : float;
  status : Summary.budgetStatus
}.
End BudgetLine.

Definition monthSpending (now : Z) (transactions : list Transaction.t) : Record.t :=
  sumByCategory
    (filter Insights.isExpense (Summary.currentMonthTransactions now transactions)).

Definition budgetAnalysis (now : Z) (transactions : list Transaction.t)
  (budgetLimits : list BudgetLimit.t) : list BudgetLine.t :=
  map (fun limit =>
         let monthly_limit := Binary64.ofDecimal (BudgetLimit.monthly_limit limit) in
         let spent :=
           Record.getOrZero (monthSpending now transactions)
                            (BudgetLimit.category limit) in
         let utilization := ((toNumber spent / monthly_limit) * 100)%float in
         BudgetLine.mk (BudgetLimit.category limit) monthly_limit spent utilization
                       (if Binary64.gtb utilization 100 then Summary.over
                        else if Binary64.gtb utilization 80 then Summary.warning
                        else Summary.good))
      budgetLimits.

End Machine.

(** ** Vocabulary of the statements about the machine *)

Module MachineSpec.
Import PrimFloat.

(** A name that [Object.prototype] does not have. *)
Definition ordinary (k : string) : Prop := Machine.inherited k = false.

(** What a record that started empty holds for a category once the
    expenses [l] of that category have been added to it: their amounts
    summed in order, an intermediate zero or NaN counting as zero; and
    what reading it with [|| 0] gives. *)
Definition stored (l : list Transaction.t) : float :=
  fold_left
    (fun sum t =>
       (Binary64.orZero sum + Binary64.ofDecimal (Transaction.amount t))%float)
    l 0%float.

Definition spent (l : list Transaction.t) : float := Binary64.orZero (stored l).

Definition ofCategory (category : string) (l : list Transaction.t)
  : list Transaction.t :=
  filter (fun t => String.eqb (Transaction.category t) category) l.

Definition spentIn (from to : Z) (category : string)
  (transactions : list Transaction.t) : float :=
  spent (Spec.expensesIn from to category transactions).

Definition storedOn (category : string) (transactions : list Transaction.t) : float :=
  stored (filter (fun t => Insights.isExpense t
                           && String.eqb (Transaction.category t) category)
                 transactions).

Definition spentThisMonth (now : Z) (category : string)
  (transactions : list Transaction.t) : float :=
  spent (filter (fun t => Insights.isExpense t
                          && String.eqb (Transaction.category t) category
                          && (SummaryMonths.monthIndex (Transaction.created_at t)
                              =? SummaryMonths.monthIndex now)%Z)
                transactions).

(** The weekend-spending entry is among the patterns. *)
Definition weekendPatternEmitted (patterns : list Machine.pattern) : Prop :=
  exists weekendPercentage, In (Machine.weekend_spending weekendPercentage) patterns.

(** What a property holds is a number exactly for ordinary names. *)
Definition sound (acc : Machine.Record.t) : Prop :=
  forall k,
    match Machine.Record.own acc k with
    | Some (Machine.number _) => Machine.inherited k = false
    | Some Machine.other => Machine.inherited k = true
    | None => True
    end.

(** The number that an ordinary name holds in a record, zero when it
    holds none. *)
Definition held (acc : Machine.Record.t) (k : string) : float :=
  match Machine.Record.own acc k with
  | Some (Machine.number x) => x
  | _ => 0%float
  end.

(** Amounts are in descending order along the list. *)
Definition descending (l : list Machine.Trend.t) : Prop :=
  StronglySorted
    (fun a b =>
       (Machine.toNumber (Machine.Trend.amount b)
        <=? Machine.toNumber (Machine.Trend.amount a))%float = true)
    l.

End MachineSpec.

(** ** Sample data at the thresholds *)

Module MachineSample.

(** Food: 1.05 last week after 1.00 in the earlier window, a change of
    exactly five per cent. *)
Definition fivePercent : list Transaction.t :=
  [ Transaction.mk "t1" 1.05 expense "Food" "snack" (Sample.noon 20249);
    Transaction.mk "t2" 1 expense "Food" "snack" (Sample.noon 20221) ].

(** 9.38 spent on a Saturday and a Sunday, 17.42 on a Monday and a
    Tuesday: a weekend share of exactly 35 per cent. *)
Definition weekendShare : list Transaction.t :=
  [ Transaction.mk "t1" 0.33 expense "Food" "bread" (Sample.noon 20253);
    Transaction.mk "t2" 9.05 expense "Food" "market" (Sample.noon 20254);
    Transaction.mk "t3" 0.33 expense "Food" "bread" (Sample.noon 20255);
    Transaction.mk "t4" 17.09 expense "Food" "dinner" (Sample.noon 20256) ].

(** 0.10 and 0.20 spent on Food, against a limit of 0.30. *)
Definition pennies : list Transaction.t :=
  [ Transaction.mk "t1" 0.1 expense "Food" "sweet" (Sample.noon 20249);
    Transaction.mk "t2" 0.2 expense "Food" "sweet" (Sample.noon 20250) ].

Definition pennyLimit : list BudgetLimit.t := [ BudgetLimit.mk "Food" 0.3 ].

(** 4.48 spent on Food in June 2025, against a limit of 5.60: eighty per
    cent of it. *)
Definition eightyPercent : list Transaction.t :=
  [ Transaction.mk "t1" 4.48 expense "Food" "lunch" (Sample.noon 20249) ].

Definition lunchLimit : BudgetLimit.t := BudgetLimit.mk "Food" 5.6.

End MachineSample.

(** * Properties *)

(** ** The fallback analyzer *)

Section AnalyzerFacts.
Import JsString Analyzer.

Lemma startsWith_toLowerCase (k s : string) :
  startsWith s k = true ->
  startsWith (toLowerCase s) (toLowerCase k) = true.
Proof.
  revert s; induction k as [|a k IH]; intros [|b s]; simpl; trivial.
  rewrite !andb_true_iff, Ascii.eqb_eq.
  intros [-> H]. split; [apply Ascii.eqb_refl | now apply IH].
Qed.

Lemma includes_toLowerCase (k s : string) :
  includes s k = true ->
  includes (toLowerCase s) (toLowerCase k) = true.
Proof.
  induction s as [|b s IH]; simpl; rewrite !orb_true_iff; intros [H|H].
  - left. now apply (startsWith_toLowerCase k "").
  - discriminate.
  - left. now apply (startsWith_toLowerCase k (String b s)).
  - right. now apply IH.
Qed.

(** The income keywords are written in lower case already. *)
Lemma incomeKeywords_lower (k : string) :
  In k incomeKeywords -> toLowerCase k = k.
Proof.
  unfold incomeKeywords; simpl.
  intuition (subst; reflexivity).
Qed.

Lemma analysis_type (transcript : string) :
  type (analyzeTranscriptFallback transcript)
  = if isIncome (toLowerCase transcript) then income else expense.
Proof.
  unfold analyzeTranscriptFallback.
  destruct (detectCategory (toLowerCase transcript) categories); reflexivity.
Qed.

End AnalyzerFacts.

(** C7. A transcript in which an income keyword occurs (as written, or
    after lower-casing) is typed [income], whatever else it contains and
    whether or not the expense test also fires; "Paid $50 for gas" is such
    a transcript: its expense test fires and it is typed [income]. *)
Theorem income_keyword_wins :
  (forall transcript keyword,
      In keyword Analyzer.incomeKeywords ->
      JsString.includes transcript keyword = true
      \/ JsString.includes (JsString.toLowerCase transcript) keyword = true ->
      Analyzer.type (Analyzer.analyzeTranscriptFallback transcript) = income)
  /\ Analyzer.isExpense (JsString.toLowerCase "Paid $50 for gas") = true
  /\ Analyzer.type (Analyzer.analyzeTranscriptFallback "Paid $50 for gas") = income.
Proof.
  split; [|split; reflexivity].
  intros transcript keyword Hk Hin.
  assert (Hlow : JsString.includes (JsString.toLowerCase transcript) keyword = true).
  { destruct Hin as [H|H]; trivial.
    rewrite <- (incomeKeywords_lower keyword Hk).
    now apply includes_toLowerCase. }
  rewrite analysis_type.
  replace (Analyzer.isIncome (JsString.toLowerCase transcript)) with true; trivial.
  symmetry. apply existsb_exists. now exists keyword.
Qed.

Lemma income_keyword_wins_witness :
  In "paid" Analyzer.incomeKeywords
  /\ (JsString.includes "I paid for lunch, it cost $12" "paid" = true
      \/ JsString.includes (JsString.toLowerCase "I paid for lunch, it cost $12") "paid" = true)
  /\ Analyzer.type (Analyzer.analyzeTranscriptFallback "I paid for lunch, it cost $12") = income.
Proof.
  assert (Hk : In "paid" Analyzer.incomeKeywords) by (simpl; tauto).
  assert (Hin : JsString.includes "I paid for lunch, it cost $12" "paid" = true
                \/ JsString.includes (JsString.toLowerCase "I paid for lunch, it cost $12") "paid" = true)
    by (left; reflexivity).
  split; [exact Hk | split; [exact Hin |]].
  exact (proj1 income_keyword_wins _ _ Hk Hin).
Defined.

(** C10. On "I spent $25 on groceries" the analyzer returns an expense
    of 25 in Groceries; on "Got paid $2000 salary" it returns an income of
    2000 in Salary. *)
Theorem fallback_examples :
  let groceries := Analyzer.analyzeTranscriptFallback "I spent $25 on groceries" in
  let salary := Analyzer.analyzeTranscriptFallback "Got paid $2000 salary" in
  (Analyzer.type groceries = expense
   /\ Analyzer.category groceries = "Groceries"
   /\ Analyzer.amount groceries = 25%Q)
  /\ (Analyzer.type salary = income
      /\ Analyzer.category salary = "Salary"
      /\ Analyzer.amount salary = 2000%Q).
Proof.
  vm_compute. repeat split.
Qed.

(** ** The recommendation cache *)

Section CacheFacts.
Import Cache.

Lemma cacheValidDuration_ms : cacheValidDuration = 604800000%Z.
Proof. reflexivity. Qed.

Lemma isCacheValid_iff (now : Z) (s : state) :
  isCacheValid now s = true
  <-> exists cached,
        cachedAIRecommendations s = Some cached
        /\ (now - CachedAIRecommendations.timestamp cached < cacheValidDuration)%Z.
Proof.
  unfold isCacheValid.
  destruct (cachedAIRecommendations s) as [cached|].
  - rewrite Z.ltb_lt. split.
    + intros H. now exists cached.
    + intros (c & Hc & H). now injection Hc as ->.
  - split; [discriminate | intros (c & Hc & _); discriminate].
Qed.

(** The fetch throws without a signed-in user, on a network failure, on
    a status outside 2xx and on a body that is not JSON; otherwise it
    returns. *)
Lemma fetch_failure_cases (u : option string) (r : response) :
  (exists err sent, fetchAIRecommendations u r = (inl err, sent))
  <-> u = None \/ (forall recs, r <> Ok recs).
Proof.
  split.
  - intros (err & sent & H). destruct u as [id|]; [right | now left].
    intros recs ->. simpl in H. destruct recs; discriminate.
  - intros [->|H].
    + now exists "User not authenticated", false.
    + destruct u as [id|]; [|now exists "User not authenticated", false].
      destruct r as [m|er|m|recs]; simpl; eauto.
      exfalso. now apply (H recs).
Qed.

Lemma fetch_failure_keeps_data (e : env) (s : state) (err : exn) (sent : bool) :
  transactions e <> [] ->
  fetchAIRecommendations (user e) (reply e) = (inl err, sent) ->
  generateAIRecommendations e s
  = mkState (aiRecommendations s) (cachedAIRecommendations s) false
            (lastAIRefresh s) failureMessage (localStorage s)
            (countRequest sent (requestsSent s)).
Proof.
  intros Hne Hf. unfold generateAIRecommendations.
  destruct (transactions e); [contradiction|].
  now rewrite Hf.
Qed.

Lemma fetch_success_overwrites (e : env) (s : state)
  (recs : list AIRecommendation.t) (sent : bool) :
  transactions e <> [] ->
  fetchAIRecommendations (user e) (reply e) = (inr recs, sent) ->
  generateAIRecommendations e s
  = mkState recs (Some (CachedAIRecommendations.mk recs (now e))) false
            (Some (refreshedAt e)) ""
            (if storageWritable e
             then Some (Json (CachedAIRecommendations.mk recs (now e)))
             else localStorage s)
            (countRequest sent (requestsSent s)).
Proof.
  intros Hne Hf. unfold generateAIRecommendations.
  destruct (transactions e); [contradiction|].
  now rewrite Hf.
Qed.

(** A manual refresh drops the cached record before it fetches: when the
    fetch throws, what is displayed stays, but the record is gone from the
    state and from storage. *)
Lemma manual_refresh_failure (e : env) (s : state) (err : exn) (sent : bool) :
  transactions e <> [] ->
  fetchAIRecommendations (user e) (reply e) = (inl err, sent) ->
  let s' := handleManualRefresh e s in
  aiRecommendations s' = aiRecommendations s
  /\ cachedAIRecommendations s' = None
  /\ localStorage s' = None
  /\ aiRecommendationsError s' = failureMessage.
Proof.
  intros Hne Hf. unfold handleManualRefresh. cbv zeta.
  rewrite (fetch_failure_keeps_data e _ err sent Hne Hf). simpl. auto.
Qed.

End CacheFacts.

(** C5. A cache record is valid exactly when [now - timestamp] is below
    7*24*60*60*1000 ms, so it is invalid at exactly seven days.  On mount,
    a stored record that is still valid is displayed; an expired one is
    cleared from the state and from storage, and no request is sent to
    regenerate it. *)
Theorem cache_valid_strictly_within_week (now : Z) (s : Cache.state)
  (cached : Cache.CachedAIRecommendations.t) :
  let age := (now - Cache.CachedAIRecommendations.timestamp cached)%Z in
  let week := (7 * 24 * 60 * 60 * 1000)%Z in
  (Cache.cachedAIRecommendations s = Some cached ->
   (Cache.isCacheValid now s = true <-> (age < week)%Z)
   /\ (age = week -> Cache.isCacheValid now s = false))
  /\ (Cache.localStorage s = Some (Cache.Json cached) ->
      let s' := Cache.loadCachedOnMount now s in
      ((age < week)%Z ->
       Cache.cachedAIRecommendations s' = Some cached
       /\ Cache.aiRecommendations s' = Cache.CachedAIRecommendations.data cached
       /\ Cache.lastAIRefresh s' = Some (Cache.CachedAIRecommendations.timestamp cached)
       /\ Cache.localStorage s' = Some (Cache.Json cached))
      /\ ((week <= age)%Z ->
          Cache.cachedAIRecommendations s' = None
          /\ Cache.aiRecommendations s' = []
          /\ Cache.lastAIRefresh s' = None
          /\ Cache.localStorage s' = None
          /\ Cache.isRefreshingAI s' = Cache.isRefreshingAI s
          /\ Cache.requestsSent s' = Cache.requestsSent s)).
Proof.
  cbv zeta. split.
  - intros Hc. unfold Cache.isCacheValid. rewrite Hc.
    change Cache.cacheValidDuration with (7 * 24 * 60 * 60 * 1000)%Z.
    split.
    + apply Z.ltb_lt.
    + intros ->. apply Z.ltb_irrefl.
  - intros Hs. unfold Cache.loadCachedOnMount. rewrite Hs.
    change Cache.cacheValidDuration with (7 * 24 * 60 * 60 * 1000)%Z.
    split; intros H.
    + apply Z.ltb_lt in H. rewrite H. simpl. auto.
    + apply Z.ltb_ge in H. rewrite H. simpl. repeat split.
Qed.

Lemma cache_valid_strictly_within_week_witness :
  Cache.cachedAIRecommendations Sample.displayed = Some Sample.cached
  /\ Cache.localStorage Sample.displayed = Some (Cache.Json Sample.cached)
  /\ Cache.isCacheValid Sample.weekLater Sample.displayed = false
  /\ Cache.localStorage (Cache.loadCachedOnMount Sample.weekLater Sample.displayed) = None
  /\ Cache.requestsSent (Cache.loadCachedOnMount Sample.weekLater Sample.displayed) = 0%nat.
Proof.
  destruct (cache_valid_strictly_within_week Sample.weekLater Sample.displayed Sample.cached)
    as [Hvalid Hload].
  split; [reflexivity|]. split; [reflexivity|].
  split; [exact (proj2 (Hvalid eq_refl) eq_refl)|].
  destruct (Hload eq_refl) as [_ Hexpired].
  destruct (Hexpired ltac:(discriminate)) as (_ & _ & _ & Hs & _ & Hr).
  split; [exact Hs | exact Hr].
Defined.

(** C6. A run of [generateAIRecommendations] on a non-empty transaction
    list: when the fetch throws, the fixed error message is shown and the
    displayed recommendations, the cached record and the stored record
    stay as they were; when it returns, the cached record becomes the new
    data paired with [now], the new data is displayed, and the stored
    record is replaced too when the browser accepts the write. *)
Theorem generate_failure_and_success (e : Cache.env) (s : Cache.state) :
  Cache.transactions e <> [] ->
  let s' := Cache.generateAIRecommendations e s in
  (forall err sent,
      Cache.fetchAIRecommendations (Cache.user e) (Cache.reply e) = (inl err, sent) ->
      Cache.aiRecommendationsError s' = Cache.failureMessage
      /\ Cache.aiRecommendationsError s' <> ""
      /\ Cache.aiRecommendations s' = Cache.aiRecommendations s
      /\ Cache.cachedAIRecommendations s' = Cache.cachedAIRecommendations s
      /\ Cache.localStorage s' = Cache.localStorage s
      /\ Cache.isRefreshingAI s' = false)
  /\ (forall recs sent,
      Cache.fetchAIRecommendations (Cache.user e) (Cache.reply e) = (inr recs, sent) ->
      let fresh := Cache.CachedAIRecommendations.mk recs (Cache.now e) in
      Cache.cachedAIRecommendations s' = Some fresh
      /\ Cache.aiRecommendations s' = recs
      /\ (Cache.storageWritable e = true ->
          Cache.localStorage s' = Some (Cache.Json fresh))
      /\ Cache.aiRecommendationsError s' = ""
      /\ Cache.isRefreshingAI s' = false).
Proof.
  intros Hne s'. split.
  - intros err sent Hf. subst s'.
    rewrite (fetch_failure_keeps_data e s err sent Hne Hf). simpl.
    repeat split. discriminate.
  - intros recs sent Hf fresh. subst s' fresh.
    rewrite (fetch_success_overwrites e s recs sent Hne Hf). simpl.
    repeat split. now intros ->.
Qed.

Lemma generate_failure_and_success_witness :
  Cache.transactions Sample.offline <> []
  /\ Cache.fetchAIRecommendations (Cache.user Sample.offline) (Cache.reply Sample.offline)
     = (inl "Failed to fetch", true)
  /\ Cache.aiRecommendations (Cache.generateAIRecommendations Sample.offline Sample.displayed)
     = [Sample.recommendation]
  /\ Cache.cachedAIRecommendations
       (Cache.generateAIRecommendations Sample.offline Sample.displayed)
     = Some Sample.cached.
Proof.
  assert (Hne : Cache.transactions Sample.offline <> []) by discriminate.
  split; [exact Hne|]. split; [reflexivity|].
  destruct (generate_failure_and_success Sample.offline Sample.displayed Hne)
    as [Hfail _].
  destruct (Hfail "Failed to fetch" true eq_refl) as (_ & _ & Hshown & Hcached & _).
  split; [exact Hshown | exact Hcached].
Defined.

(** ** Numbers and records *)

Section NumberFacts.
Import JsNumber.
Open Scope Q_scope.

Lemma ltb_lt (x y : Q) : ltb x y = true <-> x < y.
Proof.
  unfold ltb. rewrite negb_true_iff. split.
  - intros H. apply Qnot_le_lt. intros Hle.
    apply Qle_bool_iff in Hle. congruence.
  - intros H. destruct (Qle_bool y x) eqn:E; trivial.
    apply Qle_bool_iff in E. exfalso. exact (Qlt_not_le _ _ H E).
Qed.

Lemma ltb_ge (x y : Q) : ltb x y = false <-> y <= x.
Proof.
  unfold ltb. rewrite negb_false_iff. apply Qle_bool_iff.
Qed.

Lemma gtb_gt (x y : Q) : gtb x y = true <-> y < x.
Proof. apply ltb_lt. Qed.


Lemma orZero_some (v : Q) : orZero (Some v) == v.
Proof.
  simpl. destruct (Qeq_bool v 0) eqn:E; [|reflexivity].
  apply Qeq_bool_iff in E. now symmetry.
Qed.


End NumberFacts.

Section RecordFacts.
Import JsRecord.

Lemma get_set_same (acc : t) (k : string) (v : Q) : get (set acc k v) k = Some v.
Proof.
  induction acc as [|[k' v'] acc IH]; simpl.
  - now rewrite String.eqb_refl.
  - destruct (String.eqb k' k) eqn:E; simpl; rewrite E; trivial.
Qed.

Lemma get_set_other (acc : t) (k k' : string) (v : Q) :
  k <> k' -> get (set acc k v) k' = get acc k'.
Proof.
  intros Hne. induction acc as [|[k0 v0] acc IH]; simpl.
  - destruct (String.eqb k k') eqn:E; trivial.
    apply String.eqb_eq in E. contradiction.
  - destruct (String.eqb k0 k) eqn:E; simpl.
    + apply String.eqb_eq in E. subst k0.
      destruct (String.eqb k k') eqn:E'; trivial.
      apply String.eqb_eq in E'. contradiction.
    + now rewrite IH.
Qed.

Lemma keys_set (acc : t) (k k' : string) (v : Q) :
  In k' (keys (set acc k v)) <-> k' = k \/ In k' (keys acc).
Proof.
  unfold keys. induction acc as [|[k0 v0] acc IH]; simpl.
  - intuition.
  - destruct (String.eqb k0 k) eqn:E; simpl.
    + apply String.eqb_eq in E. subst. intuition.
    + rewrite IH. intuition.
Qed.


End RecordFacts.

(** ** Sums by category *)

Section SumFacts.
Import Insights.
Open Scope Q_scope.

Lemma filter_twice {A : Type} (f g : A -> bool) (l : list A) :
  filter f (filter g l) = filter (fun x => g x && f x) l.
Proof.
  induction l as [|x l IH]; simpl; trivial.
  destruct (g x); simpl; [destruct (f x)|]; now rewrite IH.
Qed.

Lemma total_from (l : list Transaction.t) (a : Q) :
  fold_left (fun sum t => sum + Transaction.amount t) l a == a + total l.
Proof.
  unfold total. revert a.
  induction l as [|x l IH]; intros a; simpl.
  - ring.
  - rewrite (IH (a + Transaction.amount x)), (IH (0 + Transaction.amount x)). ring.
Qed.

Lemma total_cons (x : Transaction.t) (l : list Transaction.t) :
  total (x :: l) == Transaction.amount x + total l.
Proof.
  unfold total at 1. simpl. rewrite total_from. ring.
Qed.


Lemma nonneg_filter (f : Transaction.t -> bool) (l : list Transaction.t) :
  Spec.amountsNonNegative l -> Spec.amountsNonNegative (filter f l).
Proof.
  unfold Spec.amountsNonNegative. rewrite !Forall_forall.
  intros H x Hx. apply filter_In in Hx. now apply H.
Qed.

Lemma getOrZero_fold (l : list Transaction.t) (acc : JsRecord.t) (c : string) :
  JsRecord.getOrZero (fold_left addToCategory l acc) c
  == JsRecord.getOrZero acc c
     + total (filter (fun t => String.eqb (Transaction.category t) c) l).
Proof.
  revert acc. induction l as [|x l IH]; intros acc; simpl.
  - unfold total. simpl. ring.
  - rewrite IH. unfold addToCategory at 1.
    destruct (String.eqb (Transaction.category x) c) eqn:E.
    + apply String.eqb_eq in E. rewrite E.
      unfold JsRecord.getOrZero at 1.
      rewrite get_set_same, orZero_some, total_cons. ring.
    + apply String.eqb_neq in E.
      unfold JsRecord.getOrZero at 1.
      rewrite get_set_other by exact E. reflexivity.
Qed.

Lemma getOrZero_sumByCategory (l : list Transaction.t) (c : string) :
  JsRecord.getOrZero (sumByCategory l) c
  == total (filter (fun t => String.eqb (Transaction.category t) c) l).
Proof.
  unfold sumByCategory. rewrite getOrZero_fold.
  unfold JsRecord.getOrZero. simpl. ring.
Qed.



Lemma categorySpending_spentOn (transactions : list Transaction.t) (c : string) :
  JsRecord.getOrZero (categorySpending transactions) c == Spec.spentOn c transactions.
Proof.
  unfold categorySpending, Spec.spentOn.
  rewrite getOrZero_sumByCategory, filter_twice. reflexivity.
Qed.

End SumFacts.

(** ** Calendar weeks *)

Section DateFacts.
Import JsDate.
Open Scope Z_scope.

Lemma getDay_range (t : Z) : 0 <= getDay t < 7.
Proof. unfold getDay. apply Z.mod_pos_bound. lia. Qed.


Lemma dayNumber_addDays (t n : Z) : dayNumber (addDays t n) = dayNumber t + n.
Proof.
  unfold dayNumber, addDays. apply Z.div_add. discriminate.
Qed.

Lemma getDay_addWeek (t n : Z) : getDay (addDays t (n * 7)) = getDay t.
Proof.
  unfold getDay. rewrite dayNumber_addDays.
  replace (dayNumber t + n * 7 + 4) with (dayNumber t + 4 + n * 7) by ring.
  apply Z.mod_add. discriminate.
Qed.

(** The week functions in closed form. *)
Lemma startOfWeek_closed (t : Z) :
  startOfWeek t = (dayNumber t - getDay t) * msPerDay.
Proof.
  unfold startOfWeek, startOfDay. cbv zeta.
  pose proof (getDay_range t) as Hg.
  destruct (Z.ltb_spec (getDay t) 0); [lia|].
  rewrite dayNumber_addDays. f_equal. ring.
Qed.

Lemma endOfWeek_closed (t : Z) :
  endOfWeek t = startOfWeek t + 7 * msPerDay - 1.
Proof.
  rewrite startOfWeek_closed. unfold endOfWeek, endOfDay. cbv zeta.
  pose proof (getDay_range t) as Hg.
  destruct (Z.ltb_spec (getDay t) 0); [lia|].
  rewrite dayNumber_addDays. ring.
Qed.

Lemma startOfWeek_subWeeks (t n : Z) :
  startOfWeek (subWeeks t n) = startOfWeek t - n * (7 * msPerDay).
Proof.
  rewrite !startOfWeek_closed. unfold subWeeks.
  rewrite getDay_addWeek, dayNumber_addDays. ring.
Qed.




Lemma lastWeek_bounds (now : Z) :
  Insights.lastWeekStart now = startOfWeek now - 7 * msPerDay
  /\ Insights.lastWeekEnd now = startOfWeek now - 1.
Proof.
  unfold Insights.lastWeekStart, Insights.lastWeekEnd.
  rewrite endOfWeek_closed, startOfWeek_subWeeks. split; ring.
Qed.

Lemma sameWeekLastMonth_bounds (now : Z) :
  Insights.sameWeekLastMonthStart now = startOfWeek now - 5 * (7 * msPerDay)
  /\ Insights.sameWeekLastMonthEnd now = startOfWeek now - 4 * (7 * msPerDay) - 1.
Proof.
  unfold Insights.sameWeekLastMonthStart, Insights.sameWeekLastMonthEnd.
  rewrite endOfWeek_closed, startOfWeek_subWeeks. split; ring.
Qed.

(** The intervals handed to [isWithinInterval] are never reversed. *)
Lemma week_interval_valid (now : Z) :
  Insights.lastWeekStart now <= Insights.lastWeekEnd now
  /\ Insights.sameWeekLastMonthStart now <= Insights.sameWeekLastMonthEnd now.
Proof.
  destruct (lastWeek_bounds now) as [-> ->].
  destruct (sameWeekLastMonth_bounds now) as [-> ->].
  unfold msPerDay. lia.
Qed.

Lemma within_closed_is_half_open (t a b : Z) :
  isWithinInterval t a (b - 1) = (a <=? t) && (t <? b).
Proof.
  unfold isWithinInterval. f_equal.
  destruct (Z.leb_spec t (b - 1)), (Z.ltb_spec t b); trivial; lia.
Qed.

End DateFacts.

(** ** The comparison windows *)

Section WindowFacts.
Import JsDate Insights.

Lemma lastWeek_filter (now : Z) (t : Transaction.t) :
  isWithinInterval (Transaction.created_at t) (lastWeekStart now) (lastWeekEnd now)
  = ((startOfWeek now - 7 * msPerDay <=? Transaction.created_at t)%Z
     && (Transaction.created_at t <? startOfWeek now)%Z).
Proof.
  destruct (lastWeek_bounds now) as [-> ->].
  apply within_closed_is_half_open.
Qed.

Lemma sameWeekLastMonth_filter (now : Z) (t : Transaction.t) :
  isWithinInterval (Transaction.created_at t)
    (sameWeekLastMonthStart now) (sameWeekLastMonthEnd now)
  = ((startOfWeek now - 5 * (7 * msPerDay) <=? Transaction.created_at t)%Z
     && (Transaction.created_at t <? startOfWeek now - 4 * (7 * msPerDay))%Z).
Proof.
  destruct (sameWeekLastMonth_bounds now) as [-> ->].
  apply within_closed_is_half_open.
Qed.





End WindowFacts.


(** ** Category trends *)

Section TrendFacts.
Import JsNumber Insights.
Open Scope Q_scope.

Variables lastWeek sameWeekLastMonth : JsRecord.t.

Let entry := trendOf lastWeek sameWeekLastMonth.



End TrendFacts.

Section SortFacts.
Import JsNumber Insights.
Open Scope Q_scope.





Lemma In_firstn {A : Type} (n : nat) (l : list A) (x : A) :
  In x (firstn n l) -> In x l.
Proof.
  revert l. induction n as [|n IH]; intros [|y l]; simpl; try tauto.
  intros [H|H]; auto.
Qed.


Lemma In_setAdd_fold (l seen : list string) (c : string) :
  In c (fold_left setAdd l seen) <-> In c seen \/ In c l.
Proof.
  revert seen. induction l as [|x l IH]; intros seen; simpl; [tauto|].
  rewrite IH. unfold setAdd.
  destruct (existsb (String.eqb x) seen) eqn:E.
  - apply existsb_exists in E. destruct E as (y & Hy & E).
    apply String.eqb_eq in E. subst y. intuition (subst; auto).
  - rewrite in_app_iff. simpl. intuition.
Qed.



End SortFacts.

Section EmittedTrends.
Import JsNumber JsDate Insights.
Open Scope Q_scope.

Variable now : Z.
Variable transactions : list Transaction.t.

Let week : Z := (7 * msPerDay)%Z.




End EmittedTrends.





(** ** Budget alerts *)

Section AlertFacts.
Import JsNumber Insights.
Open Scope Q_scope.

Lemma keys_set_NoDup (acc : JsRecord.t) (k : string) (v : Q) :
  NoDup (JsRecord.keys acc) -> NoDup (JsRecord.keys (JsRecord.set acc k v)).
Proof.
  unfold JsRecord.keys.
  induction acc as [|[k0 v0] acc IH]; simpl; intros H.
  - repeat constructor. tauto.
  - inversion H as [|? ? Hnotin Hnd]; subst.
    destruct (String.eqb k0 k) eqn:E; simpl.
    + now constructor.
    + constructor; [|now apply IH].
      intros Hin. apply (keys_set acc k k0 v) in Hin.
      destruct Hin as [->|Hin]; [|contradiction].
      now rewrite String.eqb_refl in E.
Qed.

Lemma sumByCategory_NoDup (l : list Transaction.t) :
  NoDup (JsRecord.keys (sumByCategory l)).
Proof.
  unfold sumByCategory.
  assert (H : forall acc, NoDup (JsRecord.keys acc) ->
                          NoDup (JsRecord.keys (fold_left addToCategory l acc))).
  { induction l as [|x l IH]; intros acc Hacc; simpl; trivial.
    apply IH. now apply keys_set_NoDup. }
  apply H. constructor.
Qed.

Lemma In_get (acc : JsRecord.t) (k : string) (v : Q) :
  NoDup (JsRecord.keys acc) -> In (k, v) acc -> JsRecord.get acc k = Some v.
Proof.
  unfold JsRecord.keys.
  induction acc as [|[k0 v0] acc IH]; simpl; intros Hnd Hin; [contradiction|].
  inversion Hnd as [|? ? Hnotin Hnd']; subst.
  destruct Hin as [Heq|Hin].
  - injection Heq as -> ->. now rewrite String.eqb_refl.
  - destruct (String.eqb k0 k) eqn:E.
    + apply String.eqb_eq in E. subst k0. exfalso. apply Hnotin.
      apply in_map_iff. now exists (k, v).
    + now apply IH.
Qed.


(** The entries of [categorySpending] are the categories that have an
    expense, each with the total of its expenses over the whole list. *)
Lemma categorySpending_entry (transactions : list Transaction.t) (c : string) (v : Q) :
  In (c, v) (categorySpending transactions) -> v == Spec.spentOn c transactions.
Proof.
  intros H. apply In_get in H; [|apply sumByCategory_NoDup].
  rewrite <- categorySpending_spentOn. unfold JsRecord.getOrZero.
  rewrite H. symmetry. apply orZero_some.
Qed.

(** An alert comes from a limit of its category, found first in the list,
    that the total of the category over the whole list exceeds. *)
Lemma budget_alert_sound (transactions : list Transaction.t)
  (budgetLimits : list BudgetLimit.t) (a : Alert.t) :
  In a (budgetAlerts transactions budgetLimits) ->
  exists limit,
    find (fun b => String.eqb (BudgetLimit.category b) (Alert.category a)) budgetLimits
    = Some limit
    /\ Alert.budget a = BudgetLimit.monthly_limit limit
    /\ Alert.spent a == Spec.spentOn (Alert.category a) transactions
    /\ Alert.budget a < Alert.spent a
    /\ Alert.overBudget a = Alert.spent a - Alert.budget a.
Proof.
  unfold budgetAlerts. intros H.
  apply in_flat_map in H. destruct H as ([c v] & Hin & Ha).
  unfold alertFor in Ha.
  destruct (find _ budgetLimits) as [limit|] eqn:Ef; [|contradiction].
  destruct (gtb v (BudgetLimit.monthly_limit limit)) eqn:Eg; [|contradiction].
  destruct Ha as [<-|[]]. simpl.
  exists limit. repeat split; trivial.
  - now apply categorySpending_entry.
  - now apply gtb_gt.
Qed.


End AlertFacts.

(** C1. The alert compares the limit with the total of the category
    over the whole list, not over the current month.  On 15 June 2025, with one Food expense of 150 made on 16
    January and a monthly Food limit of 100, no transaction belongs to the
    current month and the budget analysis of the summary reports 0 spent,
    yet an alert is emitted, 50 over budget. *)
Theorem budget_alert_counts_earlier_months :
  let insights :=
    Insights.generateBasicInsights Sample.june15 Sample.january Sample.foodLimit in
  Summary.currentMonthTransactions Sample.june15 Sample.january = []
  /\ JsRecord.getOrZero (Summary.categorySpending Sample.june15 Sample.january) "Food"
     = 0%Q
  /\ Summary.budgetAnalysis Sample.june15 Sample.january Sample.foodLimit
     = [Summary.BudgetLine.mk "Food" 100 0 0 Summary.good]
  /\ BasicInsights.budgetAlerts insights = [Alert.mk "Food" 150 100 50].
Proof.
  vm_compute. repeat split.
Qed.

(** * Further properties *)

(** ** The amount pattern *)

Section RegexFacts.
Import JsString AmountRegex.

Lemma spanDigits_split (s : string) :
  (fst (spanDigits s) ++ snd (spanDigits s))%string = s.
Proof.
  induction s as [|c s IH]; simpl; trivial.
  destruct (isDigit c); simpl; trivial.
  destruct (spanDigits s) as [d r]. simpl in *. now rewrite IH.
Qed.

Lemma spanDigits_none (s : string) :
  fst (spanDigits s) = "" -> Text.hasDigit s = true ->
  exists c s', s = String c s' /\ isDigit c = false.
Proof.
  destruct s as [|c s]; simpl; [discriminate|].
  destruct (isDigit c) eqn:E.
  - destruct (spanDigits s); discriminate.
  - eauto.
Qed.

Lemma spanDigits_head (s d r : string) (c : ascii) :
  spanDigits s = (String c d, r) -> isDigit c = true.
Proof.
  destruct s as [|c0 s]; simpl; [discriminate|].
  destruct (isDigit c0) eqn:E; [|discriminate].
  destruct (spanDigits s). now intros [= <- _ _].
Qed.

Lemma append_assoc (a b c : string) : ((a ++ b) ++ c)%string = (a ++ (b ++ c))%string.
Proof. induction a as [|x a IH]; simpl; [|rewrite IH]; reflexivity. Qed.

(** A match of the number part splits the text and starts with a digit. *)
Lemma matchNumber_some (s g r : string) :
  matchNumber s = Some (g, r) ->
  s = (g ++ r)%string /\ exists d g', g = String d g' /\ isDigit d = true.
Proof.
  unfold matchNumber.
  pose proof (spanDigits_split s) as Hs.
  destruct (spanDigits s) as [ds rest] eqn:E. simpl in Hs.
  destruct ds as [|d ds]; [discriminate|].
  pose proof (spanDigits_head _ _ _ _ E) as Hd.
  assert (Hplain : Some (String d ds, rest) = Some (g, r) ->
                   s = (g ++ r)%string
                   /\ exists d0 g', g = String d0 g' /\ isDigit d0 = true).
  { intros [= <- <-]. split; [now symmetry | eauto]. }
  destruct rest as [|p rest]; trivial.
  destruct (Ascii.eqb_spec p "."%char) as [->|Hp].
  - destruct rest as [|d1 [|d2 rest']]; trivial.
    destruct (isDigit d1 && isDigit d2); trivial.
    intros [= <- <-]. split; [|simpl; eauto].
    rewrite <- Hs. simpl. f_equal. now rewrite append_assoc.
  - destruct p as [[] [] [] [] [] [] [] []]; trivial; now contradiction Hp.
Qed.

Lemma matchNumber_none (s : string) :
  matchNumber s = None -> fst (spanDigits s) = "".
Proof.
  unfold matchNumber. destruct (spanDigits s) as [[|d ds] rest]; trivial.
  destruct rest as [|p rest]; [discriminate|].
  destruct p as [[] [] [] [] [] [] [] []]; try discriminate.
  destruct rest as [|d1 [|d2 rest']]; try discriminate.
  destruct (isDigit d1 && isDigit d2); discriminate.
Qed.

Lemma matchAt_plain (s : string) :
  (forall s', s <> String "$"%char s') ->
  matchAt s
  = match matchNumber s with
    | Some (g, r) => Some (false, g, r)
    | None => None
    end.
Proof.
  intros H. destruct s as [|c s']; trivial.
  destruct c as [[] [] [] [] [] [] [] []]; trivial.
  now contradiction (H s').
Qed.

Lemma matchAt_some (s g r : string) (d : bool) :
  matchAt s = Some (d, g, r) ->
  s = ((if d then "$" else "") ++ g ++ r)%string
  /\ exists c g', g = String c g' /\ isDigit c = true.
Proof.
  destruct (string_dec s (String "$"%char (match s with String _ s' => s' | _ => "" end)))
    as [E|E].
  - destruct s as [|c s']; [discriminate|]. injection E as ->. simpl.
    destruct (matchNumber s') as [[g1 r1]|] eqn:E1.
    + intros [= <- <- <-]. apply matchNumber_some in E1.
      destruct E1 as [-> H]. split; [reflexivity | exact H].
    + discriminate.
  - rewrite matchAt_plain.
    + destruct (matchNumber s) as [[g1 r1]|] eqn:E1; [|discriminate].
      intros [= <- <- <-]. now apply matchNumber_some in E1.
    + intros s' ->. now apply E.
Qed.

Lemma matchAt_none (c : ascii) (s : string) :
  matchAt (String c s) = None -> isDigit c = false.
Proof.
  intros H.
  assert (Hn : matchNumber (String c s) = None).
  { destruct (Ascii.eqb_spec c "$"%char) as [->|Hc].
    - reflexivity.
    - rewrite matchAt_plain in H by (intros s' [= -> _]; now apply Hc).
      destruct (matchNumber (String c s)) as [[? ?]|]; [discriminate | trivial]. }
  apply matchNumber_none in Hn. simpl in Hn.
  destruct (isDigit c); trivial.
  destruct (spanDigits s); discriminate.
Qed.

Lemma digit_matches (c : ascii) (s : string) :
  isDigit c = true -> matchAt (String c s) <> None.
Proof.
  intros Hc H. apply matchAt_none in H. congruence.
Qed.

(** The match decomposes the text: nothing before it holds a digit, the
    optional dollar sign and the captured number follow, and the number
    starts with a digit. *)
Lemma exec_some (s : string) (m : matchResult) :
  exec s = Some m ->
  s = (before m ++ Text.dollarText m ++ group1 m ++ after m)%string
  /\ Text.hasDigit (before m) = false
  /\ exists c g', group1 m = String c g' /\ isDigit c = true.
Proof.
  revert m. induction s as [|c s IH]; intros m.
  - simpl. discriminate.
  - cbn [exec].
    destruct (matchAt (String c s)) as [[[d g] r]|] eqn:E.
    + intros [= <-]. apply matchAt_some in E. unfold Text.dollarText. simpl.
      destruct E as [E H]. split; [exact E | split; [reflexivity | exact H]].
    + apply matchAt_none in E.
      destruct (exec s) as [m'|]; [|discriminate].
      intros [= <-]. destruct (IH m' eq_refl) as (Hs & Hb & Hg).
      unfold Text.dollarText in *. simpl.
      split; [now rewrite <- Hs | split; [now rewrite E | exact Hg]].
Qed.

Lemma exec_none (s : string) : exec s = None <-> Text.hasDigit s = false.
Proof.
  induction s as [|c s IH].
  - simpl. tauto.
  - cbn [exec Text.hasDigit].
    destruct (matchAt (String c s)) as [[[d g] r]|] eqn:E.
    + split; [discriminate|]. intros H. apply orb_false_iff in H.
      destruct H as [Hc Hs]. exfalso.
      destruct (Ascii.eqb_spec c "$"%char) as [->|Hne].
      * simpl in E. apply IH in Hs.
        destruct (matchNumber s) as [[g1 r1]|] eqn:E1.
        -- apply matchNumber_some in E1. destruct E1 as (-> & c1 & g' & -> & Hd).
           cbn [append] in Hs. cbn [exec] in Hs.
           destruct (matchAt (String c1 (g' ++ r1))) as [[[? ?] ?]|] eqn:E2.
           ++ discriminate.
           ++ now apply digit_matches in E2.
        -- discriminate.
      * rewrite matchAt_plain in E by (intros s' [= -> _]; now apply Hne).
        destruct (matchNumber (String c s)) as [[g1 r1]|] eqn:E1; [|discriminate].
        apply matchNumber_some in E1. destruct E1 as (E1 & c1 & g' & -> & Hd).
        injection E1 as <- _. congruence.
    + apply matchAt_none in E. rewrite E. simpl.
      destruct (exec s); [split; [discriminate|] | tauto].
      intros H. apply IH in H. discriminate.
Qed.

End RegexFacts.

(** ** More on the fallback analyzer *)

Section AnalyzerMore.
Import JsString Analyzer.

Lemma isDigit_value (c : ascii) : isDigit c = true -> (0 <= digitValue c <= 9)%Z.
Proof.
  unfold isDigit, digitValue. rewrite andb_true_iff, !Nat.leb_le.
  generalize (code c). intros n. lia.
Qed.

Lemma spanDigits_allDigits (s : string) : Text.allDigits (fst (spanDigits s)) = true.
Proof.
  induction s as [|c s IH]; simpl; trivial.
  destruct (isDigit c) eqn:E; simpl; trivial.
  destruct (spanDigits s). simpl in *. now rewrite E.
Qed.

Lemma digitsValue_nonneg (s : string) (acc : Z) :
  (0 <= acc)%Z -> Text.allDigits s = true -> (0 <= digitsValue acc s)%Z.
Proof.
  revert acc. induction s as [|c s IH]; intros acc Hacc;
    cbn [digitsValue Text.allDigits]; trivial.
  rewrite andb_true_iff. intros [Hc Hs].
  apply IH; trivial. apply isDigit_value in Hc. lia.
Qed.

Lemma parseFloat_nonneg (s : string) : (0 <= parseFloat s)%Q.
Proof.
  unfold parseFloat.
  pose proof (spanDigits_allDigits s) as Hip.
  destruct (spanDigits s) as [ip rest]. simpl in Hip.
  pose proof (digitsValue_nonneg ip 0 ltac:(lia) Hip) as Hv.
  assert (Hint : (0 <= inject_Z (digitsValue 0 ip))%Q).
  { unfold Qle. simpl. lia. }
  destruct rest as [|p fr]; trivial.
  destruct (Ascii.eqb_spec p "."%char) as [->|Hp].
  - pose proof (spanDigits_allDigits fr) as Hfd.
    destruct (spanDigits fr) as [fd r]. simpl in Hfd.
    pose proof (digitsValue_nonneg fd 0 ltac:(lia) Hfd) as Hf.
    rewrite Qred_correct. unfold Qle. simpl.
    assert (0 < 10 ^ Z.of_nat (String.length fd))%Z by (apply Z.pow_pos_nonneg; lia).
    nia.
  - destruct p as [[] [] [] [] [] [] [] []]; trivial; now contradiction Hp.
Qed.

Lemma extractAmount_nonneg (text : string) : (0 <= extractAmount text)%Q.
Proof.
  unfold extractAmount. destruct (AmountRegex.exec text).
  - apply parseFloat_nonneg.
  - apply Qle_refl.
Qed.

Lemma analysis_fields (transcript : string) :
  let text := toLowerCase transcript in
  let r := analyzeTranscriptFallback transcript in
  amount r = extractAmount text
  /\ category r = fst (detectCategory text categories)
  /\ confidence r = snd (detectCategory text categories).
Proof.
  cbv zeta. unfold analyzeTranscriptFallback.
  destruct (detectCategory (toLowerCase transcript) categories). repeat split.
Qed.

Lemma append_nonempty (a b : string) : b <> "" -> (a ++ b)%string <> "".
Proof. destruct a; simpl; [trivial | discriminate]. Qed.

Lemma analysis_description (transcript : string) :
  description (analyzeTranscriptFallback transcript) <> "".
Proof.
  unfold analyzeTranscriptFallback.
  destruct (detectCategory (toLowerCase transcript) categories) as [cat conf].
  cbn [description].
  assert (Hf : (cat ++ " transaction")%string <> "")
    by (apply append_nonempty; discriminate).
  match goal with |- (if isEmpty ?d then _ else _) <> _ => destruct d eqn:E end;
    simpl; trivial; discriminate.
Qed.

(** The detection loop: the name found is the default or a name of the
    table, and the confidence stays within 0.5 and 0.9. *)
Lemma detectCategory_range (text : string) (table : list (string * list string)) :
  (fst (detectCategory text table) = "Shopping"
   \/ In (fst (detectCategory text table)) (Text.names table))
  /\ (0.5 <= snd (detectCategory text table) <= 0.9)%Q.
Proof.
  induction table as [|[cat kws] table IH]; simpl.
  - split; [now left | split; discriminate].
  - destruct (0 <? List.length (filter (includes text) kws))%nat eqn:E; simpl.
    + split; [right; now left|]. apply Nat.ltb_lt in E. split.
      * apply Q.min_glb; [discriminate|].
        assert (H : (1 <= inject_Z (Z.of_nat (List.length (filter (includes text) kws))))%Q).
        { unfold Qle. simpl. lia. }
        lra.
      * apply Q.le_min_l.
    + destruct IH as [[H|H] Hc]; split; auto.
Qed.

Lemma filter_length_pos (text : string) (kws : list string) :
  (0 <? List.length (filter (includes text) kws))%nat = Text.mentions text kws.
Proof.
  unfold Text.mentions. induction kws as [|k kws IH]; simpl; trivial.
  destruct (includes text k); simpl; trivial.
Qed.

Lemma toLowerChar_idempotent (c : ascii) : toLowerChar (toLowerChar c) = toLowerChar c.
Proof.
  destruct c as [[] [] [] [] [] [] [] []]; reflexivity.
Qed.

Lemma toLowerCase_idempotent (s : string) : toLowerCase (toLowerCase s) = toLowerCase s.
Proof.
  induction s as [|c s IH]; simpl; [|rewrite toLowerChar_idempotent, IH]; reflexivity.
Qed.

End AnalyzerMore.

Section AnalyzerExtras.
Import JsString Analyzer.

Lemma isDigit_toLowerChar (c : ascii) : isDigit (toLowerChar c) = isDigit c.
Proof.
  destruct c as [[] [] [] [] [] [] [] []]; reflexivity.
Qed.

Lemma hasDigit_toLowerCase (s : string) :
  Text.hasDigit (toLowerCase s) = Text.hasDigit s.
Proof.
  induction s as [|c s IH]; simpl; [|rewrite isDigit_toLowerChar, IH]; reflexivity.
Qed.

Lemma detectCategory_skip (text : string) (pre post : list (string * list string)) :
  (forall entry, In entry pre -> Text.mentions text (snd entry) = false) ->
  detectCategory text (pre ++ post) = detectCategory text post.
Proof.
  induction pre as [|[cat kws] pre IH]; intros H; simpl; trivial.
  rewrite filter_length_pos.
  pose proof (H (cat, kws) (or_introl eq_refl)) as Hk. simpl in Hk. rewrite Hk.
  apply IH. intros entry He. apply H. now right.
Qed.

End AnalyzerExtras.

(** X1. The amount is read from the first number of the transcript.  A
    transcript without a digit gets amount 0.  Otherwise the lower-cased
    text splits into a part without digits, an optional dollar sign, the
    captured number, which starts with a digit, and the rest; the amount
    is the value of the captured number. *)
Theorem fallback_amount_is_first_number (transcript : string) :
  let text := JsString.toLowerCase transcript in
  let r := Analyzer.analyzeTranscriptFallback transcript in
  (Text.hasDigit transcript = false -> Analyzer.amount r = 0%Q)
  /\ (Text.hasDigit transcript = true ->
      exists m,
        AmountRegex.exec text = Some m
        /\ text = (AmountRegex.before m ++ Text.dollarText m
                   ++ AmountRegex.group1 m ++ AmountRegex.after m)%string
        /\ Text.hasDigit (AmountRegex.before m) = false
        /\ (exists c g', AmountRegex.group1 m = String c g'
                         /\ JsString.isDigit c = true)
        /\ Analyzer.amount r = JsString.parseFloat (AmountRegex.group1 m)).
Proof.
  cbv zeta.
  destruct (analysis_fields transcript) as (-> & _).
  unfold Analyzer.extractAmount. split; intros H.
  - rewrite <- hasDigit_toLowerCase in H. apply exec_none in H. now rewrite H.
  - destruct (AmountRegex.exec (JsString.toLowerCase transcript)) as [m|] eqn:E.
    + exists m. destruct (exec_some _ _ E) as (Hs & Hb & Hg). auto.
    + apply exec_none in E. rewrite hasDigit_toLowerCase in E. congruence.
Qed.

Lemma fallback_amount_is_first_number_witness :
  Text.hasDigit "Taxi home, $18.50 plus 2 tip" = true
  /\ Analyzer.amount (Analyzer.analyzeTranscriptFallback "Taxi home, $18.50 plus 2 tip")
     = (37 # 2)%Q.
Proof.
  assert (Hd : Text.hasDigit "Taxi home, $18.50 plus 2 tip" = true) by reflexivity.
  split; [exact Hd|].
  destruct (proj2 (fallback_amount_is_first_number "Taxi home, $18.50 plus 2 tip") Hd)
    as (m & Hm & _ & _ & _ & Ha).
  rewrite Ha. vm_compute in Hm. injection Hm as <-. vm_compute. reflexivity.
Defined.

(** X2. Whatever the transcript, the result of the fallback has a
    non-negative amount, a confidence between 0.5 and 0.9, a category that
    is one of the names of the keyword table, and a description that is
    not empty. *)
Theorem fallback_result_wellformed (transcript : string) :
  let r := Analyzer.analyzeTranscriptFallback transcript in
  (0 <= Analyzer.amount r)%Q
  /\ (0.5 <= Analyzer.confidence r <= 0.9)%Q
  /\ In (Analyzer.category r) (Text.names Analyzer.categories)
  /\ Analyzer.description r <> "".
Proof.
  cbv zeta.
  destruct (analysis_fields transcript) as (-> & -> & ->).
  destruct (detectCategory_range (JsString.toLowerCase transcript) Analyzer.categories)
    as [Hn Hc].
  split; [apply extractAmount_nonneg|]. split; [exact Hc|].
  split; [|apply analysis_description].
  destruct Hn as [->|Hn]; [|exact Hn].
  simpl. tauto.
Qed.

(** X3. The first category of the table with a keyword in the lower-cased
    transcript wins, whatever later categories would match; when no
    keyword of the table occurs, the category is Shopping with confidence
    0.5. *)
Theorem first_matching_category_wins (transcript : string) :
  let text := JsString.toLowerCase transcript in
  let r := Analyzer.analyzeTranscriptFallback transcript in
  (forall earlier category keywords later,
      Analyzer.categories = earlier ++ (category, keywords) :: later ->
      (forall entry, In entry earlier -> Text.mentions text (snd entry) = false) ->
      Text.mentions text keywords = true ->
      Analyzer.category r = category)
  /\ ((forall entry, In entry Analyzer.categories ->
                     Text.mentions text (snd entry) = false) ->
      Analyzer.category r = "Shopping" /\ Analyzer.confidence r = 0.5%Q).
Proof.
  cbv zeta.
  destruct (analysis_fields transcript) as (_ & -> & ->). split.
  - intros earlier category keywords later -> Hpre Hk.
    rewrite detectCategory_skip by exact Hpre.
    simpl. now rewrite filter_length_pos, Hk.
  - intros Hnone.
    rewrite <- (app_nil_r Analyzer.categories).
    rewrite detectCategory_skip by exact Hnone. split; reflexivity.
Qed.

Lemma first_matching_category_wins_witness :
  Text.mentions (JsString.toLowerCase "Dinner with the kids")
                ["restaurant"; "lunch"; "dinner"; "breakfast"; "cafe"; "food"] = true
  /\ Text.mentions (JsString.toLowerCase "Dinner with the kids")
                   ["family"; "kids"; "children"; "babysitter"] = true
  /\ Analyzer.category (Analyzer.analyzeTranscriptFallback "Dinner with the kids") = "Food".
Proof.
  split; [reflexivity|]. split; [reflexivity|].
  apply (proj1 (first_matching_category_wins "Dinner with the kids")
               [("Groceries", ["grocery"; "groceries"; "supermarket"; "food shopping"; "market"])]
               "Food" ["restaurant"; "lunch"; "dinner"; "breakfast"; "cafe"; "food"]
               (tl (tl Analyzer.categories))).
  - reflexivity.
  - intros entry [<-|[]]. reflexivity.
  - reflexivity.
Defined.

(** X4. Type, category, amount and confidence depend on the transcript
    only through its lower-cased text: two transcripts that differ in
    letter case alone get the same four values. *)
Theorem fallback_is_case_insensitive (t1 t2 : string) :
  JsString.toLowerCase t1 = JsString.toLowerCase t2 ->
  let r1 := Analyzer.analyzeTranscriptFallback t1 in
  let r2 := Analyzer.analyzeTranscriptFallback t2 in
  Analyzer.type r1 = Analyzer.type r2
  /\ Analyzer.category r1 = Analyzer.category r2
  /\ Analyzer.amount r1 = Analyzer.amount r2
  /\ Analyzer.confidence r1 = Analyzer.confidence r2.
Proof.
  intros H. cbv zeta.
  rewrite !analysis_type.
  destruct (analysis_fields t1) as (-> & -> & ->).
  destruct (analysis_fields t2) as (-> & -> & ->).
  now rewrite H.
Qed.

Lemma fallback_is_case_insensitive_witness :
  JsString.toLowerCase "GOT PAID $2000 SALARY" = JsString.toLowerCase "Got paid $2000 salary"
  /\ Analyzer.category (Analyzer.analyzeTranscriptFallback "GOT PAID $2000 SALARY")
     = Analyzer.category (Analyzer.analyzeTranscriptFallback "Got paid $2000 salary").
Proof.
  assert (H : JsString.toLowerCase "GOT PAID $2000 SALARY"
              = JsString.toLowerCase "Got paid $2000 salary") by reflexivity.
  split; [exact H|].
  exact (proj1 (proj2 (fallback_is_case_insensitive _ _ H))).
Defined.

(** ** The analyze-audio function *)

Section AudioFacts.
Import AudioFunction.

Lemma truthy_text (s : string) : Json.truthy (Json.text s) = true <-> s <> "".
Proof.
  simpl. destruct s; simpl; split; congruence.
Qed.

Lemma truthy_or (a b : Json.value) :
  Json.truthy b = true -> Json.truthy (Json.or a b) = true.
Proof.
  unfold Json.or. destruct (Json.truthy a) eqn:E; trivial.
Qed.

Lemma category_names_nonempty (name : string) :
  In name (Text.names Analyzer.categories) -> name <> "".
Proof.
  simpl. intuition (subst; discriminate).
Qed.

Lemma fallbackResult_invariant (transcript : string) :
  let r := fallbackResult transcript in
  (0 <= amount r)%Q
  /\ Json.truthy (type r) = true
  /\ Json.truthy (category r) = true
  /\ Json.truthy (description r) = true
  /\ Json.truthy (confidence r) = true.
Proof.
  cbv zeta. unfold fallbackResult. cbn [amount type category description confidence].
  destruct (analysis_fields transcript) as (Ea & Ec & Ef).
  destruct (detectCategory_range (JsString.toLowerCase transcript) Analyzer.categories)
    as [Hn [Hc _]].
  rewrite <- Ec in Hn. rewrite <- Ef in Hc.
  split; [rewrite Ea; apply extractAmount_nonneg|]. split.
  - destruct (Analyzer.type _); reflexivity.
  - split.
    + apply truthy_text. destruct Hn as [->|Hn]; [discriminate|].
      now apply category_names_nonempty.
    + split; [apply truthy_text, analysis_description|].
      simpl. apply negb_true_iff.
      destruct (Qeq_bool (Analyzer.confidence _) 0) eqn:E; trivial.
      apply Qeq_bool_iff in E. lra.
Qed.

Lemma analyzeTransactionWithAI_cases (c : completion) (transcript : string) :
  analyzeTransactionWithAI c transcript = fallbackResult transcript
  \/ exists analysis type category amount description confidence,
       c = Parsed analysis
       /\ Json.get analysis "type" = Some type
       /\ Json.get analysis "category" = Some category
       /\ Json.get analysis "amount" = Some (Json.number amount)
       /\ Json.get analysis "description" = Some description
       /\ Json.get analysis "confidence" = Some confidence
       /\ Json.truthy type = true
       /\ Json.truthy category = true
       /\ analyzeTransactionWithAI c transcript
          = mkResult type category (Qabs amount)
                     (Json.or description (Json.text "Transaction"))
                     (Json.or confidence (Json.number 0.5)).
Proof.
  destruct c as [message|analysis]; [now left|]. simpl.
  destruct (Json.get analysis "type") as [ty|] eqn:E1; [|now left].
  destruct (Json.get analysis "category") as [cat|] eqn:E2; [|now left].
  destruct (Json.get analysis "amount") as [amt|] eqn:E3; [|now left].
  destruct (Json.get analysis "description") as [desc|] eqn:E4; [|now left].
  destruct (Json.get analysis "confidence") as [conf|] eqn:E5; [|now left].
  destruct (Json.truthy ty) eqn:Et; [|now left].
  destruct (Json.truthy cat) eqn:Ec; [|now left].
  destruct amt; simpl; try now left.
  right. exists analysis, ty, cat, q, desc, conf. repeat split; trivial.
Qed.

End AudioFacts.

Lemma analysis_amount_nonneg (c : AudioFunction.completion) (transcript : string) :
  (0 <= AudioFunction.amount (AudioFunction.analyzeTransactionWithAI c transcript))%Q.
Proof.
  destruct (analyzeTransactionWithAI_cases c transcript)
    as [->|(analysis & ty & cat & amt & desc & conf & _ & _ & _ & _ & _ & _ & _ & _ & ->)].
  - apply fallbackResult_invariant.
  - apply Qabs_nonneg.
Qed.

(** X5. Whether the analysis comes from the AI reply or from the keyword
    fallback, the amount returned is not negative and the type, the
    category, the description and the confidence are all truthy. *)
Theorem analysis_result_invariant (c : AudioFunction.completion) (transcript : string) :
  let r := AudioFunction.analyzeTransactionWithAI c transcript in
  (0 <= AudioFunction.amount r)%Q
  /\ Json.truthy (AudioFunction.type r) = true
  /\ Json.truthy (AudioFunction.category r) = true
  /\ Json.truthy (AudioFunction.description r) = true
  /\ Json.truthy (AudioFunction.confidence r) = true.
Proof.
  cbv zeta.
  destruct (analyzeTransactionWithAI_cases c transcript)
    as [->|(analysis & ty & cat & amt & desc & conf & _ & _ & _ & _ & _ & _ & Ht & Hc & ->)].
  - apply fallbackResult_invariant.
  - simpl. split; [apply Qabs_nonneg|]. split; [exact Ht|]. split; [exact Hc|].
    split; apply truthy_or; reflexivity.
Qed.

Section HandlerFacts.
Import AudioFunction.

Lemma isEmpty_true (s : string) : Analyzer.isEmpty s = true <-> s = "".
Proof. destruct s; simpl; split; congruence. Qed.

Lemma isEmpty_false (s : string) : Analyzer.isEmpty s = false <-> s <> "".
Proof. destruct s; simpl; split; congruence. Qed.

Lemma failure_fields (message : exn) (l : list call) :
  status (failure message l) = 500%Z
  /\ calls (failure message l) = l
  /\ exists m, content (failure message l) = Error m /\ m <> "".
Proof.
  unfold failure. simpl. repeat split.
  destruct message; simpl; eexists; split; try reflexivity; discriminate.
Qed.

Lemma serve_run (req : request) (e : env) : AudioRuns.run req e (serve req e).
Proof.
  unfold serve.
  destruct (String.eqb_spec (method req) "OPTIONS") as [Ho|Ho].
  { now apply AudioRuns.run_preflight. }
  destruct (String.eqb_spec (method req) "POST") as [Hp|Hp]; simpl.
  2: { now apply AudioRuns.run_not_allowed. }
  destruct (json req) as [message|b] eqn:Ej.
  { apply AudioRuns.run_failure; auto. }
  destruct (Analyzer.isEmpty (userId b)) eqn:Eu.
  { apply AudioRuns.run_failure; auto. }
  apply isEmpty_false in Eu.
  destruct (getOpenAIApiKey (keys e)) as [message|[[key|] pro]] eqn:Ek.
  { apply AudioRuns.run_failure; auto. }
  2: { apply AudioRuns.run_failure; auto. }
  destruct (Analyzer.isEmpty (transcript b)) eqn:Et.
  - apply isEmpty_true in Et.
    destruct (Analyzer.isEmpty (audioData b)) eqn:Ea; simpl.
    + rewrite Et. simpl. apply AudioRuns.run_failure; auto.
    + apply isEmpty_false in Ea.
      destruct (transcription e) as [message|text] eqn:Etr.
      * apply AudioRuns.run_failure; trivial. right. right. split; trivial. now exists key, pro.
      * destruct (Analyzer.isEmpty text) eqn:Ex.
        -- apply AudioRuns.run_failure; trivial. right. right. split; trivial. now exists key, pro.
        -- apply isEmpty_false in Ex.
           apply (AudioRuns.run_analysis req e b key pro text); auto.
  - simpl. rewrite Et. apply isEmpty_false in Et.
    apply (AudioRuns.run_analysis req e b key pro (transcript b)); auto.
Qed.

End HandlerFacts.

(** X6. The handler answers 200, 405 or 500: 405 exactly for a method
    other than OPTIONS and POST; an error body always carries a message
    and never goes with status 200; an analysis goes with status 200, a
    POST with a user id, a transcript that is not empty (the one supplied,
    or else the one transcribed) and an amount that is not negative.
    Transcription and chat completion are contacted only once a key has
    been found. *)
Theorem handler_responses (req : AudioFunction.request) (e : AudioFunction.env) :
  let r := AudioFunction.serve req e in
  (AudioFunction.status r = 200 \/ AudioFunction.status r = 405
   \/ AudioFunction.status r = 500)%Z
  /\ (AudioFunction.status r = 405%Z
      <-> AudioFunction.method req <> "OPTIONS" /\ AudioFunction.method req <> "POST")
  /\ (forall message,
         AudioFunction.content r = AudioFunction.Error message ->
         message <> "" /\ AudioFunction.status r <> 200%Z)
  /\ (forall text res,
         AudioFunction.content r = AudioFunction.Analysis text res ->
         AudioFunction.status r = 200%Z
         /\ AudioFunction.method req = "POST"
         /\ text <> ""
         /\ (0 <= AudioFunction.amount res)%Q
         /\ exists b,
              AudioFunction.json req = inr b
              /\ AudioFunction.userId b <> ""
              /\ (AudioFunction.transcript b = text
                  \/ AudioFunction.transcript b = ""
                     /\ AudioFunction.transcription e = inr text))
  /\ (forall c,
         In c (AudioFunction.calls r) -> c <> AudioFunction.KeyLookup ->
         exists key pro,
           AudioFunction.getOpenAIApiKey (AudioFunction.keys e) = inr (Some key, pro)).
Proof.
  cbv zeta.
  destruct (serve_run req e)
    as [Ho|Ho Hp|message l Hp Hl|b key pro text l Hp Hj Hu Hk Ht Hl].
  - cbn [AudioFunction.status AudioFunction.content AudioFunction.calls].
    split; [now left|]. split.
    { split; [discriminate|]. intros [H _]. contradiction. }
    split; [discriminate|]. split; [discriminate|].
    intros c [].
  - cbn [AudioFunction.status AudioFunction.content AudioFunction.calls].
    split; [right; now left|]. split; [tauto|].
    split.
    { intros m [= <-]. split; discriminate. }
    split; [discriminate|].
    intros c [].
  - destruct (failure_fields message l) as (Hs & Hc & m & Hm & Hne).
    rewrite Hs, Hc, Hm.
    split; [right; now right|]. split.
    { split; [discriminate|]. intros [_ H]. contradiction. }
    split.
    { intros m' [= <-]. split; [exact Hne | discriminate]. }
    split; [discriminate|].
    intros c Hin Hcne.
    destruct Hl as [->|[->|[-> Hkey]]].
    + destruct Hin.
    + destruct Hin as [<-|[]]. contradiction.
    + exact Hkey.
  - cbn [AudioFunction.status AudioFunction.content AudioFunction.calls].
    split; [now left|]. split.
    { split; [discriminate|]. intros [_ H]. contradiction. }
    split; [discriminate|]. split.
    { intros t r [= <- <-]. split; [reflexivity|]. split; [exact Hp|].
      split; [exact Ht|]. split; [apply analysis_amount_nonneg|].
      exists b. split; [exact Hj|]. split; [exact Hu|].
      destruct Hl as [[H _]|(H & _ & H' & _)]; auto. }
    intros c _ _. now exists key, pro.
Qed.

Lemma handler_responses_witness :
  AudioFunction.content (AudioFunction.serve AudioSample.withTranscript AudioSample.chatDown)
  = AudioFunction.Analysis "Paid $50 for gas"
      (AudioFunction.fallbackResult "Paid $50 for gas")
  /\ AudioFunction.status (AudioFunction.serve AudioSample.withTranscript AudioSample.chatDown)
     = 200%Z.
Proof.
  assert (H : AudioFunction.content
                (AudioFunction.serve AudioSample.withTranscript AudioSample.chatDown)
              = AudioFunction.Analysis "Paid $50 for gas"
                  (AudioFunction.fallbackResult "Paid $50 for gas")) by reflexivity.
  split; [exact H|].
  destruct (handler_responses AudioSample.withTranscript AudioSample.chatDown)
    as (_ & _ & _ & Ha & _).
  exact (proj1 (Ha _ _ H)).
Defined.

(** X7. A POST that brings a transcript is never transcribed: the
    transcription service is not contacted and an analysis, if any, is of
    the transcript supplied.  A POST with neither transcript nor audio
    ends in status 500 without contacting transcription or chat
    completion. *)
Theorem supplied_transcript_is_used (req : AudioFunction.request)
  (e : AudioFunction.env) (b : AudioFunction.body) :
  AudioFunction.method req = "POST" ->
  AudioFunction.json req = inr b ->
  let r := AudioFunction.serve req e in
  (AudioFunction.transcript b <> "" ->
   ~ In AudioFunction.Transcription (AudioFunction.calls r)
   /\ forall text res,
        AudioFunction.content r = AudioFunction.Analysis text res ->
        text = AudioFunction.transcript b)
  /\ (AudioFunction.transcript b = "" -> AudioFunction.audioData b = "" ->
      AudioFunction.status r = 500%Z
      /\ ~ In AudioFunction.Transcription (AudioFunction.calls r)
      /\ ~ In AudioFunction.ChatCompletion (AudioFunction.calls r)).
Proof.
  intros Hp Hj. cbv zeta. unfold AudioFunction.serve. rewrite Hp, Hj.
  cbn [String.eqb Ascii.eqb Bool.eqb negb].
  assert (Hfail : forall m l,
             (forall c, In c l -> c = AudioFunction.KeyLookup) ->
             let r := AudioFunction.failure m l in
             (~ In AudioFunction.Transcription (AudioFunction.calls r)
              /\ forall text res,
                   AudioFunction.content r = AudioFunction.Analysis text res ->
                   text = AudioFunction.transcript b)
             /\ (AudioFunction.status r = 500%Z
                 /\ ~ In AudioFunction.Transcription (AudioFunction.calls r)
                 /\ ~ In AudioFunction.ChatCompletion (AudioFunction.calls r))).
  { intros m l Hl. cbv zeta.
    destruct (failure_fields m l) as (Hs & Hc & m' & Hm & _).
    rewrite Hs, Hc, Hm.
    assert (Hno : forall c, c <> AudioFunction.KeyLookup -> ~ In c l).
    { intros c Hc' Hin. apply Hc'. now apply Hl. }
    repeat split; try discriminate; apply Hno; discriminate. }
  assert (Hnil : forall c, In c (@nil AudioFunction.call) -> c = AudioFunction.KeyLookup)
    by (intros c []).
  assert (Hkey : forall c, In c [AudioFunction.KeyLookup] -> c = AudioFunction.KeyLookup)
    by (intros c [<-|[]]; reflexivity).
  destruct (Analyzer.isEmpty (AudioFunction.userId b)).
  { destruct (Hfail "User ID is required" [] Hnil) as [H1 H2]. split; auto. }
  destruct (AudioFunction.getOpenAIApiKey (AudioFunction.keys e)) as [m|[[key|] pro]].
  { destruct (Hfail m _ Hkey) as [H1 H2]. split; auto. }
  2: { match goal with |- context [AudioFunction.failure ?m ?l] =>
         destruct (Hfail m l Hkey) as [H1 H2] end. split; auto. }
  split.
  - intros Ht. apply isEmpty_false in Ht. rewrite Ht.
    cbn [andb]. rewrite Ht.
    cbn [AudioFunction.calls AudioFunction.content app]. split.
    + intros [H|[H|[]]]; discriminate.
    + now intros text res [= <- _].
  - intros Ht Ha. rewrite Ht, Ha. cbn [Analyzer.isEmpty andb negb].
    match goal with |- context [AudioFunction.failure ?m ?l] =>
      destruct (Hfail m l Hkey) as [_ H2] end. exact H2.
Qed.

Lemma supplied_transcript_is_used_witness :
  AudioFunction.method AudioSample.emptyRequest = "POST"
  /\ AudioFunction.status (AudioFunction.serve AudioSample.emptyRequest AudioSample.chatDown)
     = 500%Z.
Proof.
  split; [reflexivity|].
  exact (proj1 (proj2 (supplied_transcript_is_used AudioSample.emptyRequest
                         AudioSample.chatDown _ eq_refl eq_refl) eq_refl eq_refl)).
Defined.

(** X8. A key that [getOpenAIApiKey] returns is never empty.  With an
    active subscription in the first row it is the key of the server,
    and a missing server key is an error whatever the profile holds;
    without one it is the personal key of the first profile row. *)
Theorem key_selection (e : AudioFunction.keyEnv) :
  (forall key pro,
      AudioFunction.getOpenAIApiKey e = inr (Some key, pro) ->
      key <> ""
      /\ AudioFunction.hasActivePro e = inr pro
      /\ (pro = true -> AudioFunction.serverKey e = Some key)
      /\ (pro = false ->
          exists rows,
            AudioFunction.profile e
            = AudioFunction.Response true (Some (Some key :: rows))))
  /\ (AudioFunction.hasActivePro e = inr true ->
      AudioFunction.nonEmpty (AudioFunction.serverKey e) = None ->
      exists message, AudioFunction.getOpenAIApiKey e = inl message).
Proof.
  unfold AudioFunction.getOpenAIApiKey. split.
  - intros key pro.
    destruct (AudioFunction.hasActivePro e) as [m|[|]]; [discriminate| |].
    + destruct (AudioFunction.serverKey e) as [[|c s]|]; simpl; try discriminate.
      intros [= <- <-].
      split; [discriminate|]. split; [reflexivity|].
      split; [reflexivity | discriminate].
    + destruct (AudioFunction.profile e) as [m|[|] [[|row rows]|]]; try discriminate.
      destruct row as [[|c s]|]; simpl; try discriminate.
      intros [= <- <-].
      split; [discriminate|]. split; [reflexivity|].
      split; [discriminate|]. intros _. now exists rows.
  - intros -> ->. eauto.
Qed.

Lemma key_selection_witness :
  AudioFunction.getOpenAIApiKey AudioSample.subscriber = inr (Some "sk-server", true)
  /\ AudioFunction.serverKey AudioSample.subscriber = Some "sk-server".
Proof.
  assert (H : AudioFunction.getOpenAIApiKey AudioSample.subscriber
              = inr (Some "sk-server", true)) by reflexivity.
  split; [exact H|].
  destruct (proj1 (key_selection AudioSample.subscriber) _ _ H) as (_ & _ & Hs & _).
  exact (Hs eq_refl).
Defined.

(** ** Strings: reversal, white space, fences *)

Section StringFacts.
Import JsString.

Lemma append_empty (s : string) : (s ++ "")%string = s.
Proof. induction s as [|c s IH]; simpl; [|rewrite IH]; reflexivity. Qed.

Lemma reverse_acc (s acc : string) :
  reverse acc s = (reverse "" s ++ acc)%string.
Proof.
  revert acc. induction s as [|c s IH]; intros acc; simpl; trivial.
  rewrite (IH (String c acc)), (IH (String c "")), append_assoc. reflexivity.
Qed.

Lemma reverse_append (a b : string) :
  reverse "" (a ++ b) = (reverse "" b ++ reverse "" a)%string.
Proof.
  induction a as [|c a IH]; simpl.
  - now rewrite append_empty.
  - rewrite (reverse_acc (a ++ b)), IH, (reverse_acc a (String c "")), append_assoc.
    reflexivity.
Qed.

Lemma reverse_involutive (s : string) : reverse "" (reverse "" s) = s.
Proof.
  induction s as [|c s IH]; simpl; trivial.
  rewrite (reverse_acc s (String c "")), reverse_append, IH. reflexivity.
Qed.

Lemma append_length (a b : string) :
  String.length (a ++ b) = (String.length a + String.length b)%nat.
Proof. induction a as [|c a IH]; simpl; [|rewrite IH]; reflexivity. Qed.

Lemma reverse_length (s : string) :
  String.length (reverse "" s) = String.length s.
Proof.
  induction s as [|c s IH]; simpl; trivial.
  rewrite (reverse_acc s (String c "")), append_length, IH. simpl. lia.
Qed.

Lemma allSpace_append (a b : string) :
  Blank.allSpace (a ++ b) = Blank.allSpace a && Blank.allSpace b.
Proof.
  induction a as [|c a IH]; simpl; trivial.
  now rewrite IH, andb_assoc.
Qed.

Lemma allSpace_reverse (w : string) :
  Blank.allSpace w = true -> Blank.allSpace (reverse "" w) = true.
Proof.
  induction w as [|c w IH]; simpl; trivial.
  rewrite andb_true_iff. intros [Hc Hw].
  rewrite (reverse_acc w (String c "")), allSpace_append, IH by exact Hw.
  simpl. now rewrite Hc.
Qed.

Lemma trimStart_space (w s : string) :
  Blank.allSpace w = true -> trimStart (w ++ s) = trimStart s.
Proof.
  induction w as [|c w IH]; simpl; trivial.
  rewrite andb_true_iff. intros [-> Hw]. now apply IH.
Qed.

Lemma trimStart_length (s : string) :
  (String.length (trimStart s) <= String.length s)%nat.
Proof.
  induction s as [|c s IH]; simpl; trivial.
  destruct (isSpace c); simpl; lia.
Qed.

Lemma trimStart_fixed (s : string) :
  String.length (trimStart s) = String.length s -> trimStart s = s.
Proof.
  destruct s as [|c s]; simpl; trivial.
  destruct (isSpace c); trivial.
  pose proof (trimStart_length s). simpl. lia.
Qed.

Lemma trimEnd_length (s : string) :
  (String.length (trimEnd s) <= String.length s)%nat.
Proof.
  unfold trimEnd. rewrite reverse_length.
  pose proof (trimStart_length (reverse "" s)) as H.
  now rewrite reverse_length in H.
Qed.

Lemma trimEnd_space (s w : string) :
  Blank.allSpace w = true -> trimEnd (s ++ w) = trimEnd s.
Proof.
  intros Hw. unfold trimEnd.
  now rewrite reverse_append, trimStart_space by now apply allSpace_reverse.
Qed.

(** A string that [trim] leaves alone has no white space at either
    end. *)
Lemma trim_fixed (s : string) :
  trim s = s -> trimStart s = s /\ trimEnd s = s.
Proof.
  intros H. unfold trim in H.
  assert (Hs : trimStart s = s).
  { apply trimStart_fixed.
    pose proof (trimStart_length s). pose proof (trimEnd_length (trimStart s)).
    rewrite H in *. lia. }
  split; [exact Hs | now rewrite Hs in H].
Qed.

Lemma startsWith_append (k s : string) : startsWith (k ++ s) k = true.
Proof.
  induction k as [|c k IH]; simpl.
  - now destruct s.
  - now rewrite Ascii.eqb_refl.
Qed.

Lemma drop_append (k s : string) :
  InsightsFunction.drop (String.length k) (k ++ s) = s.
Proof. induction k as [|c k IH]; simpl; trivial. Qed.

End StringFacts.

Section FenceFacts.
Import JsString InsightsFunction.

Lemma reverse_fence (x : string) :
  reverse "" (x ++ "```") = ("```" ++ reverse "" x)%string.
Proof. now rewrite reverse_append. Qed.

Lemma trimEnd_fence (x : string) : trimEnd (x ++ "```") = (x ++ "```")%string.
Proof.
  unfold trimEnd. rewrite reverse_fence.
  change (trimStart ("```" ++ reverse "" x)) with ("```" ++ reverse "" x)%string.
  now rewrite reverse_append, reverse_involutive.
Qed.

Lemma trimStart_body (b z : string) :
  trimStart b = b -> b <> "" -> trimStart (b ++ z) = (b ++ z)%string.
Proof.
  destruct b as [|c b]; [congruence|]. simpl.
  destruct (isSpace c); trivial.
  intros H _. exfalso.
  pose proof (trimStart_length b) as Hl. rewrite H in Hl. simpl in Hl. lia.
Qed.

Lemma trimEnd_reverse (b : string) :
  trimEnd b = b -> trimStart (reverse "" b) = reverse "" b.
Proof.
  unfold trimEnd. intros H.
  rewrite <- H at 2. now rewrite reverse_involutive.
Qed.

Lemma stripClosing_fence (b w : string) :
  trimEnd b = b -> Blank.allSpace w = true ->
  stripClosing (b ++ w ++ "```") = b.
Proof.
  intros Hb Hw. unfold stripClosing, endsWith.
  rewrite <- append_assoc, reverse_fence, reverse_append.
  change (reverse "" "```") with "```". rewrite startsWith_append.
  rewrite (drop_append "```").
  rewrite trimStart_space by now apply allSpace_reverse.
  rewrite trimEnd_reverse by exact Hb. apply reverse_involutive.
Qed.

Lemma stripOpening_fence (opening w b z : string) :
  Blank.allSpace w = true -> trimStart b = b -> b <> "" ->
  stripOpening opening (opening ++ w ++ b ++ z) = (b ++ z)%string.
Proof.
  intros Hw Hb Hne. unfold stripOpening.
  rewrite startsWith_append, drop_append, trimStart_space by exact Hw.
  now apply trimStart_body.
Qed.

Lemma trim_fence (opening x : string) :
  trimStart opening = opening -> opening <> "" ->
  trim (opening ++ x ++ "```") = (opening ++ x ++ "```")%string.
Proof.
  intros Ho Hne. unfold trim.
  rewrite trimStart_body by assumption.
  rewrite <- append_assoc. apply trimEnd_fence.
Qed.

(** Unwrapping a fenced body, for either opening fence. *)
Lemma unwrap_fence (opening w1 b w2 : string) :
  trimStart opening = opening -> opening <> "" ->
  trim b = b -> Blank.allSpace w1 = true -> Blank.allSpace w2 = true ->
  stripClosing (stripOpening opening (trim (opening ++ (w1 ++ b ++ w2) ++ "```"))) = b.
Proof.
  intros Ho Hne Hb Hw1 Hw2.
  destruct (trim_fixed b Hb) as [Hs He].
  rewrite trim_fence by assumption.
  destruct b as [|c b].
  - cbn [append].
    unfold stripOpening. rewrite startsWith_append, drop_append.
    rewrite append_assoc, !trimStart_space by assumption.
    reflexivity.
  - rewrite !append_assoc.
    rewrite stripOpening_fence by (trivial; discriminate).
    now apply stripClosing_fence.
Qed.

End FenceFacts.

(** X9. A reply wrapped in a code fence is unwrapped before parsing: for
    a body without white space at its ends, set between an opening fence
    (with or without the [json] tag) and a closing fence, with any white
    space around it inside the fences, the cleaned content is the body.
    A reply that does not start with a fence is only trimmed. *)
Theorem fenced_reply_is_unwrapped (body before after : string) :
  JsString.trim body = body ->
  Blank.allSpace before = true ->
  Blank.allSpace after = true ->
  InsightsFunction.cleanContent ("```json" ++ (before ++ body ++ after) ++ "```") = body
  /\ (JsString.startsWith ((before ++ body ++ after) ++ "```") "json" = false ->
      InsightsFunction.cleanContent ("```" ++ (before ++ body ++ after) ++ "```") = body)
  /\ (forall content,
         JsString.startsWith (JsString.trim content) "```" = false ->
         InsightsFunction.cleanContent content = JsString.trim content).
Proof.
  intros Hb Hw1 Hw2. split; [|split].
  - unfold InsightsFunction.cleanContent. cbv zeta.
    rewrite (trim_fence "```json") by (reflexivity || discriminate).
    rewrite (startsWith_append "```json").
    rewrite <- (trim_fence "```json" (before ++ body ++ after))
      by (reflexivity || discriminate).
    apply unwrap_fence; trivial. discriminate.
  - intros Hj. unfold InsightsFunction.cleanContent. cbv zeta.
    rewrite (trim_fence "```") by (reflexivity || discriminate).
    replace (JsString.startsWith ("```" ++ (before ++ body ++ after) ++ "```") "```json")
      with false by (symmetry; exact Hj).
    rewrite (startsWith_append "```").
    rewrite <- (trim_fence "```" (before ++ body ++ after))
      by (reflexivity || discriminate).
    apply unwrap_fence; trivial. discriminate.
  - intros content H. unfold InsightsFunction.cleanContent. cbv zeta.
    replace (JsString.startsWith (JsString.trim content) "```json") with false.
    + now rewrite H.
    + symmetry. destruct (JsString.trim content) as [|c1 [|c2 [|c3 s]]]; trivial.
      cbn [JsString.startsWith] in *.
      destruct (Ascii.eqb "`" c1), (Ascii.eqb "`" c2), (Ascii.eqb "`" c3);
        cbn [andb] in *; trivial.
      destruct s; discriminate.
Qed.

Lemma fenced_reply_is_unwrapped_witness :
  JsString.trim "[1, 2]" = "[1, 2]"
  /\ InsightsFunction.cleanContent
       ("```json" ++ (Blank.newline ++ "[1, 2]" ++ Blank.newline) ++ "```")
     = "[1, 2]".
Proof.
  split; [reflexivity|].
  exact (proj1 (fenced_reply_is_unwrapped "[1, 2]" Blank.newline Blank.newline
                  eq_refl eq_refl eq_refl)).
Defined.

Section FormatFacts.
Import InsightsFunction.

Lemma formatRecommendation_none (rec : Json.value) :
  formatRecommendation rec = None <-> rec = Json.null \/ rec = Json.undefined.
Proof.
  destruct rec; simpl; split; try discriminate; try tauto;
    intros [H|H]; discriminate.
Qed.

Lemma or_truthy (v d : Json.value) : Json.truthy v = true -> Json.or v d = v.
Proof. unfold Json.or. now intros ->. Qed.

Lemma formatRecommendation_some (rec out : Json.value) :
  formatRecommendation rec = Some out -> Blank.wellFormed out /\ Blank.keeps rec out.
Proof.
  unfold formatRecommendation.
  destruct (Json.get rec "type") as [ty|] eqn:E1; [|discriminate].
  destruct (Json.get rec "title") as [ti|] eqn:E2; [|discriminate].
  destruct (Json.get rec "description") as [de|] eqn:E3; [|discriminate].
  destruct (Json.get rec "impact") as [im|] eqn:E4; [|discriminate].
  destruct (Json.get rec "savings") as [sa|] eqn:E5; [|discriminate].
  destruct (Json.get rec "actionItems") as [ac|] eqn:E6; [|discriminate].
  destruct (Json.get rec "economicContext") as [ec|] eqn:E7; [|discriminate].
  destruct (Json.get rec "confidence") as [co|] eqn:E8; [|discriminate].
  intros [= <-]. split.
  - eexists. split; [reflexivity|]. split; [reflexivity|].
    simpl. repeat split; apply truthy_or; reflexivity.
  - intros k v Hk Hg Hv. simpl in Hk.
    destruct Hk as [<-|[<-|[<-|[<-|[<-|[<-|[<-|[<-|[]]]]]]]]];
      simpl; f_equal; rewrite Hg in *;
      match goal with H : Some _ = Some _ |- _ => injection H as <- end;
      now apply or_truthy.
Qed.

Lemma mapAll_some (items out : list Json.value) :
  mapAll items = Some out ->
  List.length out = List.length items
  /\ Forall Blank.wellFormed out
  /\ Forall2 Blank.keeps items out.
Proof.
  revert out. induction items as [|rec items IH]; intros out; simpl.
  - intros [= <-]. repeat split; constructor.
  - destruct (formatRecommendation rec) as [f|] eqn:Ef; [|discriminate].
    destruct (mapAll items) as [others|]; [|discriminate].
    intros [= <-]. destruct (IH others eq_refl) as (Hl & Hw & Hk).
    apply formatRecommendation_some in Ef. destruct Ef as [Hf Hkf].
    simpl. repeat split; [now rewrite Hl | now constructor | now constructor].
Qed.

Lemma mapAll_none (items : list Json.value) :
  mapAll items = None <-> In Json.null items \/ In Json.undefined items.
Proof.
  induction items as [|rec items IH]; simpl.
  - split; [discriminate | intros [[]|[]]].
  - destruct (formatRecommendation rec) as [f|] eqn:Ef.
    + assert (Hn : rec <> Json.null /\ rec <> Json.undefined).
      { split; intros ->; discriminate. }
      destruct (mapAll items) as [others|].
      * split; [discriminate|]. intros H. exfalso.
        assert (H' : In Json.null items \/ In Json.undefined items).
        { destruct H as [[H|H]|[H|H]]; try tauto; symmetry in H; tauto. }
        apply IH in H'. discriminate.
      * split; [intros _ | reflexivity].
        destruct (proj1 IH eq_refl); tauto.
    + split; [intros _ | reflexivity].
      apply formatRecommendation_none in Ef. destruct Ef as [->| ->]; auto.
Qed.

End FormatFacts.

(** X10. Formatting the parsed reply keeps every recommendation, in
    order and without a limit on their number: each comes out with the
    eight keys, a truthy type, title, impact and confidence, and every
    truthy value of the reply kept.  Formatting throws exactly when the
    reply is not an array or holds a [null] entry. *)
Theorem formatted_recommendations (parsed : Json.value) :
  (forall out,
      InsightsFunction.formatRecommendations parsed = Some out ->
      exists items,
        parsed = Json.array items
        /\ List.length out = List.length items
        /\ Forall Blank.wellFormed out
        /\ Forall2 Blank.keeps items out)
  /\ (InsightsFunction.formatRecommendations parsed = None
      <-> (forall items, parsed <> Json.array items)
          \/ exists items,
               parsed = Json.array items
               /\ (In Json.null items \/ In Json.undefined items)).
Proof.
  split.
  - intros out H. destruct parsed; try discriminate.
    exists items. split; trivial. now apply mapAll_some.
  - destruct parsed; simpl;
      try (split; [intros _; left; intros items'; discriminate | trivial]).
    rewrite mapAll_none. split.
    + intros H. right. now exists items.
    + intros [H|(items' & [= <-] & H)]; trivial.
      now contradiction (H items).
Qed.

Lemma formatted_recommendations_witness :
  exists out,
    InsightsFunction.formatRecommendations AudioSample.sixBare = Some out
    /\ List.length out = 6%nat.
Proof.
  eexists. split; [reflexivity|].
  destruct (proj1 (formatted_recommendations AudioSample.sixBare) _ eq_refl)
    as (items & Hp & Hl & _).
  injection Hp as <-. exact Hl.
Defined.

(** ** The cache, seen by the user *)

Section CacheViewFacts.
Import Cache CacheView.
Open Scope Z_scope.

Lemma getCacheTimeRemaining_some (now : Z) (s : state)
  (cached : CachedAIRecommendations.t) :
  cachedAIRecommendations s = Some cached ->
  now - CachedAIRecommendations.timestamp cached < cacheValidDuration ->
  let remaining := cacheValidDuration - (now - CachedAIRecommendations.timestamp cached) in
  getCacheTimeRemaining now s
  = Some (label (remaining / 86400000) ((remaining mod 86400000) / 3600000)).
Proof.
  intros Hc Hlt. cbv zeta. unfold getCacheTimeRemaining. rewrite Hc.
  destruct (Z.leb_spec (cacheValidDuration
                        - (now - CachedAIRecommendations.timestamp cached)) 0) as [H|H];
    [lia|].
  change (24 * 60 * 60 * 1000) with 86400000.
  change (60 * 60 * 1000) with 3600000.
  unfold label. now destruct (0 <? _).
Qed.

Lemma getCacheTimeRemaining_none (now : Z) (s : state) :
  getCacheTimeRemaining now s = None <-> isCacheValid now s = false.
Proof.
  unfold getCacheTimeRemaining, isCacheValid.
  destruct (cachedAIRecommendations s) as [cached|]; [|tauto].
  destruct (Z.leb_spec (cacheValidDuration
                        - (now - CachedAIRecommendations.timestamp cached)) 0) as [H|H];
    destruct (Z.ltb_spec (now - CachedAIRecommendations.timestamp cached)
                         cacheValidDuration) as [H'|H']; try lia; try tauto.
  destruct (0 <? _); split; discriminate.
Qed.

End CacheViewFacts.

(** X11. The remaining-time label exists exactly when the cache is
    valid.  For a valid cache it shows the whole days and the whole hours
    left, the remaining time rounded down to the hour, with the days left
    out when there are none (so "0h" in the last hour); the hours stay
    below 24, and the days do not exceed 7 unless the record is dated in
    the future. *)
Theorem remaining_time_label (now : Z) (s : Cache.state) :
  (CacheView.getCacheTimeRemaining now s <> None <-> Cache.isCacheValid now s = true)
  /\ (forall cached,
         Cache.cachedAIRecommendations s = Some cached ->
         Cache.isCacheValid now s = true ->
         let remaining :=
           (7 * 24 * 60 * 60 * 1000
            - (now - Cache.CachedAIRecommendations.timestamp cached))%Z in
         exists days hours,
           CacheView.getCacheTimeRemaining now s = Some (CacheView.label days hours)
           /\ (0 <= days /\ 0 <= hours < 24)%Z
           /\ (days * 86400000 + hours * 3600000 <= remaining
               < days * 86400000 + (hours + 1) * 3600000)%Z
           /\ ((Cache.CachedAIRecommendations.timestamp cached <= now)%Z ->
               (days <= 7)%Z)).
Proof.
  split.
  - rewrite getCacheTimeRemaining_none.
    destruct (Cache.isCacheValid now s); split; congruence.
  - intros cached Hc Hv. cbv zeta.
    assert (Hlt : (now - Cache.CachedAIRecommendations.timestamp cached
                   < Cache.cacheValidDuration)%Z).
    { unfold Cache.isCacheValid in Hv. rewrite Hc in Hv. now apply Z.ltb_lt. }
    rewrite (getCacheTimeRemaining_some now s cached Hc Hlt).
    change Cache.cacheValidDuration with 604800000%Z in *.
    change (7 * 24 * 60 * 60 * 1000)%Z with 604800000%Z.
    set (remaining := (604800000 - (now - Cache.CachedAIRecommendations.timestamp cached))%Z).
    assert (Hpos : (0 < remaining)%Z) by (subst remaining; lia).
    exists (remaining / 86400000)%Z, ((remaining mod 86400000) / 3600000)%Z.
    split; [reflexivity|].
    split; [|split].
    + Z.div_mod_to_equations. lia.
    + Z.div_mod_to_equations. lia.
    + intros Hts. assert (remaining <= 604800000)%Z by (subst remaining; lia).
      Z.div_mod_to_equations. lia.
Qed.

Lemma remaining_time_label_witness :
  Cache.cachedAIRecommendations Sample.displayed = Some Sample.cached
  /\ Cache.isCacheValid (1000 + 604800000 - 1800000) Sample.displayed = true
  /\ CacheView.getCacheTimeRemaining (1000 + 604800000 - 1800000) Sample.displayed
     = Some "0h".
Proof.
  split; [reflexivity|]. split; [reflexivity|].
  destruct (proj2 (remaining_time_label (1000 + 604800000 - 1800000) Sample.displayed)
                  Sample.cached eq_refl eq_refl)
    as (days & hours & Hl & Hb & Hr & _).
  change (7 * 24 * 60 * 60 * 1000
          - (1000 + 604800000 - 1800000
             - Cache.CachedAIRecommendations.timestamp Sample.cached))%Z
    with 1800000%Z in Hr.
  assert (Hd : days = 0%Z) by lia.
  assert (Hh : hours = 0%Z) by lia.
  rewrite Hl, Hd, Hh. reflexivity.
Defined.

(** ** The cache across reloads *)

(** X12. A successful generation survives a reload of the page.  When
    the request succeeds and the browser storage accepts the write, a
    component created afterwards over the same storage shows the same
    recommendations, dated at the instant of the generation and with a
    valid cache, as long as it is created less than seven days after the
    generation; from seven days on it shows nothing and removes the stored
    record. *)
Theorem cache_survives_reload (e : Cache.env) (s : Cache.state)
  (recs : list AIRecommendation.t) (sent : bool) (later : Z) :
  Cache.transactions e <> [] ->
  Cache.fetchAIRecommendations (Cache.user e) (Cache.reply e) = (inr recs, sent) ->
  Cache.storageWritable e = true ->
  let s1 := Cache.generateAIRecommendations e s in
  let s2 := Cache.loadCachedOnMount later (CacheView.initial (Cache.localStorage s1)) in
  ((later - Cache.now e < 7 * 24 * 60 * 60 * 1000)%Z ->
   Cache.aiRecommendations s2 = recs
   /\ Cache.lastAIRefresh s2 = Some (Cache.now e)
   /\ Cache.isCacheValid later s2 = true)
  /\ ((7 * 24 * 60 * 60 * 1000 <= later - Cache.now e)%Z ->
      Cache.aiRecommendations s2 = []
      /\ Cache.cachedAIRecommendations s2 = None
      /\ Cache.localStorage s2 = None).
Proof.
  intros Hne Hf Hw. cbv zeta.
  rewrite (fetch_success_overwrites e s recs sent Hne Hf), Hw.
  unfold Cache.loadCachedOnMount, CacheView.initial.
  cbn [Cache.localStorage Cache.CachedAIRecommendations.timestamp].
  change Cache.cacheValidDuration with (7 * 24 * 60 * 60 * 1000)%Z.
  split; intros H.
  - apply Z.ltb_lt in H. rewrite H.
    unfold Cache.isCacheValid.
    cbn [Cache.aiRecommendations Cache.lastAIRefresh Cache.cachedAIRecommendations
         Cache.CachedAIRecommendations.data Cache.CachedAIRecommendations.timestamp].
    repeat split. exact H.
  - apply Z.ltb_ge in H. rewrite H. repeat split.
Qed.

Lemma cache_survives_reload_witness :
  Cache.transactions InsightSample.online <> []
  /\ Cache.storageWritable InsightSample.online = true
  /\ Cache.aiRecommendations
       (Cache.loadCachedOnMount 6000
          (CacheView.initial
             (Cache.localStorage
                (Cache.generateAIRecommendations InsightSample.online
                   (CacheView.initial None)))))
     = [Sample.recommendation].
Proof.
  assert (Hne : Cache.transactions InsightSample.online <> []) by discriminate.
  split; [exact Hne|]. split; [reflexivity|].
  pose proof (cache_survives_reload InsightSample.online (CacheView.initial None)
                [Sample.recommendation] true 6000 Hne eq_refl eq_refl) as H.
  cbv zeta in H. destruct H as [H _].
  apply H. reflexivity.
Defined.

(** X13. A manual refresh that fails costs the cache.  The
    recommendations on screen stay and the error text is set, but the
    cache is no longer valid, no remaining time is shown, and nothing is
    left in the browser storage: a component created afterwards starts
    empty. *)
Theorem failed_refresh_loses_cache (e : Cache.env) (s : Cache.state)
  (err : Cache.exn) (sent : bool) (later : Z) :
  Cache.transactions e <> [] ->
  Cache.fetchAIRecommendations (Cache.user e) (Cache.reply e) = (inl err, sent) ->
  let s1 := Cache.handleManualRefresh e s in
  Cache.aiRecommendations s1 = Cache.aiRecommendations s
  /\ Cache.aiRecommendationsError s1 = Cache.failureMessage
  /\ Cache.isCacheValid later s1 = false
  /\ CacheView.getCacheTimeRemaining later s1 = None
  /\ Cache.loadCachedOnMount later (CacheView.initial (Cache.localStorage s1))
     = CacheView.initial None.
Proof.
  intros Hne Hf. cbv zeta.
  destruct (manual_refresh_failure e s err sent Hne Hf) as (Hr & Hc & Hl & Hm).
  split; [exact Hr|]. split; [exact Hm|].
  assert (Hv : Cache.isCacheValid later (Cache.handleManualRefresh e s) = false).
  { unfold Cache.isCacheValid. now rewrite Hc. }
  split; [exact Hv|]. split.
  - now apply getCacheTimeRemaining_none.
  - now rewrite Hl.
Qed.

Lemma failed_refresh_loses_cache_witness :
  Cache.transactions Sample.offline <> []
  /\ Cache.isCacheValid 2000 Sample.displayed = true
  /\ Cache.isCacheValid 2000 (Cache.handleManualRefresh Sample.offline Sample.displayed)
     = false
  /\ Cache.aiRecommendations (Cache.handleManualRefresh Sample.offline Sample.displayed)
     = [Sample.recommendation].
Proof.
  assert (Hne : Cache.transactions Sample.offline <> []) by discriminate.
  split; [exact Hne|]. split; [reflexivity|].
  pose proof (failed_refresh_loses_cache Sample.offline Sample.displayed
                "Failed to fetch" true 2000 Hne eq_refl) as H.
  cbv zeta in H. destruct H as (Hr & _ & Hv & _).
  split; [exact Hv | exact Hr].
Defined.

(** ** Months and the budget analysis *)

Section MonthFacts.
Import JsDate SummaryMonths.
Open Scope Z_scope.

Lemma civilFromDays_month (days : Z) : 1 <= snd (civilFromDays days) <= 12.
Proof.
  unfold civilFromDays. cbv zeta. cbn [snd].
  set (z := days + 719468).
  pose proof (Z.mod_pos_bound z 146097 ltac:(lia)) as Hdoe.
  replace (z - z / 146097 * 146097) with (z mod 146097)
    by (rewrite Z.mod_eq by lia; ring).
  set (doe := z mod 146097) in *. clearbody doe. clear z.
  set (yoe := (doe - doe / 1460 + doe / 36524 - doe / 146096) / 365).
  set (doy := doe - (365 * yoe + yoe / 4 - yoe / 100)).
  assert (Hdoy : 0 <= doy <= 365).
  { subst doy yoe. Z.div_mod_to_equations. lia. }
  destruct (Z.ltb_spec ((5 * doy + 2) / 153) 10); Z.div_mod_to_equations; lia.
Qed.

Lemma getMonth_range (t : Z) : 0 <= getMonth t <= 11.
Proof.
  unfold getMonth. pose proof (civilFromDays_month (dayNumber t)). lia.
Qed.

Lemma monthIndex_eq (t u : Z) :
  monthIndex t = monthIndex u <-> getMonth t = getMonth u /\ getFullYear t = getFullYear u.
Proof.
  unfold monthIndex.
  pose proof (getMonth_range t). pose proof (getMonth_range u). lia.
Qed.

Lemma sameMonth_eqb (t now : Z) :
  (getMonth t =? getMonth now) && (getFullYear t =? getFullYear now)
  = (monthIndex t =? monthIndex now).
Proof.
  pose proof (monthIndex_eq t now) as H.
  destruct (Z.eqb_spec (getMonth t) (getMonth now)),
    (Z.eqb_spec (getFullYear t) (getFullYear now)),
    (Z.eqb_spec (monthIndex t) (monthIndex now)); simpl; trivial; tauto.
Qed.

Lemma prevMonth_index (now : Z) :
  12 * prevYear now + prevMonth now = monthIndex now - 1
  /\ 0 <= prevMonth now <= 11.
Proof.
  unfold prevYear, prevMonth, monthIndex.
  pose proof (getMonth_range now).
  destruct (Z.eqb_spec (getMonth now) 0); lia.
Qed.

Lemma prevMonth_eqb (t now : Z) :
  (getMonth t =? prevMonth now) && (getFullYear t =? prevYear now)
  = (monthIndex t =? monthIndex now - 1).
Proof.
  destruct (prevMonth_index now) as [Hi Hr].
  pose proof (getMonth_range t) as Ht.
  unfold monthIndex in *.
  destruct (Z.eqb_spec (getMonth t) (prevMonth now)),
    (Z.eqb_spec (getFullYear t) (prevYear now)),
    (Z.eqb_spec (12 * getFullYear t + getMonth t)
                (12 * getFullYear now + getMonth now - 1)); simpl; trivial; lia.
Qed.

End MonthFacts.

(** X14. The previous month of the transaction summary is the calendar
    month before that of [now], across the turn of the year: counting
    months from year 0, its index is one less.  The previous-month and
    current-month lists are the transactions of exactly those months, and
    no transaction is in both. *)
Theorem previous_month (now : Z) (transactions : list Transaction.t) :
  (12 * SummaryMonths.prevYear now + SummaryMonths.prevMonth now
   = SummaryMonths.monthIndex now - 1)%Z
  /\ (0 <= SummaryMonths.prevMonth now <= 11)%Z
  /\ (forall t,
         In t (SummaryMonths.prevMonthTransactions now transactions)
         <-> In t transactions
             /\ (SummaryMonths.monthIndex (Transaction.created_at t)
                 = SummaryMonths.monthIndex now - 1)%Z)
  /\ (forall t,
         In t (Summary.currentMonthTransactions now transactions)
         <-> In t transactions
             /\ SummaryMonths.monthIndex (Transaction.created_at t)
                = SummaryMonths.monthIndex now)
  /\ (forall t,
         In t (SummaryMonths.prevMonthTransactions now transactions) ->
         ~ In t (Summary.currentMonthTransactions now transactions)).
Proof.
  destruct (prevMonth_index now) as [Hi Hr].
  assert (Hprev : forall t,
             In t (SummaryMonths.prevMonthTransactions now transactions)
             <-> In t transactions
                 /\ (SummaryMonths.monthIndex (Transaction.created_at t)
                     = SummaryMonths.monthIndex now - 1)%Z).
  { intros t. unfold SummaryMonths.prevMonthTransactions.
    rewrite filter_In, prevMonth_eqb, Z.eqb_eq. tauto. }
  assert (Hcur : forall t,
             In t (Summary.currentMonthTransactions now transactions)
             <-> In t transactions
                 /\ SummaryMonths.monthIndex (Transaction.created_at t)
                    = SummaryMonths.monthIndex now).
  { intros t. unfold Summary.currentMonthTransactions.
    rewrite filter_In, sameMonth_eqb, Z.eqb_eq. tauto. }
  split; [exact Hi|]. split; [exact Hr|]. split; [exact Hprev|]. split; [exact Hcur|].
  intros t Hp Hc. apply Hprev in Hp. apply Hcur in Hc. lia.
Qed.

Lemma previous_month_witness :
  SummaryMonths.prevMonth InsightSample.january16 = 11%Z
  /\ SummaryMonths.prevYear InsightSample.january16 = 2024%Z
  /\ In InsightSample.newYearsEve
        (SummaryMonths.prevMonthTransactions InsightSample.january16
           [InsightSample.newYearsEve])
  /\ ~ In InsightSample.newYearsEve
         (Summary.currentMonthTransactions InsightSample.january16
            [InsightSample.newYearsEve]).
Proof.
  destruct (previous_month InsightSample.january16 [InsightSample.newYearsEve])
    as (_ & _ & Hprev & _ & Hdisjoint).
  assert (Hin : In InsightSample.newYearsEve
                   (SummaryMonths.prevMonthTransactions InsightSample.january16
                      [InsightSample.newYearsEve])).
  { apply Hprev. split; [now left | reflexivity]. }
  split; [reflexivity|]. split; [reflexivity|].
  split; [exact Hin | exact (Hdisjoint _ Hin)].
Defined.

(** ** The budget analysis of the summary *)

Section BudgetFacts.
Import JsNumber JsDate Insights SummaryMonths.
Open Scope Q_scope.



Lemma total_filter_le (f g : Transaction.t -> bool) (l : list Transaction.t) :
  Spec.amountsNonNegative l ->
  (forall t, g t = true -> f t = true) ->
  total (filter g l) <= total (filter f l).
Proof.
  intros Hnn Hfg. induction Hnn as [|x l Hx _ IH]; simpl.
  - apply Qle_refl.
  - destruct (g x) eqn:Eg.
    + rewrite (Hfg x Eg), !total_cons. lra.
    + destruct (f x); [rewrite total_cons|]; lra.
Qed.



End BudgetFacts.




(** ** The selection of the trends *)

Section TopFacts.
Import JsNumber JsDate Insights.
Open Scope Q_scope.

Lemma firstn_or_beyond {A : Type} (n : nat) (l : list A) (x : A) :
  In x l ->
  In x (firstn n l) \/ (List.length (firstn n l) = n /\ In x (skipn n l)).
Proof.
  intros Hin.
  rewrite <- (firstn_skipn n l) in Hin. apply in_app_or in Hin.
  destruct Hin as [Hin|Hin]; [now left|]. right. split; trivial.
  rewrite length_firstn. apply Nat.min_l.
  destruct (Nat.le_gt_cases n (List.length l)) as [H|H]; trivial.
  rewrite skipn_all2 in Hin by lia. contradiction.
Qed.

End TopFacts.

Section DistinctFacts.
Import JsNumber Insights.
Open Scope Q_scope.










End DistinctFacts.


(** ** The historical comparison *)

Section HistoricalFacts.
Import JsNumber Insights.
Open Scope Q_scope.

Variable f : Trend.t -> Q.





End HistoricalFacts.

Section HistoricalPattern.
Import JsNumber JsDate Insights.
Open Scope Q_scope.




End HistoricalPattern.



(** ** The ai-insights function *)

Section InsightsHandlerFacts.
Import InsightsHandler.

Lemma insights_pro_iff (e : keyEnv) :
  hasActivePro e = inr true
  <-> (exists customer others,
          customers e = AudioFunction.Response true (Some (customer :: others)))
      /\ exists rows,
           subscriptions e
           = AudioFunction.Response true (Some (Some "active" :: rows)).
Proof.
  unfold hasActivePro. split.
  - destruct (customers e) as [m|[|] [[|customer others]|]]; try discriminate.
    destruct (subscriptions e) as [m|[|] [[|row rows]|]]; try discriminate.
    destruct row as [status|]; simpl; [|discriminate].
    intros [= H]. apply String.eqb_eq in H. subst status. eauto.
  - intros ((customer & others & ->) & rows & ->). reflexivity.
Qed.

Lemma insights_failure_fields (message : exn) (l : list call) :
  status (failure message l) = 500%Z
  /\ calls (failure message l) = l
  /\ exists m, content (failure message l) = Error m /\ m <> "".
Proof.
  unfold failure. simpl. repeat split.
  destruct message; simpl; eexists; split; try reflexivity; discriminate.
Qed.

Lemma generated_from_reply (c : chatEnv) (out : list Json.value) :
  generateAIRecommendations c = inr out ->
  exists content parsed,
    reply c = inr (Some content)
    /\ content <> ""
    /\ parse c (InsightsFunction.cleanContent content) = inr parsed
    /\ InsightsFunction.formatRecommendations parsed = Some out.
Proof.
  unfold generateAIRecommendations.
  destruct (reply c) as [m|[content|]]; try discriminate.
  destruct (Analyzer.isEmpty content) eqn:E; [discriminate|].
  destruct (parse c _) as [m|parsed] eqn:Ep; [discriminate|].
  destruct (InsightsFunction.formatRecommendations parsed) as [f|] eqn:Ef;
    [|discriminate].
  intros [= <-]. exists content, parsed.
  split; [reflexivity|]. split; [now apply isEmpty_false|]. now split.
Qed.

End InsightsHandlerFacts.

(** X21. The ai-insights function takes a user for a Pro subscriber
    exactly when a customer row exists for the user and the first
    subscription row of that customer is active.  A key it returns is
    never empty: the key of the server for a subscriber, otherwise the
    personal key of the first profile row.  For a user without customer
    row the answer of the subscription table is of no influence. *)
Theorem insights_key_selection (e : InsightsHandler.keyEnv) :
  (InsightsHandler.hasActivePro e = inr true
   <-> (exists customer others,
           InsightsHandler.customers e
           = AudioFunction.Response true (Some (customer :: others)))
       /\ exists rows,
            InsightsHandler.subscriptions e
            = AudioFunction.Response true (Some (Some "active" :: rows)))
  /\ (forall key,
         InsightsHandler.getOpenAIApiKey e = inr (Some key) ->
         key <> ""
         /\ (InsightsHandler.hasActivePro e = inr true
             /\ InsightsHandler.serverKey e = Some key
             \/ InsightsHandler.hasActivePro e = inr false
                /\ exists rows,
                     InsightsHandler.profile e
                     = AudioFunction.Response true (Some (Some key :: rows))))
  /\ (forall ok other,
         InsightsHandler.customers e = AudioFunction.Response ok (Some []) ->
         InsightsHandler.getOpenAIApiKey
           (InsightsHandler.mkKeyEnv (InsightsHandler.customers e) other
              (InsightsHandler.serverKey e) (InsightsHandler.profile e)
              (InsightsHandler.syntaxError e))
         = InsightsHandler.getOpenAIApiKey e).
Proof.
  split; [apply insights_pro_iff|]. split.
  - intros key. unfold InsightsHandler.getOpenAIApiKey.
    destruct (InsightsHandler.hasActivePro e) as [m|[|]]; [discriminate| |].
    + destruct (InsightsHandler.serverKey e) as [[|c s]|]; simpl; try discriminate.
      intros [= <-]. split; [discriminate|]. now left.
    + destruct (InsightsHandler.profile e) as [m|[|] [[|row rows]|]];
        try discriminate.
      destruct row as [[|c s]|]; simpl; try discriminate.
      intros [= <-]. split; [discriminate|]. right. split; [reflexivity|].
      now exists rows.
  - intros ok other Hc.
    unfold InsightsHandler.getOpenAIApiKey, InsightsHandler.hasActivePro.
    cbn [InsightsHandler.customers InsightsHandler.subscriptions
         InsightsHandler.serverKey InsightsHandler.profile
         InsightsHandler.syntaxError].
    rewrite Hc. now destruct ok.
Qed.

Lemma insights_key_selection_witness :
  InsightsHandler.getOpenAIApiKey InsightsHandlerSample.noCustomer
  = inr (Some "sk-user")
  /\ InsightsHandler.hasActivePro InsightsHandlerSample.noCustomer = inr false
  /\ InsightsHandler.hasActivePro InsightsHandlerSample.subscriber = inr true.
Proof.
  assert (H : InsightsHandler.getOpenAIApiKey InsightsHandlerSample.noCustomer
              = inr (Some "sk-user")) by reflexivity.
  split; [exact H|].
  destruct (insights_key_selection InsightsHandlerSample.noCustomer)
    as (_ & Hkey & _).
  destruct (Hkey _ H) as (_ & [[Hpro _]|[Hpro _]]); [discriminate Hpro|].
  split; [exact Hpro|].
  apply (proj1 (insights_key_selection InsightsHandlerSample.subscriber)).
  split; [now exists (Some "cus_1"), [] | now exists []].
Defined.

(** X22. The ai-insights handler answers 200, 405 or 500: 405 exactly
    for a method other than OPTIONS and POST; an error body always carries
    a message and never goes with status 200.  Recommendations go with
    status 200 and a POST with a user id; they are, in order, the
    formatted entries of the array that the content of the reply parses
    to once its fence is removed, each with the eight keys.  The chat
    completion is contacted only once a key has been found. *)
Theorem insights_handler_responses (req : InsightsHandler.request)
  (e : InsightsHandler.env) :
  let r := InsightsHandler.serve req e in
  (InsightsHandler.status r = 200 \/ InsightsHandler.status r = 405
   \/ InsightsHandler.status r = 500)%Z
  /\ (InsightsHandler.status r = 405%Z
      <-> InsightsHandler.method req <> "OPTIONS"
          /\ InsightsHandler.method req <> "POST")
  /\ (forall message,
         InsightsHandler.content r = InsightsHandler.Error message ->
         message <> "" /\ InsightsHandler.status r <> 200%Z)
  /\ (forall out,
         InsightsHandler.content r = InsightsHandler.Recommendations out ->
         InsightsHandler.status r = 200%Z
         /\ InsightsHandler.method req = "POST"
         /\ (exists b,
                InsightsHandler.json req = inr b /\ InsightsHandler.userId b <> "")
         /\ (exists content items,
                InsightsHandler.reply (InsightsHandler.chat e) = inr (Some content)
                /\ InsightsHandler.parse (InsightsHandler.chat e)
                     (InsightsFunction.cleanContent content)
                   = inr (Json.array items)
                /\ List.length out = List.length items
                /\ Forall Blank.wellFormed out
                /\ Forall2 Blank.keeps items out))
  /\ (In InsightsHandler.ChatCompletion (InsightsHandler.calls r) ->
      exists key,
        InsightsHandler.getOpenAIApiKey (InsightsHandler.keys e) = inr (Some key)).
Proof.
  cbv zeta. unfold InsightsHandler.serve.
  destruct (String.eqb_spec (InsightsHandler.method req) "OPTIONS") as [Ho|Ho].
  { cbn. split; [now left|]. split; [split; [discriminate | tauto]|].
    split; [discriminate|]. split; [discriminate | intros []]. }
  destruct (String.eqb_spec (InsightsHandler.method req) "POST") as [Hp|Hp]; cbn [negb].
  2:{ cbn. split; [right; now left|]. split; [tauto|].
      split; [intros m [= <-]; split; discriminate|].
      split; [discriminate | intros []]. }
  assert (Hfail : forall message l,
             (In InsightsHandler.ChatCompletion l ->
              exists key,
                InsightsHandler.getOpenAIApiKey (InsightsHandler.keys e)
                = inr (Some key)) ->
             let r := InsightsHandler.failure message l in
             (InsightsHandler.status r = 200 \/ InsightsHandler.status r = 405
              \/ InsightsHandler.status r = 500)%Z
             /\ (InsightsHandler.status r = 405%Z
                 <-> InsightsHandler.method req <> "OPTIONS"
                     /\ InsightsHandler.method req <> "POST")
             /\ (forall message,
                    InsightsHandler.content r = InsightsHandler.Error message ->
                    message <> "" /\ InsightsHandler.status r <> 200%Z)
             /\ (forall out,
                    InsightsHandler.content r = InsightsHandler.Recommendations out ->
                    InsightsHandler.status r = 200%Z
                    /\ InsightsHandler.method req = "POST"
                    /\ (exists b,
                           InsightsHandler.json req = inr b
                           /\ InsightsHandler.userId b <> "")
                    /\ (exists content items,
                           InsightsHandler.reply (InsightsHandler.chat e)
                           = inr (Some content)
                           /\ InsightsHandler.parse (InsightsHandler.chat e)
                                (InsightsFunction.cleanContent content)
                              = inr (Json.array items)
                           /\ List.length out = List.length items
                           /\ Forall Blank.wellFormed out
                           /\ Forall2 Blank.keeps items out))
             /\ (In InsightsHandler.ChatCompletion (InsightsHandler.calls r) ->
                 exists key,
                   InsightsHandler.getOpenAIApiKey (InsightsHandler.keys e)
                   = inr (Some key))).
  { intros message l Hl. cbv zeta.
    destruct (insights_failure_fields message l) as (Hs & Hc & m & Hm & Hne).
    rewrite Hs, Hc, Hm.
    split; [right; now right|].
    split; [split; [discriminate | intros [_ H]; contradiction]|].
    split; [intros m' [= <-]; split; [exact Hne | discriminate]|].
    split; [discriminate | exact Hl]. }
  destruct (InsightsHandler.json req) as [message|b] eqn:Ej.
  { apply Hfail. intros []. }
  destruct (Analyzer.isEmpty (InsightsHandler.userId b)) eqn:Eu.
  { apply Hfail. intros []. }
  destruct (InsightsHandler.getOpenAIApiKey (InsightsHandler.keys e))
    as [message|[key|]] eqn:Ek.
  - apply Hfail. intros [H|[]]. discriminate H.
  - destruct (InsightsHandler.generateAIRecommendations (InsightsHandler.chat e))
      as [message|out] eqn:Eg.
    + apply Hfail. intros _. now exists key.
    + cbn [InsightsHandler.status InsightsHandler.content InsightsHandler.calls].
      split; [now left|].
      split; [split; [discriminate | intros [_ H]; contradiction]|].
      split; [discriminate|]. split; [|intros _; now exists key].
      intros out' [= <-]. split; [reflexivity|]. split; [exact Hp|].
      split; [exists b; split; [reflexivity | now apply isEmpty_false]|].
      apply generated_from_reply in Eg.
      destruct Eg as (content & parsed & Hr & _ & Hparse & Hf).
      destruct parsed as [| | | | |items|]; try discriminate Hf.
      destruct (mapAll_some items out Hf) as (Hlen & Hw & Hk).
      now exists content, items.
  - apply Hfail. intros [H|[]]. discriminate H.
Qed.

Lemma insights_handler_responses_witness :
  exists out,
    InsightsHandler.content
      (InsightsHandler.serve InsightsHandlerSample.post
         (InsightsHandler.mkEnv InsightsHandlerSample.subscriber
            InsightsHandlerSample.fenced))
    = InsightsHandler.Recommendations out
    /\ List.length out = 1%nat
    /\ InsightsHandler.status
         (InsightsHandler.serve InsightsHandlerSample.post
            (InsightsHandler.mkEnv InsightsHandlerSample.subscriber
               InsightsHandlerSample.fenced))
       = 200%Z.
Proof.
  eexists. split; [reflexivity|]. split; [reflexivity|].
  destruct (insights_handler_responses InsightsHandlerSample.post
              (InsightsHandler.mkEnv InsightsHandlerSample.subscriber
                 InsightsHandlerSample.fenced))
    as (_ & _ & _ & H & _).
  exact (proj1 (H _ eq_refl)).
Defined.

(** ** The Dashboard *)

Section DashboardFacts.
Import JsDate Dashboard.
Open Scope Q_scope.

Lemma delete_fresh (transactionId : string) (l : list Transaction.t) :
  ~ In transactionId (map Transaction.id l) ->
  deleteTransaction transactionId l = l.
Proof.
  unfold deleteTransaction. induction l as [|t l IH]; simpl; intros H; trivial.
  destruct (String.eqb_spec (Transaction.id t) transactionId) as [E|E]; simpl.
  - exfalso. apply H. now left.
  - rewrite IH; trivial. intros Hin. apply H. now right.
Qed.



End DashboardFacts.

(** X23. The three updates of the transaction list.  Deleting by id
    keeps exactly the transactions with another id, so deleting a
    transaction just added under a fresh id gives the list back.
    Updating keeps the ids in place: it puts the new record wherever
    its id occurs, leaves every other transaction, and changes nothing
    when the id does not occur. *)
Theorem transaction_list_operations (l : list Transaction.t)
  (t u : Transaction.t) (transactionId : string) :
  (~ In (Transaction.id t) (map Transaction.id l) ->
   Dashboard.deleteTransaction (Transaction.id t) (Dashboard.addTransaction t l) = l)
  /\ map Transaction.id (Dashboard.updateTransaction u l) = map Transaction.id l
  /\ (forall x,
         In x (Dashboard.updateTransaction u l)
         <-> (x = u /\ In (Transaction.id u) (map Transaction.id l))
             \/ (In x l /\ Transaction.id x <> Transaction.id u))
  /\ (forall x,
         In x (Dashboard.deleteTransaction transactionId l)
         <-> In x l /\ Transaction.id x <> transactionId)
  /\ (~ In (Transaction.id u) (map Transaction.id l) ->
      Dashboard.updateTransaction u l = l).
Proof.
  split; [|split; [|split; [|split]]].
  - intros Hfresh. unfold Dashboard.addTransaction, Dashboard.deleteTransaction.
    cbn [filter]. rewrite String.eqb_refl. cbn [negb].
    now apply delete_fresh.
  - unfold Dashboard.updateTransaction. rewrite map_map.
    apply map_ext. intros x.
    destruct (String.eqb_spec (Transaction.id x) (Transaction.id u)); congruence.
  - intros x. unfold Dashboard.updateTransaction. rewrite in_map_iff. split.
    + intros (y & Hy & Hin).
      destruct (String.eqb_spec (Transaction.id y) (Transaction.id u)) as [E|E].
      * left. split; [congruence|]. rewrite <- E. now apply in_map.
      * right. subst y. now split.
    + intros [[-> Hin]|[Hin Hne]].
      * apply in_map_iff in Hin. destruct Hin as (y & Hy & Hin).
        exists y. split; trivial. rewrite Hy. now rewrite String.eqb_refl.
      * exists x. split; trivial.
        destruct (String.eqb_spec (Transaction.id x) (Transaction.id u));
          [contradiction | reflexivity].
  - intros x. unfold Dashboard.deleteTransaction. rewrite filter_In.
    destruct (String.eqb_spec (Transaction.id x) transactionId); simpl;
      intuition congruence.
  - intros Hfresh. unfold Dashboard.updateTransaction.
    induction l as [|y l IH]; simpl; trivial.
    destruct (String.eqb_spec (Transaction.id y) (Transaction.id u)) as [E|E].
    + exfalso. apply Hfresh. left. exact E.
    + rewrite IH; trivial. intros Hin. apply Hfresh. now right.
Qed.

Lemma transaction_list_operations_witness :
  ~ In (Transaction.id DashboardSample.lastJune)
       (map Transaction.id Sample.transactions)
  /\ Dashboard.deleteTransaction "t7"
       (Dashboard.addTransaction DashboardSample.lastJune Sample.transactions)
     = Sample.transactions
  /\ In DashboardSample.edited
        (Dashboard.updateTransaction DashboardSample.edited Sample.transactions).
Proof.
  assert (Hfresh : ~ In (Transaction.id DashboardSample.lastJune)
                        (map Transaction.id Sample.transactions)).
  { simpl. intuition discriminate. }
  destruct (transaction_list_operations Sample.transactions DashboardSample.lastJune
              DashboardSample.edited "t7") as (Hdel & _ & Hupd & _).
  split; [exact Hfresh|]. split; [exact (Hdel Hfresh)|].
  apply Hupd. left. split; [reflexivity|]. simpl. auto.
Defined.


(** X25. The month cards of the Dashboard compare the month number
    alone: they count the transactions of the same month of any year,
    those whose month lies a whole number of years from the month of
    [now].  With amounts that are not negative they are therefore at
    least the income and expenses of the current month that the
    transaction summary reports, and equal to them when every transaction
    is of the year of [now]. *)
Theorem month_cards_ignore_year (now : Z) (l : list Transaction.t) :
  (forall t,
      In t (filter (fun t => Insights.isExpense t
                             && (JsDate.getMonth (Transaction.created_at t)
                                 =? JsDate.getMonth now)%Z) l)
      <-> In t l /\ Insights.isExpense t = true
          /\ exists years : Z,
               SummaryMonths.monthIndex (Transaction.created_at t)
               = (SummaryMonths.monthIndex now + 12 * years)%Z)
  /\ (Spec.amountsNonNegative l ->
      (SummaryMonths.currentExpenses now l <= Dashboard.thisMonthExpenses now l)%Q
      /\ (SummaryMonths.currentIncome now l <= Dashboard.thisMonthIncome now l)%Q)
  /\ ((forall t, In t l ->
                 JsDate.getFullYear (Transaction.created_at t)
                 = JsDate.getFullYear now) ->
      Dashboard.thisMonthExpenses now l = SummaryMonths.currentExpenses now l
      /\ Dashboard.thisMonthIncome now l = SummaryMonths.currentIncome now l).
Proof.
  split; [|split].
  - intros t. rewrite filter_In, andb_true_iff, Z.eqb_eq.
    unfold SummaryMonths.monthIndex.
    pose proof (getMonth_range (Transaction.created_at t)) as Ht.
    pose proof (getMonth_range now) as Hn.
    split.
    + intros (Hin & He & Hm). split; trivial. split; trivial.
      exists (JsDate.getFullYear (Transaction.created_at t) - JsDate.getFullYear now)%Z.
      lia.
    + intros (Hin & He & years & Hy). split; trivial. split; trivial. lia.
  - intros Hnn.
    unfold SummaryMonths.currentExpenses, SummaryMonths.currentIncome,
      Dashboard.thisMonthExpenses, Dashboard.thisMonthIncome,
      Summary.currentMonthTransactions.
    rewrite !filter_twice.
    split; apply total_filter_le; trivial; intros t Ht;
      apply andb_true_iff in Ht; destruct Ht as [Hm Hk];
      apply andb_true_iff in Hm; destruct Hm as [Hm _];
      now rewrite Hk, Hm.
  - intros Hyear.
    unfold SummaryMonths.currentExpenses, SummaryMonths.currentIncome,
      Dashboard.thisMonthExpenses, Dashboard.thisMonthIncome,
      Summary.currentMonthTransactions.
    rewrite !filter_twice.
    split; f_equal; apply filter_ext_in; intros t Hin;
      rewrite (Hyear t Hin), Z.eqb_refl, andb_true_r; apply andb_comm.
Qed.

Lemma month_cards_ignore_year_witness :
  Spec.amountsNonNegative [DashboardSample.lastJune]
  /\ (SummaryMonths.currentExpenses Sample.now [DashboardSample.lastJune] == 0)%Q
  /\ (Dashboard.thisMonthExpenses Sample.now [DashboardSample.lastJune] == 90)%Q
  /\ (SummaryMonths.currentExpenses Sample.now [DashboardSample.lastJune]
      <= Dashboard.thisMonthExpenses Sample.now [DashboardSample.lastJune])%Q.
Proof.
  assert (Hnn : Spec.amountsNonNegative [DashboardSample.lastJune])
    by (repeat constructor; discriminate).
  split; [exact Hnn|]. split; [reflexivity|]. split; [reflexivity|].
  destruct (month_cards_ignore_year Sample.now [DashboardSample.lastJune])
    as (_ & H & _).
  exact (proj1 (H Hnn)).
Defined.

(** ** The BudgetLimitsManager *)

Section LimitFacts.
Import BudgetLimitsManager.

Lemma filterFrom_beyond {A : Type} (index k : nat) (l : list A) :
  (index < k)%nat ->
  filterFrom (fun _ j => negb (Nat.eqb j index)) k l = l.
Proof.
  revert k. induction l as [|x l IH]; intros k Hk; cbn [filterFrom]; trivial.
  destruct (Nat.eqb_spec k index) as [E|_]; [lia|]. cbn [negb].
  f_equal. apply IH. lia.
Qed.

Lemma filterFrom_remove {A : Type} (index i : nat) (l : list A) :
  filterFrom (fun _ j => negb (Nat.eqb j (i + index))) i l
  = firstn index l ++ skipn (S index) l.
Proof.
  revert index i. induction l as [|x l IH]; intros index i.
  - now destruct index.
  - destruct index as [|index]; cbn [filterFrom firstn skipn app].
    + rewrite Nat.add_0_r, Nat.eqb_refl. cbn [negb].
      apply filterFrom_beyond. lia.
    + destruct (Nat.eqb_spec i (i + S index)) as [E|_]; [lia|]. cbn [negb].
      f_equal. replace (i + S index)%nat with (S i + index)%nat by lia.
      apply IH.
Qed.

Lemma mapFrom_length {A B : Type} (f : A -> nat -> B) (i : nat) (l : list A) :
  List.length (mapFrom f i l) = List.length l.
Proof.
  revert i. induction l as [|x l IH]; intros i; simpl; auto.
Qed.

Lemma mapFrom_nth {A B : Type} (f : A -> nat -> B) (i j : nat) (l : list A) :
  nth_error (mapFrom f i l) j = option_map (fun x => f x (i + j)%nat) (nth_error l j).
Proof.
  revert i j. induction l as [|x l IH]; intros i j.
  - now destruct j.
  - destruct j as [|j]; simpl.
    + now rewrite Nat.add_0_r.
    + rewrite IH. now replace (S i + j)%nat with (i + S j)%nat by lia.
Qed.

Lemma NoDup_without {A : Type} (index : nat) (l : list A) :
  NoDup l -> NoDup (firstn index l ++ skipn (S index) l).
Proof.
  revert index. induction l as [|x l IH]; intros index H.
  - destruct index; constructor.
  - inversion H as [|? ? Hx Hl]; subst.
    destruct index as [|index]; cbn [firstn skipn app]; trivial.
    constructor; [|now apply IH].
    intros Hin. apply Hx. apply in_app_or in Hin.
    destruct Hin as [Hin|Hin].
    + now apply (In_firstn index l).
    + rewrite <- (firstn_skipn (S index) l). apply in_or_app. now right.
Qed.

Lemma lowercase_distinct (name : string) (limits : list BudgetLimit.t) :
  existsb (fun limit =>
             String.eqb (JsString.toLowerCase (BudgetLimit.category limit))
                        (JsString.toLowerCase name)) limits = false ->
  forall b, In b limits ->
            JsString.toLowerCase (BudgetLimit.category b)
            <> JsString.toLowerCase name.
Proof.
  intros H b Hin E.
  assert (Ht : existsb (fun limit =>
                          String.eqb (JsString.toLowerCase (BudgetLimit.category limit))
                                     (JsString.toLowerCase name)) limits = true).
  { apply existsb_exists. exists b. split; trivial. now apply String.eqb_eq. }
  congruence.
Qed.

Lemma preset_absent (name : string) (limits : list BudgetLimit.t) :
  existsb (fun limit => String.eqb (BudgetLimit.category limit) name) limits = false
  <-> ~ In name (map BudgetLimit.category limits).
Proof.
  split.
  - intros H Hin. apply in_map_iff in Hin. destruct Hin as (b & Hb & Hin).
    assert (Ht : existsb (fun limit => String.eqb (BudgetLimit.category limit) name)
                         limits = true).
    { apply existsb_exists. exists b. split; trivial. now apply String.eqb_eq. }
    congruence.
  - intros H. destruct (existsb _ limits) eqn:E; trivial.
    apply existsb_exists in E. destruct E as (b & Hin & Eb).
    apply String.eqb_eq in Eb. exfalso. apply H. rewrite <- Eb. now apply in_map.
Qed.

Lemma NoDup_appended (name : string) (limit : Q) (limits : list BudgetLimit.t) :
  NoDup (map BudgetLimit.category limits) ->
  ~ In name (map BudgetLimit.category limits) ->
  NoDup (map BudgetLimit.category (limits ++ [BudgetLimit.mk name limit])).
Proof.
  intros Hnd Hout. rewrite map_app. apply NoDup_app; trivial.
  - repeat constructor. intros [].
  - intros x Hx [<-|[]]. contradiction.
Qed.

Lemma mapFrom_categories (f : BudgetLimit.t -> nat -> BudgetLimit.t) (i : nat)
  (limits : list BudgetLimit.t) :
  (forall b j, BudgetLimit.category (f b j) = BudgetLimit.category b) ->
  map BudgetLimit.category (mapFrom f i limits) = map BudgetLimit.category limits.
Proof.
  intros Hf. revert i. induction limits as [|b l IH]; intros i; simpl; trivial.
  now rewrite Hf, IH.
Qed.

Lemma addBudgetLimit_valid (s : state) :
  SummaryMonths.validLimits (budgetLimits s) ->
  SummaryMonths.validLimits (budgetLimits (addBudgetLimit s)).
Proof.
  intros [Hpos Hnd]. unfold addBudgetLimit.
  destruct (newLimit s) as [limit|]; [|now split].
  destruct (Analyzer.isEmpty (newCategory s)); cbn [orb]; [now split|].
  destruct (Qle_bool limit 0) eqn:E; [now split|].
  destruct (existsb _ (budgetLimits s)) eqn:Ex; [now split|].
  cbn [budgetLimits]. split.
  - apply Forall_app. split; trivial. repeat constructor.
    cbn [BudgetLimit.monthly_limit].
    apply Qnot_le_lt. intros H. apply Qle_bool_iff in H. congruence.
  - apply NoDup_appended; trivial. intros Hin.
    apply in_map_iff in Hin. destruct Hin as (b & Hb & Hin).
    apply (lowercase_distinct _ _ Ex b Hin). now rewrite Hb.
Qed.

End LimitFacts.

(** X26. [addBudgetLimit] accepts the form exactly when a limit is
    entered and positive, the category is not empty, and no limit of the
    list has the same category up to letter case.  An accepted limit goes
    to the end of the list and the form is cleared; otherwise the list and
    the form stay as they are and an error text is shown. *)
Theorem add_budget_limit_validates (s : BudgetLimitsManager.state) :
  let s' := BudgetLimitsManager.addBudgetLimit s in
  let accepted limit :=
    BudgetLimitsManager.newLimit s = Some limit
    /\ (0 < limit)%Q
    /\ BudgetLimitsManager.newCategory s <> ""
    /\ forall b, In b (BudgetLimitsManager.budgetLimits s) ->
                 JsString.toLowerCase (BudgetLimit.category b)
                 <> JsString.toLowerCase (BudgetLimitsManager.newCategory s) in
  (forall limit,
      accepted limit ->
      s' = BudgetLimitsManager.mkState
             (BudgetLimitsManager.budgetLimits s
              ++ [BudgetLimit.mk (BudgetLimitsManager.newCategory s) limit])
             "" None "")
  /\ ((forall limit, ~ accepted limit) ->
      BudgetLimitsManager.budgetLimits s' = BudgetLimitsManager.budgetLimits s
      /\ BudgetLimitsManager.newCategory s' = BudgetLimitsManager.newCategory s
      /\ BudgetLimitsManager.newLimit s' = BudgetLimitsManager.newLimit s
      /\ BudgetLimitsManager.error s' <> "").
Proof.
  cbv zeta. unfold BudgetLimitsManager.addBudgetLimit. split.
  - intros limit (-> & Hpos & Hne & Hfresh).
    apply isEmpty_false in Hne. rewrite Hne. cbn [orb].
    destruct (Qle_bool limit 0) eqn:E.
    { apply Qle_bool_iff in E. lra. }
    destruct (existsb _ (BudgetLimitsManager.budgetLimits s)) eqn:Ex; trivial.
    apply existsb_exists in Ex. destruct Ex as (b & Hin & Eb).
    apply String.eqb_eq in Eb. now contradiction (Hfresh b Hin).
  - intros Hno.
    assert (Hrej : forall message,
               message <> "" ->
               let r := BudgetLimitsManager.reject message s in
               BudgetLimitsManager.budgetLimits r = BudgetLimitsManager.budgetLimits s
               /\ BudgetLimitsManager.newCategory r = BudgetLimitsManager.newCategory s
               /\ BudgetLimitsManager.newLimit r = BudgetLimitsManager.newLimit s
               /\ BudgetLimitsManager.error r <> "").
    { intros message Hm. cbv zeta. now repeat split. }
    destruct (BudgetLimitsManager.newLimit s) as [limit|] eqn:El;
      [|apply Hrej; discriminate].
    destruct (Analyzer.isEmpty (BudgetLimitsManager.newCategory s)) eqn:Ee;
      cbn [orb]; [apply Hrej; discriminate|].
    destruct (Qle_bool limit 0) eqn:E; [apply Hrej; discriminate|].
    destruct (existsb _ (BudgetLimitsManager.budgetLimits s)) eqn:Ex;
      [apply Hrej; discriminate|].
    exfalso. apply (Hno limit). split; [reflexivity|]. split.
    { apply Qnot_le_lt. intros H. apply Qle_bool_iff in H. congruence. }
    split; [now apply isEmpty_false|].
    now apply lowercase_distinct.
Qed.

Lemma add_budget_limit_validates_witness :
  BudgetLimitsManager.budgetLimits
    (BudgetLimitsManager.addBudgetLimit BudgetLimitsSample.newOne)
  = Sample.budgetLimits ++ [BudgetLimit.mk "Bills" 120]
  /\ BudgetLimitsManager.budgetLimits
       (BudgetLimitsManager.addBudgetLimit BudgetLimitsSample.sameCategory)
     = Sample.budgetLimits.
Proof.
  split.
  - pose proof (add_budget_limit_validates BudgetLimitsSample.newOne) as H.
    cbv zeta in H. destruct H as [H _].
    rewrite (H 120%Q); [reflexivity|].
    split; [reflexivity|]. split; [reflexivity|]. split; [discriminate|].
    intros b [<-|[<-|[]]]; discriminate.
  - pose proof (add_budget_limit_validates BudgetLimitsSample.sameCategory) as H.
    cbv zeta in H. destruct H as [_ H].
    apply H. intros limit (_ & _ & _ & Hfresh).
    apply (Hfresh (BudgetLimit.mk "Food" 100)); [now left | reflexivity].
Defined.

(** X27. Limits that are positive and one per category stay so when a
    limit is added through the form and when one is removed; removing
    takes out the entry at the index and nothing else.  A preset category
    keeps the categories distinct, but enters with limit 0, so the list is
    no longer one of positive limits until the amount is edited.  Editing
    an amount leaves the categories as they are. *)
Theorem limits_stay_valid (s : BudgetLimitsManager.state)
  (limits : list BudgetLimit.t) (index : nat) (name : string) (value : Q) :
  (SummaryMonths.validLimits (BudgetLimitsManager.budgetLimits s) ->
   SummaryMonths.validLimits
     (BudgetLimitsManager.budgetLimits (BudgetLimitsManager.addBudgetLimit s)))
  /\ BudgetLimitsManager.removeBudgetLimit index limits
     = firstn index limits ++ skipn (S index) limits
  /\ (SummaryMonths.validLimits limits ->
      SummaryMonths.validLimits (BudgetLimitsManager.removeBudgetLimit index limits))
  /\ (NoDup (map BudgetLimit.category limits) ->
      NoDup (map BudgetLimit.category
               (BudgetLimitsManager.addPresetCategory name limits)))
  /\ (~ In name (map BudgetLimit.category limits) ->
      BudgetLimitsManager.addPresetCategory name limits
      = limits ++ [BudgetLimit.mk name 0]
      /\ ~ SummaryMonths.validLimits
             (BudgetLimitsManager.addPresetCategory name limits))
  /\ map BudgetLimit.category
       (BudgetLimitsManager.updateBudgetLimit index
          (BudgetLimitsManager.monthly_limit value) limits)
     = map BudgetLimit.category limits.
Proof.
  assert (Hremove : BudgetLimitsManager.removeBudgetLimit index limits
                    = firstn index limits ++ skipn (S index) limits).
  { unfold BudgetLimitsManager.removeBudgetLimit.
    exact (filterFrom_remove index 0 limits). }
  split; [apply addBudgetLimit_valid|].
  split; [exact Hremove|]. split; [|split; [|split]].
  - intros [Hpos Hnd]. rewrite Hremove. split.
    + rewrite Forall_forall in *. intros b Hb. apply Hpos.
      apply in_app_or in Hb. destruct Hb as [Hb|Hb].
      * now apply (In_firstn index limits).
      * rewrite <- (firstn_skipn (S index) limits). apply in_or_app. now right.
    + rewrite map_app, <- firstn_map, <- skipn_map. now apply NoDup_without.
  - intros Hnd. unfold BudgetLimitsManager.addPresetCategory.
    destruct (existsb _ limits) eqn:E; trivial.
    apply NoDup_appended; trivial. now apply preset_absent.
  - intros Hout. apply preset_absent in Hout.
    unfold BudgetLimitsManager.addPresetCategory. rewrite Hout.
    split; [reflexivity|]. intros [Hpos _].
    apply Forall_app in Hpos. destruct Hpos as [_ Hpos].
    inversion Hpos as [|? ? H0 _]; subst. discriminate H0.
  - unfold BudgetLimitsManager.updateBudgetLimit. apply mapFrom_categories.
    intros b j. now destruct (Nat.eqb j index).
Qed.

Lemma limits_stay_valid_witness :
  SummaryMonths.validLimits Sample.budgetLimits
  /\ SummaryMonths.validLimits
       (BudgetLimitsManager.budgetLimits
          (BudgetLimitsManager.addBudgetLimit BudgetLimitsSample.newOne))
  /\ BudgetLimitsManager.removeBudgetLimit 0 Sample.budgetLimits
     = [BudgetLimit.mk "Travel" 500]
  /\ ~ SummaryMonths.validLimits
         (BudgetLimitsManager.addPresetCategory "Bills" Sample.budgetLimits).
Proof.
  assert (Hv : SummaryMonths.validLimits Sample.budgetLimits).
  { split.
    - repeat constructor.
    - repeat constructor; simpl; intuition discriminate. }
  assert (Hout : ~ In "Bills" (map BudgetLimit.category Sample.budgetLimits)).
  { simpl. intuition discriminate. }
  destruct (limits_stay_valid BudgetLimitsSample.newOne Sample.budgetLimits 0
              "Bills" 0%Q) as (Hadd & Hrem & _ & _ & Hpreset & _).
  split; [exact Hv|]. split; [exact (Hadd Hv)|].
  split; [rewrite Hrem; reflexivity | exact (proj2 (Hpreset Hout))].
Defined.

(** ** ExportData *)

Section ExportFacts.
Import ExportData.

Lemma includes_In (l : list string) (c : string) :
  includes l c = true <-> In c l.
Proof.
  unfold includes. rewrite existsb_exists. split.
  - intros (x & Hx & E). apply String.eqb_eq in E. now subst.
  - intros H. exists c. split; trivial. apply String.eqb_refl.
Qed.

Lemma includes_not_In (l : list string) (c : string) :
  includes l c = false <-> ~ In c l.
Proof.
  rewrite <- includes_In. destruct (includes l c); split; congruence.
Qed.

Lemma filter_all {A : Type} (p : A -> bool) (l : list A) :
  (forall x, In x l -> p x = true) -> filter p l = l.
Proof.
  induction l as [|x l IH]; simpl; intros H; trivial.
  rewrite (H x (or_introl eq_refl)), IH; trivial.
  intros y Hy. apply H. now right.
Qed.

Lemma In_toggleCategory (c x : string) (l : list string) :
  In x (toggleCategory c l) <-> (x <> c /\ In x l) \/ (x = c /\ ~ In c l).
Proof.
  unfold toggleCategory. destruct (includes l c) eqn:E.
  - apply includes_In in E. rewrite filter_In.
    destruct (String.eqb_spec x c); simpl; intuition congruence.
  - apply includes_not_In in E. rewrite in_app_iff. simpl.
    destruct (String.eqb_spec x c) as [->|Hne]; intuition congruence.
Qed.

End ExportFacts.

(** X28. What the export holds: the transactions that
    are not older than the cut-off date, when a range other than all is
    chosen, and whose category is selected, when any category is.
    Selecting every category exports the same as selecting none, and with
    the range all and no category selected everything is exported. *)
Theorem export_selection (range : ExportData.dateRange) (cutoffDate : Z)
  (includeCategories : list string) (transactions : list Transaction.t) :
  (forall t,
      In t (ExportData.getFilteredTransactions range cutoffDate includeCategories
              transactions)
      <-> In t transactions
          /\ (range = ExportData.all \/ (cutoffDate <= Transaction.created_at t)%Z)
          /\ (includeCategories = []
              \/ In (Transaction.category t) includeCategories))
  /\ ExportData.getFilteredTransactions range cutoffDate
       (ExportData.categories transactions) transactions
     = ExportData.getFilteredTransactions range cutoffDate [] transactions
  /\ ExportData.getFilteredTransactions ExportData.all cutoffDate [] transactions
     = transactions.
Proof.
  split; [|split].
  - intros t. unfold ExportData.getFilteredTransactions. cbv zeta.
    assert (Hdate : forall l,
               In t (match range with
                     | ExportData.all => l
                     | _ => filter (fun t => (cutoffDate <=? Transaction.created_at t)%Z) l
                     end)
               <-> In t l /\ (range = ExportData.all
                              \/ (cutoffDate <= Transaction.created_at t)%Z)).
    { intros l. destruct range; [tauto| |]; rewrite filter_In, Z.leb_le;
        (split; [tauto | intros [H [H'|H']]; [discriminate H' | tauto]]). }
    destruct includeCategories as [|c cs].
    + rewrite Hdate. tauto.
    + rewrite filter_In, Hdate, includes_In. split; [tauto|].
      intros (H1 & H2 & [H3|H3]); [discriminate H3 | tauto].
  - unfold ExportData.getFilteredTransactions. cbv zeta.
    set (filtered := match range with
                     | ExportData.all => transactions
                     | _ => filter _ transactions
                     end).
    assert (Hsub : forall t, In t filtered -> In t transactions).
    { intros t. subst filtered. destruct range; trivial; intros H;
        now apply filter_In in H. }
    destruct (ExportData.categories transactions) as [|c cs] eqn:E; trivial.
    rewrite <- E. apply filter_all. intros t Ht. apply includes_In.
    unfold ExportData.categories, Insights.arrayFromSet.
    apply In_setAdd_fold. right. apply in_map. now apply Hsub.
  - reflexivity.
Qed.

Lemma export_selection_witness :
  ExportData.getFilteredTransactions ExportData.month (Sample.noon 20240)
    ["Food"] Sample.transactions
  = [Transaction.mk "t1" 60 expense "Food" "lunches" (Sample.noon 20249)]
  /\ In (Transaction.mk "t1" 60 expense "Food" "lunches" (Sample.noon 20249))
        Sample.transactions.
Proof.
  assert (H : ExportData.getFilteredTransactions ExportData.month (Sample.noon 20240)
                ["Food"] Sample.transactions
              = [Transaction.mk "t1" 60 expense "Food" "lunches" (Sample.noon 20249)])
    by (vm_compute; reflexivity).
  split; [exact H|].
  assert (Hmem : In (Transaction.mk "t1" 60 expense "Food" "lunches" (Sample.noon 20249))
                    (ExportData.getFilteredTransactions ExportData.month
                       (Sample.noon 20240) ["Food"] Sample.transactions)).
  { rewrite H. left. reflexivity. }
  destruct (export_selection ExportData.month (Sample.noon 20240) ["Food"]
              Sample.transactions) as [Hin _].
  exact (proj1 (proj1 (Hin _) Hmem)).
Defined.

(** X29. Toggling a category removes it from the selection when it is
    there and adds it at the end otherwise.  A selection without
    repetition stays so; toggling twice gives back the same members, and
    the very same list when the category was not selected. *)
Theorem toggle_category (category : string) (selected : list string) :
  (forall c,
      In c (ExportData.toggleCategory category selected)
      <-> (c <> category /\ In c selected) \/ (c = category /\ ~ In category selected))
  /\ (NoDup selected -> NoDup (ExportData.toggleCategory category selected))
  /\ (~ In category selected ->
      ExportData.toggleCategory category
        (ExportData.toggleCategory category selected) = selected)
  /\ (forall c,
         In c (ExportData.toggleCategory category
                 (ExportData.toggleCategory category selected))
         <-> In c selected).
Proof.
  split; [intros c; apply In_toggleCategory|]. split; [|split].
  - intros Hnd. unfold ExportData.toggleCategory.
    destruct (ExportData.includes selected category) eqn:E.
    + now apply NoDup_filter.
    + apply includes_not_In in E. apply NoDup_app; trivial.
      * repeat constructor. intros [].
      * intros x Hx [<-|[]]. contradiction.
  - intros Hout. unfold ExportData.toggleCategory at 2.
    rewrite (proj2 (includes_not_In selected category) Hout).
    unfold ExportData.toggleCategory.
    rewrite (proj2 (includes_In (selected ++ [category]) category))
      by (apply in_or_app; right; now left).
    rewrite filter_app. cbn [filter]. rewrite String.eqb_refl. cbn [negb].
    rewrite app_nil_r. apply filter_all. intros x Hx.
    destruct (String.eqb_spec x category) as [->|_]; [contradiction | reflexivity].
  - intros c. rewrite !In_toggleCategory.
    destruct (string_dec c category) as [->|Hne];
      destruct (in_dec string_dec category selected); intuition congruence.
Qed.

Lemma toggle_category_witness :
  ~ In "Bills" ["Food"; "Travel"]
  /\ ExportData.toggleCategory "Bills" ["Food"; "Travel"] = ["Food"; "Travel"; "Bills"]
  /\ ExportData.toggleCategory "Bills"
       (ExportData.toggleCategory "Bills" ["Food"; "Travel"])
     = ["Food"; "Travel"].
Proof.
  assert (Hout : ~ In "Bills" ["Food"; "Travel"]) by (simpl; intuition discriminate).
  split; [exact Hout|]. split; [reflexivity|].
  destruct (toggle_category "Bills" ["Food"; "Travel"]) as (_ & _ & H & _).
  exact (H Hout).
Defined.

Section UpdateFacts.
Import BudgetLimitsManager.

Lemma mapFrom_same {A : Type} (f : A -> nat -> A) (i : nat) (l : list A) :
  (forall x j, (i <= j < i + List.length l)%nat -> f x j = x) ->
  mapFrom f i l = l.
Proof.
  revert i. induction l as [|x l IH]; intros i H; cbn [mapFrom]; trivial.
  rewrite H by (simpl; lia). f_equal. apply IH.
  intros y j Hj. apply H. simpl. lia.
Qed.

End UpdateFacts.

(** X30. Editing the limit at an index changes the entry at that index,
    in the field edited, and no other entry; the list keeps its length,
    and an index beyond its end changes nothing. *)
Theorem update_budget_limit (index : nat) (e : BudgetLimitsManager.edit)
  (limits : list BudgetLimit.t) :
  let updated := BudgetLimitsManager.updateBudgetLimit index e limits in
  List.length updated = List.length limits
  /\ nth_error updated index
     = option_map (fun limit => BudgetLimitsManager.withField limit e)
                  (nth_error limits index)
  /\ (forall j, j <> index -> nth_error updated j = nth_error limits j)
  /\ ((List.length limits <= index)%nat -> updated = limits).
Proof.
  cbv zeta. unfold BudgetLimitsManager.updateBudgetLimit.
  split; [apply mapFrom_length|]. split; [|split].
  - rewrite mapFrom_nth. cbn [Nat.add]. now rewrite Nat.eqb_refl.
  - intros j Hj. rewrite mapFrom_nth. cbn [Nat.add].
    destruct (Nat.eqb_spec j index) as [E|_]; [contradiction|].
    now destruct (nth_error limits j).
  - intros Hlen. apply mapFrom_same. intros x j Hj.
    destruct (Nat.eqb_spec j index) as [E|_]; [lia | reflexivity].
Qed.

Lemma update_budget_limit_witness :
  BudgetLimitsManager.updateBudgetLimit 1 (BudgetLimitsManager.monthly_limit 450)
    Sample.budgetLimits
  = [BudgetLimit.mk "Food" 100; BudgetLimit.mk "Travel" 450]
  /\ (List.length Sample.budgetLimits <= 2)%nat
  /\ BudgetLimitsManager.updateBudgetLimit 2 (BudgetLimitsManager.category "Bills")
       Sample.budgetLimits
     = Sample.budgetLimits.
Proof.
  split; [reflexivity|].
  assert (Hlen : (List.length Sample.budgetLimits <= 2)%nat) by (simpl; lia).
  split; [exact Hlen|].
  pose proof (update_budget_limit 2 (BudgetLimitsManager.category "Bills")
                Sample.budgetLimits) as H.
  cbv zeta in H. destruct H as (_ & _ & _ & H).
  exact (H Hlen).
Defined.

(** * The arithmetic of the program *)

(** ** Binary64: signs and order *)

Section FloatFacts.
Import PrimFloat SpecFloat FloatOps FloatAxioms Binary64.

Lemma round_aux_sign (s : bool) (m e : Z) (l : location) :
  signIs s (binary_round_aux prec emax s m e l).
Proof.
  unfold binary_round_aux.
  destruct (shr_fexp prec emax m e l) as [mrs' e'].
  destruct (shr_fexp prec emax _ e' loc_Exact) as [mrs'' e''].
  destruct (shr_m mrs'') as [|p|p]; [exact eq_refl | | exact I].
  destruct (Z.leb e'' (emax - prec)); exact eq_refl.
Qed.

Lemma round_sign (s : bool) (m : positive) (e : Z) :
  signIs s (binary_round prec emax s m e).
Proof.
  unfold binary_round. destruct (shl_align m e _) as [mz ez].
  apply round_aux_sign.
Qed.

Lemma normalize_sign (z e : Z) :
  (0 <= z)%Z -> signIs false (binary_normalize prec emax z e false).
Proof.
  intros Hz. destruct z as [|p|p]; simpl; trivial; [apply round_sign | lia].
Qed.

Lemma unsigned_ofZ (z : Z) : (0 <= z)%Z -> unsigned (ofZ z).
Proof.
  intros Hz. unfold ofZ, unsigned.
  destruct (Z.ltb_spec z 0) as [H|_]; [lia|].
  rewrite of_uint63_spec. apply (normalize_sign _ 0).
  apply Uint63.to_Z_bounded.
Qed.

Lemma unsigned_div (x y : float) : unsigned x -> unsigned y -> unsigned (x / y).
Proof.
  unfold unsigned. rewrite div_spec. unfold SF64div, SFdiv.
  destruct (Prim2SF x) as [sx|sx| |sx mx ex], (Prim2SF y) as [sy|sy| |sy my ey];
    simpl; trivial; try (intros -> ->; exact eq_refl).
  intros -> ->.
  destruct (SFdiv_core_binary prec emax (Zpos mx) ex (Zpos my) ey) as [[mz ez] lz].
  apply (round_aux_sign false).
Qed.

Lemma unsigned_add (x y : float) : unsigned x -> unsigned y -> unsigned (x + y).
Proof.
  unfold unsigned. rewrite add_spec. unfold SF64add, SFadd.
  destruct (Prim2SF x) as [sx|sx| |sx mx ex], (Prim2SF y) as [sy|sy| |sy my ey];
    simpl; trivial; try (intros -> ->; exact eq_refl).
  intros -> ->. cbn [cond_Zopp].
  apply normalize_sign. lia.
Qed.

Lemma unsigned_ofDecimal (q : Q) : (0 <= q)%Q -> unsigned (ofDecimal q).
Proof.
  intros Hq. unfold ofDecimal. apply unsigned_div; apply unsigned_ofZ.
  - unfold Qle in Hq. simpl in Hq. lia.
  - lia.
Qed.

Lemma unsigned_zero : unsigned 0.
Proof. exact eq_refl. Qed.

Lemma unsigned_orZero (x : float) : unsigned x -> unsigned (orZero x).
Proof.
  intros H. unfold orZero. destruct (truthy x); [exact H | exact eq_refl].
Qed.

Lemma positive_truthy (x : float) : (0 <? x)%float = true -> truthy x = true.
Proof.
  unfold truthy. rewrite ltb_spec, !eqb_spec.
  change (Prim2SF 0) with (S754_zero false).
  destruct (Prim2SF x) as [s|s| |s m e]; try destruct s; cbn; try discriminate;
    intros _; rewrite ?Z.compare_refl, ?Pos.compare_cont_refl; reflexivity.
Qed.

Lemma unsigned_truthy_positive (x : float) :
  unsigned x -> truthy x = true -> (0 <? x)%float = true.
Proof.
  unfold unsigned, truthy. rewrite ltb_spec, !eqb_spec.
  change (Prim2SF 0) with (S754_zero false).
  destruct (Prim2SF x) as [s|s| |s m e]; try (intros ->); cbn; trivial; discriminate.
Qed.

Lemma below_not_above (x : float) :
  (x <? -5)%float = true -> (5 <? x)%float = false.
Proof.
  rewrite !ltb_spec. unfold SFltb.
  change (Prim2SF (-5)) with (S754_finite true 5629499534213120 (-50)).
  change (Prim2SF 5) with (S754_finite false 5629499534213120 (-50)).
  destruct (Prim2SF x) as [s|s| |s m e]; try destruct s; cbn [SFcompare];
    trivial; discriminate.
Qed.

Lemma zero_not_positive (x : float) :
  (x =? 0)%float = true -> (0 <? x)%float = false.
Proof.
  rewrite ltb_spec, eqb_spec.
  change (Prim2SF 0) with (S754_zero false).
  destruct (Prim2SF x) as [s|s| |s m e]; try destruct s; cbn; trivial; discriminate.
Qed.

Lemma orZero_truthy_or_zero (x : float) :
  truthy (orZero x) = true \/ orZero x = 0%float.
Proof.
  unfold orZero. destruct (truthy x) eqn:E; [now left | now right].
Qed.

End FloatFacts.

Section FloatOrder.
Import PrimFloat SpecFloat FloatOps FloatAxioms Binary64.

Ltac by_order :=
  repeat match goal with
         | |- context [Z.compare ?a ?b] => destruct (Z.compare_spec a b)
         | |- context [Pos.compare_cont Eq ?a ?b] =>
             change (Pos.compare_cont Eq a b) with (Pos.compare a b);
             destruct (Pos.compare_spec a b)
         | H : context [Z.compare ?a ?b] |- _ => destruct (Z.compare_spec a b)
         | H : context [Pos.compare_cont Eq ?a ?b] |- _ =>
             change (Pos.compare_cont Eq a b) with (Pos.compare a b) in H;
             destruct (Pos.compare_spec a b)
         end;
  cbv beta iota delta [CompOpp] in *; try congruence; try lia.

Lemma SFltb_leb (x y : spec_float) : SFltb x y = true -> SFleb x y = true.
Proof.
  unfold SFltb, SFleb. destruct (SFcompare x y) as [[| |]|]; congruence.
Qed.

Lemma SFleb_total (x y : spec_float) :
  SFeqb x x = true -> SFeqb y y = true -> SFltb x y = false -> SFleb y x = true.
Proof.
  unfold SFltb, SFleb, SFeqb.
  destruct x as [sx|sx| |sx mx ex], y as [sy|sy| |sy my ey];
    try destruct sx; try destruct sy; cbn [SFcompare]; try congruence;
    intros _ _; by_order.
Qed.

Lemma SFleb_trans (x y z : spec_float) :
  SFleb x y = true -> SFleb y z = true -> SFleb x z = true.
Proof.
  unfold SFleb.
  destruct x as [sx|sx| |sx mx ex], y as [sy|sy| |sy my ey],
    z as [sz|sz| |sz mz ez];
    try destruct sx; try destruct sy; try destruct sz; cbn [SFcompare];
    try congruence; by_order.
Qed.

Lemma lt_le (x y : float) : (x <? y)%float = true -> (x <=? y)%float = true.
Proof. rewrite ltb_spec, leb_spec. apply SFltb_leb. Qed.

Lemma not_lt_le (x y : float) :
  (x =? x)%float = true -> (y =? y)%float = true ->
  (x <? y)%float = false -> (y <=? x)%float = true.
Proof. rewrite !eqb_spec, ltb_spec, leb_spec. apply SFleb_total. Qed.

Lemma le_trans (x y z : float) :
  (x <=? y)%float = true -> (y <=? z)%float = true -> (x <=? z)%float = true.
Proof. rewrite !leb_spec. apply SFleb_trans. Qed.

Lemma le_refl (x : float) : (x =? x)%float = true -> (x <=? x)%float = true.
Proof.
  rewrite eqb_spec, leb_spec. unfold SFeqb, SFleb.
  destruct (SFcompare (Prim2SF x) (Prim2SF x)) as [[| |]|]; congruence.
Qed.

Lemma positive_number (x : float) : (0 <? x)%float = true -> (x =? x)%float = true.
Proof.
  intros H. apply positive_truthy in H. unfold truthy in H.
  now apply andb_true_iff in H.
Qed.

Lemma above_100_above_80 (u : float) :
  (100 <? u)%float = true -> (80 <? u)%float = true.
Proof.
  rewrite !ltb_spec. unfold SFltb.
  change (Prim2SF 100) with (S754_finite false 7036874417766400 (-46)).
  change (Prim2SF 80) with (S754_finite false 5629499534213120 (-46)).
  destruct (Prim2SF u) as [s|s| |s m e]; try destruct s; cbn [SFcompare];
    trivial.
  destruct (Z.compare (-46) e); trivial.
  change (Pos.compare_cont Eq 7036874417766400 m)
    with (Pos.compare 7036874417766400 m).
  change (Pos.compare_cont Eq 5629499534213120 m)
    with (Pos.compare 5629499534213120 m).
  destruct (Pos.compare 7036874417766400 m) eqn:E; try discriminate.
  intros _. apply Pos.compare_lt_iff in E.
  assert (H : (5629499534213120 < m)%positive).
  { apply (Pos.lt_trans _ 7036874417766400); [|exact E].
    apply Pos.compare_lt_iff. vm_compute. reflexivity. }
  apply Pos.compare_lt_iff in H. now rewrite H.
Qed.

End FloatOrder.

(** ** Records with a prototype *)

Section MachineRecords.
Import PrimFloat Binary64 Machine MachineSpec.

Lemma ordinary_not_proto (k : string) :
  ordinary k -> String.eqb k "__proto__" = false.
Proof.
  unfold ordinary, inherited. intros H.
  destruct (String.eqb_spec k "__proto__") as [->|_]; [exact H | reflexivity].
Qed.

Lemma own_put_same (acc : Record.t) (k : string) (v : value) :
  Record.own (Record.put acc k v) k = Some v.
Proof.
  induction acc as [|[k' v'] acc IH]; simpl.
  - now rewrite String.eqb_refl.
  - destruct (String.eqb_spec k' k) as [->|Hne]; simpl.
    + now rewrite String.eqb_refl.
    + destruct (String.eqb_spec k' k); [contradiction | exact IH].
Qed.

Lemma own_put_other (acc : Record.t) (k k' : string) (v : value) :
  k' <> k -> Record.own (Record.put acc k v) k' = Record.own acc k'.
Proof.
  intros Hne. induction acc as [|[k0 v0] acc IH]; simpl.
  - destruct (String.eqb_spec k k'); [congruence | reflexivity].
  - destruct (String.eqb_spec k0 k) as [->|H0]; simpl.
    + destruct (String.eqb_spec k k'); [congruence | reflexivity].
    + now rewrite IH.
Qed.

Lemma own_set_other (acc : Record.t) (k k' : string) (v : value) :
  k' <> k -> Record.own (Record.set acc k v) k' = Record.own acc k'.
Proof.
  intros Hne. unfold Record.set.
  destruct (String.eqb k "__proto__"); [reflexivity | now apply own_put_other].
Qed.

Lemma keys_put (acc : Record.t) (k k' : string) (v : value) :
  In k' (Record.keys (Record.put acc k v)) <-> k' = k \/ In k' (Record.keys acc).
Proof.
  unfold Record.keys. induction acc as [|[k0 v0] acc IH]; simpl.
  - intuition.
  - destruct (String.eqb_spec k0 k) as [->|H0]; simpl.
    + intuition.
    + rewrite IH. intuition.
Qed.

Lemma own_keys (acc : Record.t) (k : string) :
  In k (Record.keys acc) <-> Record.own acc k <> None.
Proof.
  unfold Record.keys. induction acc as [|[k0 v0] acc IH]; simpl.
  - intuition.
  - destruct (String.eqb_spec k0 k) as [->|H0].
    + split; [discriminate | auto].
    + rewrite <- IH. intuition.
Qed.

(** Reading with [|| 0]. *)
Lemma getOrZero_ordinary (acc : Record.t) (k : string) :
  ordinary k -> sound acc ->
  Record.getOrZero acc k = number (Binary64.orZero (held acc k)).
Proof.
  intros Hk Hs. unfold Record.getOrZero, Record.get, held.
  specialize (Hs k). unfold ordinary in Hk.
  destruct (Record.own acc k) as [[x|]|].
  - unfold orZero, truthy, Binary64.orZero. now destruct (Binary64.truthy x).
  - congruence.
  - now rewrite Hk.
Qed.

Lemma getOrZero_inherited (acc : Record.t) (k : string) :
  inherited k = true -> sound acc -> Record.getOrZero acc k = other.
Proof.
  intros Hk Hs. unfold Record.getOrZero, Record.get.
  specialize (Hs k).
  destruct (Record.own acc k) as [[x|]|].
  - congruence.
  - reflexivity.
  - now rewrite Hk.
Qed.

Lemma sound_nil : sound [].
Proof. intros k. exact I. Qed.

Lemma sound_add (acc : Record.t) (t : Transaction.t) :
  sound acc -> sound (addToCategory acc t).
Proof.
  intros Hs k. unfold addToCategory, Record.set.
  destruct (String.eqb (Transaction.category t) "__proto__") eqn:Ep; [apply Hs|].
  destruct (String.eqb_spec k (Transaction.category t)) as [->|Hne].
  - rewrite own_put_same.
    destruct (inherited (Transaction.category t)) eqn:Ei.
    + now rewrite (getOrZero_inherited _ _ Ei Hs).
    + now rewrite (getOrZero_ordinary _ _ Ei Hs).
  - rewrite own_put_other by exact Hne. apply Hs.
Qed.

Lemma sound_fold (l : list Transaction.t) (acc : Record.t) :
  sound acc -> sound (fold_left addToCategory l acc).
Proof.
  revert acc. induction l as [|t l IH]; intros acc Hs; simpl; trivial.
  apply IH. now apply sound_add.
Qed.

Lemma sound_sumByCategory (l : list Transaction.t) : sound (sumByCategory l).
Proof. apply sound_fold, sound_nil. Qed.

Lemma held_add_same (acc : Record.t) (t : Transaction.t) :
  ordinary (Transaction.category t) -> sound acc ->
  held (addToCategory acc t) (Transaction.category t)
  = (Binary64.orZero (held acc (Transaction.category t))
     + ofDecimal (Transaction.amount t))%float.
Proof.
  intros Hk Hs. unfold addToCategory, Record.set.
  rewrite (ordinary_not_proto _ Hk), (getOrZero_ordinary _ _ Hk Hs).
  unfold held at 1. now rewrite own_put_same.
Qed.

Lemma held_add_other (acc : Record.t) (t : Transaction.t) (k : string) :
  Transaction.category t <> k ->
  held (addToCategory acc t) k = held acc k.
Proof.
  intros Hne. unfold held, addToCategory.
  rewrite own_set_other; [reflexivity | congruence].
Qed.

Lemma held_fold (l : list Transaction.t) (acc : Record.t) (k : string) :
  ordinary k -> sound acc ->
  held (fold_left addToCategory l acc) k
  = fold_left
      (fun sum t => (Binary64.orZero sum + ofDecimal (Transaction.amount t))%float)
      (ofCategory k l) (held acc k).
Proof.
  intros Hk. revert acc. induction l as [|t l IH]; intros acc Hs; simpl; trivial.
  rewrite (IH _ (sound_add acc t Hs)).
  destruct (String.eqb_spec (Transaction.category t) k) as [E|E]; simpl.
  - subst k. now rewrite held_add_same.
  - now rewrite held_add_other.
Qed.

(** What a spending record gives for an ordinary category. *)
Lemma getOrZero_sumByCategory64 (l : list Transaction.t) (k : string) :
  ordinary k ->
  Record.getOrZero (sumByCategory l) k = number (spent (ofCategory k l)).
Proof.
  intros Hk.
  rewrite (getOrZero_ordinary _ _ Hk (sound_sumByCategory l)).
  unfold sumByCategory. now rewrite (held_fold l [] k Hk sound_nil).
Qed.

(** What an ordinary category with an expense holds as its own
    property. *)
Lemma own_sumByCategory64 (l : list Transaction.t) (k : string) (v : value) :
  ordinary k ->
  Record.own (sumByCategory l) k = Some v ->
  v = number (stored (ofCategory k l)).
Proof.
  intros Hk Hv.
  pose proof (held_fold l [] k Hk sound_nil) as Hh.
  pose proof (sound_sumByCategory l k) as Hs.
  unfold held in Hh at 1. fold (sumByCategory l) in Hh.
  rewrite Hv in Hh, Hs. unfold ordinary in Hk.
  destruct v as [x|]; [|congruence].
  rewrite Hh. reflexivity.
Qed.

(** A category named like a member of [Object.prototype] never gives a
    number. *)
Lemma getOrZero_sumByCategory_inherited (l : list Transaction.t) (k : string) :
  inherited k = true -> Record.getOrZero (sumByCategory l) k = other.
Proof.
  intros Hk. apply getOrZero_inherited; [exact Hk | apply sound_sumByCategory].
Qed.

Lemma keys_fold64 (l : list Transaction.t) (acc : Record.t) (k : string) :
  In k (Record.keys (fold_left addToCategory l acc))
  <-> In k (Record.keys acc)
      \/ (k <> "__proto__" /\ exists t, In t l /\ Transaction.category t = k).
Proof.
  revert acc. induction l as [|t l IH]; intros acc; simpl.
  - split; [auto | intros [H|(_ & t & [] & _)]; exact H].
  - rewrite IH. unfold addToCategory at 1, Record.set.
    destruct (String.eqb_spec (Transaction.category t) "__proto__") as [Ep|Ep].
    + split.
      * intros [H|(Hk & x & Hx & Hc)]; [now left|].
        right. split; trivial. exists x. auto.
      * intros [H|(Hk & x & [<-|Hx] & Hc)]; [now left | congruence |].
        right. split; trivial. now exists x.
    + rewrite keys_put. split.
      * intros [[->|H]|(Hk & x & Hx & Hc)].
        -- right. split; trivial. exists t. auto.
        -- now left.
        -- right. split; trivial. exists x. auto.
      * intros [H|(Hk & x & [<-|Hx] & Hc)].
        -- left. now right.
        -- left. now left.
        -- right. split; trivial. now exists x.
Qed.

Lemma keys_sumByCategory64 (l : list Transaction.t) (k : string) :
  In k (Record.keys (sumByCategory l))
  <-> k <> "__proto__" /\ exists t, In t l /\ Transaction.category t = k.
Proof.
  unfold sumByCategory. rewrite keys_fold64. simpl. tauto.
Qed.

End MachineRecords.

(** ** Trends on the machine *)

Section MachineTrends.
Import PrimFloat Binary64 Machine MachineSpec.

Variables lastWeek sameWeekLastMonth : Record.t.

Lemma trendOf_fields64 (c : string) :
  Trend.category (trendOf lastWeek sameWeekLastMonth c) = c
  /\ Trend.amount (trendOf lastWeek sameWeekLastMonth c)
     = Record.getOrZero lastWeek c
  /\ Trend.lastMonthAmount (trendOf lastWeek sameWeekLastMonth c)
     = Record.getOrZero sameWeekLastMonth c.
Proof.
  unfold trendOf.
  destruct (gtb (toNumber (Record.getOrZero sameWeekLastMonth c)) 0).
  - destruct (gtb _ 5); [|destruct (ltb _ (-5))]; repeat split.
  - destruct (gtb (toNumber (Record.getOrZero lastWeek c)) 0); repeat split.
Qed.

Lemma In_insertByAmount64 (x e : Trend.t) (l : list Trend.t) :
  In e (insertByAmount x l) <-> e = x \/ In e l.
Proof.
  induction l as [|y l IH]; simpl.
  - intuition.
  - destruct (ltb _ _); simpl; [rewrite IH|]; intuition.
Qed.

Lemma In_sortByAmountDesc64 (e : Trend.t) (l : list Trend.t) :
  In e (sortByAmountDesc l) <-> In e l.
Proof.
  induction l as [|x l IH]; simpl; [tauto|].
  rewrite In_insertByAmount64, IH. intuition.
Qed.

Lemma In_trendsOfWindows64 (e : Trend.t) :
  In e (trendsOfWindows lastWeek sameWeekLastMonth) ->
  e = trendOf lastWeek sameWeekLastMonth (Trend.category e)
  /\ gtb (toNumber (Record.getOrZero lastWeek (Trend.category e))) 0 = true.
Proof.
  unfold trendsOfWindows. intros H.
  apply In_firstn, In_sortByAmountDesc64, filter_In in H.
  destruct H as [H Hpos].
  apply in_map_iff in H. destruct H as (c & <- & _).
  destruct (trendOf_fields64 c) as (Hc & Ha & _).
  rewrite Hc. split; [reflexivity|]. now rewrite <- Ha.
Qed.

End MachineTrends.

Section MachineWindows.
Import PrimFloat Binary64 JsDate Machine MachineSpec.

Variable now : Z.
Variable transactions : list Transaction.t.

Lemma lastWeek_spentIn64 (c : string) :
  ordinary c ->
  Record.getOrZero (lastWeekCategorySpending now transactions) c
  = number (spentIn (startOfWeek now - 7 * msPerDay) (startOfWeek now) c transactions).
Proof.
  intros Hc. unfold lastWeekCategorySpending.
  rewrite (getOrZero_sumByCategory64 _ c Hc).
  unfold ofCategory, Insights.lastWeekTransactions, spentIn, Spec.expensesIn.
  rewrite filter_twice. do 2 f_equal. apply filter_ext.
  intros t. rewrite lastWeek_filter.
  destruct (Insights.isExpense t), (String.eqb (Transaction.category t) c); simpl;
    rewrite ?andb_true_r, ?andb_false_r; reflexivity.
Qed.

Lemma sameWeekLastMonth_spentIn64 (c : string) :
  ordinary c ->
  Record.getOrZero (sameWeekLastMonthCategorySpending now transactions) c
  = number (spentIn (startOfWeek now - 5 * (7 * msPerDay))
                    (startOfWeek now - 4 * (7 * msPerDay)) c transactions).
Proof.
  intros Hc. unfold sameWeekLastMonthCategorySpending.
  rewrite (getOrZero_sumByCategory64 _ c Hc).
  unfold ofCategory, Insights.sameWeekLastMonthTransactions, spentIn, Spec.expensesIn.
  rewrite filter_twice. do 2 f_equal. apply filter_ext.
  intros t. rewrite sameWeekLastMonth_filter.
  destruct (Insights.isExpense t), (String.eqb (Transaction.category t) c); simpl;
    rewrite ?andb_true_r, ?andb_false_r; reflexivity.
Qed.

(** Only an ordinary category has a number above zero in a record. *)
Lemma positive_is_ordinary (l : list Transaction.t) (c : string) :
  gtb (toNumber (Record.getOrZero (sumByCategory l) c)) 0 = true -> ordinary c.
Proof.
  intros H. unfold ordinary. destruct (inherited c) eqn:E; trivial.
  rewrite (getOrZero_sumByCategory_inherited l c E) in H. discriminate H.
Qed.

Lemma spent_truthy_or_zero (l : list Transaction.t) :
  Binary64.truthy (spent l) = true \/ spent l = 0%float.
Proof. apply orZero_truthy_or_zero. Qed.

Lemma fold_unsigned (f : float -> Transaction.t -> float) (l : list Transaction.t) :
  (forall sum t, In t l -> unsigned sum -> unsigned (f sum t)) ->
  forall init, unsigned init -> unsigned (fold_left f l init).
Proof.
  induction l as [|t l IH]; intros Hf init Hi; simpl; trivial.
  apply IH.
  - intros sum x Hx. apply Hf. now right.
  - apply Hf; [now left | exact Hi].
Qed.

Lemma spent_unsigned (l : list Transaction.t) :
  Spec.amountsNonNegative l -> unsigned (spent l).
Proof.
  intros Hnn. unfold spent, stored.
  apply unsigned_orZero, fold_unsigned; [|apply unsigned_zero].
  intros sum t Ht Hs. apply unsigned_add; [now apply unsigned_orZero|].
  apply unsigned_ofDecimal.
  unfold Spec.amountsNonNegative in Hnn. rewrite Forall_forall in Hnn. now apply Hnn.
Qed.

Lemma total_unsigned (l : list Transaction.t) :
  Spec.amountsNonNegative l -> unsigned (total l).
Proof.
  intros Hnn. unfold total. apply fold_unsigned; [|apply unsigned_zero].
  intros sum t Ht Hs. apply unsigned_add; trivial.
  apply unsigned_ofDecimal.
  unfold Spec.amountsNonNegative in Hnn. rewrite Forall_forall in Hnn. now apply Hnn.
Qed.

(** With amounts that are not negative, a total that is not zero is above
    zero. *)
Lemma spent_nonzero_positive (l : list Transaction.t) :
  Spec.amountsNonNegative l ->
  (spent l =? 0)%float = false -> (0 <? spent l)%float = true.
Proof.
  intros Hnn Hne. apply unsigned_truthy_positive; [now apply spent_unsigned|].
  destruct (spent_truthy_or_zero l) as [H|H]; trivial.
  rewrite H in Hne. discriminate Hne.
Qed.

End MachineWindows.

Section ClassificationFacts.
Import PrimFloat Binary64 Machine MachineSpec.

Lemma trendOf_class64 (lw lm : Record.t) (c : string) (lastWeek prior : float) :
  Record.getOrZero lw c = number lastWeek ->
  Record.getOrZero lm c = number prior ->
  let change := (((lastWeek - prior) / prior) * 100)%float in
  ((0 <? prior)%float = true ->
   ((5 <? change)%float = true -> Trend.trend (trendOf lw lm c) = increasing)
   /\ ((change <? -5)%float = true -> Trend.trend (trendOf lw lm c) = decreasing)
   /\ ((5 <? change)%float = false -> (change <? -5)%float = false ->
       Trend.trend (trendOf lw lm c) = stable))
  /\ ((prior =? 0)%float = true -> (0 <? lastWeek)%float = true ->
      Trend.percentage (trendOf lw lm c) = 100%float
      /\ Trend.trend (trendOf lw lm c) = increasing
      /\ Trend.isNew (trendOf lw lm c) = true).
Proof.
  intros Hlw Hlm. cbv zeta. unfold trendOf. rewrite Hlw, Hlm.
  cbn [toNumber isZero]. unfold gtb, ltb. split.
  - intros Hp. rewrite Hp.
    destruct (5 <? _)%float eqn:E5.
    + split; [reflexivity|]. split; [|discriminate].
      intros H. apply below_not_above in H. congruence.
    + split; [discriminate|].
      destruct (_ <? -5)%float eqn:Em.
      * split; [reflexivity | discriminate].
      * split; [discriminate | reflexivity].
  - intros Hz Hpos. rewrite (zero_not_positive _ Hz), Hpos, Hz. repeat split.
Qed.

End ClassificationFacts.

Section TrendClassification.
Import PrimFloat.

(** C4. The trend of a category is decided on the numbers of the
    program.  With [lastWeek] and [prior] the totals of an ordinary
    category over the two windows, as the program adds them up in
    binary64, and [change] the value it computes for
    [(lastWeek - prior) / prior * 100]: when [prior] is positive the trend
    is increasing when [change] exceeds 5, decreasing when it is below -5
    and stable otherwise; when [prior] is zero and [lastWeek] is not
    (amounts being non-negative), the entry shows 100 per cent, increasing
    and new.  Every emitted trend is such an entry, of an ordinary
    category. *)
Theorem trend_classification (now : Z) (transactions : list Transaction.t)
  (category : string) :
  let week := (7 * JsDate.msPerDay)%Z in
  let thisWeek := JsDate.startOfWeek now in
  let lastWeek :=
    MachineSpec.spentIn (thisWeek - week) thisWeek category transactions in
  let prior :=
    MachineSpec.spentIn (thisWeek - 5 * week) (thisWeek - 4 * week) category
      transactions in
  let change := (((lastWeek - prior) / prior) * 100)%float in
  let entry :=
    Machine.trendOf (Machine.lastWeekCategorySpending now transactions)
                    (Machine.sameWeekLastMonthCategorySpending now transactions) in
  (MachineSpec.ordinary category ->
   (Machine.Trend.amount (entry category) = Machine.number lastWeek
    /\ Machine.Trend.lastMonthAmount (entry category) = Machine.number prior)
   /\ ((0 <? prior)%float = true ->
       ((5 <? change)%float = true ->
        Machine.Trend.trend (entry category) = increasing)
       /\ ((change <? -5)%float = true ->
           Machine.Trend.trend (entry category) = decreasing)
       /\ ((5 <? change)%float = false -> (change <? -5)%float = false ->
           Machine.Trend.trend (entry category) = stable))
   /\ ((prior =? 0)%float = true ->
       (0 <? lastWeek)%float = true
       \/ (Spec.amountsNonNegative transactions /\ (lastWeek =? 0)%float = false) ->
       Machine.Trend.percentage (entry category) = 100%float
       /\ Machine.Trend.trend (entry category) = increasing
       /\ Machine.Trend.isNew (entry category) = true))
  /\ (forall e,
         In e (Machine.spendingTrends now transactions) ->
         MachineSpec.ordinary (Machine.Trend.category e)
         /\ e = entry (Machine.Trend.category e)).
Proof.
  cbv zeta. split.
  - intros Hc.
    pose proof (lastWeek_spentIn64 now transactions category Hc) as Hlw.
    pose proof (sameWeekLastMonth_spentIn64 now transactions category Hc) as Hlm.
    destruct (trendOf_fields64 (Machine.lastWeekCategorySpending now transactions)
                (Machine.sameWeekLastMonthCategorySpending now transactions) category)
      as (_ & Ha & Hm).
    split; [split; congruence|].
    destruct (trendOf_class64 _ _ _ _ _ Hlw Hlm) as [Hclass Hnew].
    split; [exact Hclass|].
    intros Hz Hpos. apply Hnew; trivial.
    destruct Hpos as [H|[Hnn Hne]]; trivial.
    apply spent_nonzero_positive; trivial.
    unfold Spec.expensesIn, Spec.amountsNonNegative. now apply nonneg_filter.
  - intros e He. apply In_trendsOfWindows64 in He. destruct He as [He Hpos].
    split; [|exact He].
    exact (positive_is_ordinary _ _ Hpos).
Qed.

Lemma trend_classification_witness :
  MachineSpec.ordinary "Food"
  /\ Machine.Trend.trend
       (Machine.trendOf (Machine.lastWeekCategorySpending Sample.now Sample.transactions)
          (Machine.sameWeekLastMonthCategorySpending Sample.now Sample.transactions)
          "Food")
     = increasing.
Proof.
  assert (Hc : MachineSpec.ordinary "Food") by reflexivity.
  split; [exact Hc|].
  destruct (trend_classification Sample.now Sample.transactions "Food") as [H _].
  destruct (H Hc) as (_ & Hclass & _).
  apply Hclass; vm_compute; reflexivity.
Defined.

(** Against the reading in exact arithmetic: 1.05 after 1.00 is a change
    of exactly five per cent, and the program reports it as increasing. *)
Lemma trend_classification_counterexample :
  (0 < Spec.spentIn (JsDate.startOfWeek Sample.now - 5 * (7 * JsDate.msPerDay))
                    (JsDate.startOfWeek Sample.now - 4 * (7 * JsDate.msPerDay))
                    "Food" MachineSample.fivePercent)%Q
  /\ (((Spec.spentIn (JsDate.startOfWeek Sample.now - 7 * JsDate.msPerDay)
                     (JsDate.startOfWeek Sample.now) "Food" MachineSample.fivePercent
        - Spec.spentIn (JsDate.startOfWeek Sample.now - 5 * (7 * JsDate.msPerDay))
                       (JsDate.startOfWeek Sample.now - 4 * (7 * JsDate.msPerDay))
                       "Food" MachineSample.fivePercent)
       / Spec.spentIn (JsDate.startOfWeek Sample.now - 5 * (7 * JsDate.msPerDay))
                      (JsDate.startOfWeek Sample.now - 4 * (7 * JsDate.msPerDay))
                      "Food" MachineSample.fivePercent) * 100 == 5)%Q
  /\ exists e,
       In e (Machine.spendingTrends Sample.now MachineSample.fivePercent)
       /\ Machine.Trend.category e = "Food"
       /\ Machine.Trend.trend e = increasing
       /\ Machine.Trend.trend e <> stable.
Proof.
  split; [reflexivity|]. split; [reflexivity|].
  eexists. split; [vm_compute; left; reflexivity|].
  split; [reflexivity|]. split; [reflexivity | discriminate].
Qed.

End TrendClassification.

(** ** The weekend pattern on the machine *)

Section WeekendPattern.
Import PrimFloat.

Lemma machine_patterns_weekend (now : Z) (transactions : list Transaction.t)
  (budgetLimits : list BudgetLimit.t) (q : float) :
  In (Machine.weekend_spending q)
     (Machine.BasicInsights.patterns
        (Machine.generateBasicInsights now transactions budgetLimits))
  <-> In (Machine.weekend_spending q) (Machine.weekendPattern transactions).
Proof.
  destruct transactions as [|t ts]; [reflexivity|].
  cbn [Machine.generateBasicInsights Machine.BasicInsights.patterns].
  rewrite in_app_iff. split; [|now left].
  intros [H|H]; trivial.
  unfold Machine.historicalPattern in H.
  destruct (Machine.spendingTrends now (t :: ts)); [contradiction|].
  destruct (Binary64.gtb _ 0); [|contradiction].
  destruct H as [H|[]]. discriminate H.
Qed.

Lemma machine_weekendPattern_iff (transactions : list Transaction.t) (q : float) :
  In (Machine.weekend_spending q) (Machine.weekendPattern transactions)
  <-> q = Machine.weekendPercentage transactions
      /\ (0 <? Machine.weekendSpending transactions)%float = true
      /\ (0 <? Machine.weekdaySpending transactions)%float = true
      /\ (35 <? Machine.weekendPercentage transactions)%float = true.
Proof.
  unfold Machine.weekendPattern, Binary64.gtb.
  destruct (0 <? Machine.weekendSpending transactions)%float;
    destruct (0 <? Machine.weekdaySpending transactions)%float; cbn [andb];
    try (split; [intros [] | intros (_ & H1 & H2 & _); discriminate]).
  destruct (35 <? Machine.weekendPercentage transactions)%float.
  - split.
    + intros [[= <-]|[]]. now repeat split.
    + intros (-> & _). now left.
  - split; [intros [] | intros (_ & _ & _ & H); discriminate].
Qed.

Lemma total_nonzero_positive (l : list Transaction.t) :
  Spec.amountsNonNegative l ->
  ((0 <? Machine.total l)%float = true <-> Binary64.truthy (Machine.total l) = true).
Proof.
  intros Hnn. split; [apply positive_truthy|].
  apply unsigned_truthy_positive. now apply total_unsigned.
Qed.

(** C9. The weekend pattern is emitted exactly when the weekend total
    and the weekday total, as the program adds them up in binary64, are
    both positive and the share it computes from them, the weekend total
    over the sum of the two, times 100, exceeds 35; with non-negative
    amounts, positive is the same as being a number other than zero.  The
    emitted entry carries that share. *)
Theorem weekend_pattern_iff (now : Z) (transactions : list Transaction.t)
  (budgetLimits : list BudgetLimit.t) :
  let weekend := Machine.weekendSpending transactions in
  let weekday := Machine.weekdaySpending transactions in
  let share := ((weekend / (weekend + weekday)) * 100)%float in
  let patterns :=
    Machine.BasicInsights.patterns
      (Machine.generateBasicInsights now transactions budgetLimits) in
  (MachineSpec.weekendPatternEmitted patterns
   <-> (0 <? weekend)%float = true /\ (0 <? weekday)%float = true
       /\ (35 <? share)%float = true)
  /\ (Spec.amountsNonNegative transactions ->
      (MachineSpec.weekendPatternEmitted patterns
       <-> Binary64.truthy weekend = true /\ Binary64.truthy weekday = true
           /\ (35 <? share)%float = true))
  /\ (forall q, In (Machine.weekend_spending q) patterns -> q = share).
Proof.
  cbv zeta.
  assert (Hiff : MachineSpec.weekendPatternEmitted
                   (Machine.BasicInsights.patterns
                      (Machine.generateBasicInsights now transactions budgetLimits))
                 <-> (0 <? Machine.weekendSpending transactions)%float = true
                     /\ (0 <? Machine.weekdaySpending transactions)%float = true
                     /\ (35 <? (Machine.weekendSpending transactions
                                / (Machine.weekendSpending transactions
                                   + Machine.weekdaySpending transactions)) * 100)%float
                        = true).
  { unfold MachineSpec.weekendPatternEmitted. split.
    - intros (q & Hq).
      apply machine_patterns_weekend, machine_weekendPattern_iff in Hq. tauto.
    - intros H. exists (Machine.weekendPercentage transactions).
      apply machine_patterns_weekend, machine_weekendPattern_iff.
      split; [reflexivity | exact H]. }
  split; [exact Hiff|]. split.
  - intros Hnn. rewrite Hiff.
    unfold Machine.weekendSpending, Machine.weekdaySpending.
    rewrite !total_nonzero_positive by now apply nonneg_filter.
    reflexivity.
  - intros q Hq. apply machine_patterns_weekend, machine_weekendPattern_iff in Hq.
    now destruct Hq as (-> & _).
Qed.

Lemma weekend_pattern_iff_witness :
  Spec.amountsNonNegative Sample.transactions
  /\ MachineSpec.weekendPatternEmitted
       (Machine.BasicInsights.patterns
          (Machine.generateBasicInsights Sample.now Sample.transactions
             Sample.budgetLimits)).
Proof.
  assert (Hnn : Spec.amountsNonNegative Sample.transactions)
    by (repeat constructor; discriminate).
  split; [exact Hnn|].
  destruct (weekend_pattern_iff Sample.now Sample.transactions Sample.budgetLimits)
    as (_ & H & _).
  apply (H Hnn). repeat split; vm_compute; reflexivity.
Defined.

(** Against the reading in exact arithmetic: a weekend share of exactly
    35 per cent, and the program emits the pattern. *)
Lemma weekend_pattern_iff_counterexample :
  (~ Insights.weekendSpending MachineSample.weekendShare == 0)%Q
  /\ (~ Insights.weekdaySpending MachineSample.weekendShare == 0)%Q
  /\ ((Insights.weekendSpending MachineSample.weekendShare
       / Spec.totalExpenses MachineSample.weekendShare) * 100 == 35)%Q
  /\ MachineSpec.weekendPatternEmitted
       (Machine.BasicInsights.patterns
          (Machine.generateBasicInsights Sample.now MachineSample.weekendShare [])).
Proof.
  split; [discriminate|]. split; [discriminate|]. split; [reflexivity|].
  eexists. vm_compute. left. reflexivity.
Qed.

End WeekendPattern.

(** ** Budget alerts on the machine *)

Section MachineAlerts.
Import PrimFloat SpecFloat FloatOps FloatAxioms Binary64 Machine MachineSpec.

Lemma nothing_below_nan (x : float) : (x <? nan)%float = false.
Proof.
  rewrite ltb_spec. change (Prim2SF nan) with S754_nan.
  unfold SFltb. now destruct (Prim2SF x).
Qed.

Lemma keys_put_NoDup (acc : Record.t) (k : string) (v : value) :
  NoDup (Record.keys acc) -> NoDup (Record.keys (Record.put acc k v)).
Proof.
  unfold Record.keys. induction acc as [|[k0 v0] acc IH]; simpl; intros H.
  - repeat constructor. intros [].
  - inversion H as [|? ? Hout Hnd]; subst.
    destruct (String.eqb_spec k0 k) as [->|Hne]; simpl.
    + now constructor.
    + constructor; [|now apply IH].
      intros Hin. apply (keys_put acc k k0 v) in Hin.
      destruct Hin as [E|Hin]; [congruence | contradiction].
Qed.

Lemma keys_sumByCategory_NoDup (l : list Transaction.t) :
  NoDup (Record.keys (sumByCategory l)).
Proof.
  unfold sumByCategory.
  assert (H : forall acc, NoDup (Record.keys acc) ->
                          NoDup (Record.keys (fold_left addToCategory l acc))).
  { induction l as [|t l IH]; intros acc Hacc; simpl; trivial.
    apply IH. unfold addToCategory, Record.set.
    destruct (String.eqb _ "__proto__"); [exact Hacc | now apply keys_put_NoDup]. }
  apply H. constructor.
Qed.

Lemma own_In (acc : Record.t) (k : string) (v : value) :
  Record.own acc k = Some v -> In (k, v) acc.
Proof.
  induction acc as [|[k0 v0] acc IH]; simpl; [discriminate|].
  destruct (String.eqb_spec k0 k) as [->|Hne].
  - intros [= ->]. now left.
  - intros H. right. now apply IH.
Qed.

Lemma In_own (acc : Record.t) (k : string) (v : value) :
  NoDup (Record.keys acc) -> In (k, v) acc -> Record.own acc k = Some v.
Proof.
  unfold Record.keys. induction acc as [|[k0 v0] acc IH]; simpl; [tauto|].
  intros Hnd [[= -> ->]|Hin].
  - now rewrite String.eqb_refl.
  - inversion Hnd as [|? ? Hout Hnd']; subst.
    destruct (String.eqb_spec k0 k) as [->|Hne].
    + exfalso. apply Hout. apply in_map_iff. now exists (k, v).
    + now apply IH.
Qed.

Lemma expenses_ofCategory (c : string) (transactions : list Transaction.t) :
  ofCategory c (filter Insights.isExpense transactions)
  = filter (fun t => Insights.isExpense t
                     && String.eqb (Transaction.category t) c) transactions.
Proof. unfold ofCategory. apply filter_twice. Qed.

(** The entries of the spending record: the ordinary ones hold the sum
    of their category, the others no number. *)
Lemma categorySpending_entry64 (transactions : list Transaction.t)
  (c : string) (v : value) :
  In (c, v) (Record.entries (categorySpending transactions)) ->
  (exists t, In t transactions /\ Insights.isExpense t = true
             /\ Transaction.category t = c)
  /\ (ordinary c -> v = number (storedOn c transactions))
  /\ (inherited c = true -> v = other).
Proof.
  unfold Record.entries, categorySpending. intros Hin.
  pose proof (In_own _ _ _ (keys_sumByCategory_NoDup _) Hin) as Hown.
  split; [|split].
  - assert (Hk : In c (Record.keys
                         (sumByCategory (filter Insights.isExpense transactions)))).
    { apply own_keys. congruence. }
    apply keys_sumByCategory64 in Hk. destruct Hk as (_ & t & Ht & Hc).
    apply filter_In in Ht. exists t. tauto.
  - intros Hc. unfold storedOn. rewrite <- expenses_ofCategory.
    now apply own_sumByCategory64.
  - intros Hc.
    pose proof (sound_sumByCategory (filter Insights.isExpense transactions) c) as Hs.
    rewrite Hown in Hs. destruct v; [congruence | reflexivity].
Qed.

Lemma categorySpending_has (transactions : list Transaction.t) (c : string) :
  ordinary c ->
  (exists t, In t transactions /\ Insights.isExpense t = true
             /\ Transaction.category t = c) ->
  In (c, number (storedOn c transactions))
     (Record.entries (categorySpending transactions)).
Proof.
  intros Hc (t & Ht & He & Hcat).
  assert (Hk : In c (Record.keys (categorySpending transactions))).
  { apply keys_sumByCategory64. split.
    - intros ->. discriminate Hc.
    - exists t. split; trivial. apply filter_In. now split. }
  apply own_keys in Hk.
  destruct (Record.own (categorySpending transactions) c) as [v|] eqn:E;
    [|contradiction].
  pose proof (own_In _ _ _ E) as Hin.
  destruct (categorySpending_entry64 _ _ _ Hin) as (_ & Hv & _).
  now rewrite <- (Hv Hc).
Qed.

Lemma alertFor_category64 (budgetLimits : list BudgetLimit.t) (c : string)
  (v : value) (a : Alert.t) :
  In a (alertFor budgetLimits (c, v)) -> Alert.category a = c.
Proof.
  unfold alertFor.
  destruct (find _ budgetLimits) as [limit|]; [|contradiction].
  destruct (gtb _ _); [|contradiction].
  intros [<-|[]]. reflexivity.
Qed.

Lemma alertFor_short64 (budgetLimits : list BudgetLimit.t) (entry : string * value) :
  alertFor budgetLimits entry = []
  \/ exists a, alertFor budgetLimits entry = [a].
Proof.
  unfold alertFor. destruct entry as [c v].
  destruct (find _ budgetLimits) as [limit|]; [|now left].
  destruct (gtb _ _); [right; eauto | now left].
Qed.

Lemma alerts_NoDup64 (budgetLimits : list BudgetLimit.t) (record : Record.t) :
  NoDup (Record.keys record) ->
  NoDup (map Alert.category (flat_map (alertFor budgetLimits) record)).
Proof.
  unfold Record.keys.
  induction record as [|[c v] record IH]; intros Hnd; [constructor|].
  cbn [map fst] in Hnd.
  inversion Hnd as [|? ? Hnotin Hnd']; subst.
  cbn [flat_map]. rewrite map_app.
  destruct (alertFor_short64 budgetLimits (c, v)) as [E|(a & E)].
  - rewrite E. simpl. now apply IH.
  - pose proof (alertFor_category64 budgetLimits c v a) as Hc.
    rewrite E in *. cbn [map app]. constructor; [|now apply IH].
    rewrite (Hc (or_introl eq_refl)). intros Hin.
    apply in_map_iff in Hin. destruct Hin as (a' & Ha' & Hin).
    apply in_flat_map in Hin. destruct Hin as ([c' v'] & Hin & Hal).
    apply alertFor_category64 in Hal. apply Hnotin.
    apply in_map_iff. exists (c', v'). split; [simpl; congruence | exact Hin].
Qed.

End MachineAlerts.

Section BudgetAlerts.
Import PrimFloat.

(** X17. The budget alerts name each category at most once, and only
    ordinary ones.  An alert belongs to the first limit of its category
    in the list, carries that limit as budget and the sum of the expenses
    of the category over the whole list, as the program adds them up in
    binary64, as spent, which exceeds the budget, and their difference as
    overBudget.  Every ordinary category with an expense whose sum exceeds
    the first limit of its name gets an alert. *)
Theorem budget_alerts_characterised (transactions : list Transaction.t)
  (budgetLimits : list BudgetLimit.t) :
  let alerts := Machine.budgetAlerts transactions budgetLimits in
  NoDup (map Machine.Alert.category alerts)
  /\ (forall a,
         In a alerts ->
         MachineSpec.ordinary (Machine.Alert.category a)
         /\ exists limit,
              find (fun b => String.eqb (BudgetLimit.category b)
                                        (Machine.Alert.category a))
                   budgetLimits = Some limit
              /\ Machine.Alert.budget a
                 = Binary64.ofDecimal (BudgetLimit.monthly_limit limit)
              /\ Machine.Alert.spent a
                 = Machine.number
                     (MachineSpec.storedOn (Machine.Alert.category a) transactions)
              /\ (Machine.Alert.budget a
                  <? MachineSpec.storedOn (Machine.Alert.category a) transactions)%float
                 = true
              /\ Machine.Alert.overBudget a
                 = (MachineSpec.storedOn (Machine.Alert.category a) transactions
                    - Machine.Alert.budget a)%float)
  /\ (forall category limit,
         MachineSpec.ordinary category ->
         (exists t, In t transactions /\ Insights.isExpense t = true
                    /\ Transaction.category t = category) ->
         find (fun b => String.eqb (BudgetLimit.category b) category) budgetLimits
         = Some limit ->
         (Binary64.ofDecimal (BudgetLimit.monthly_limit limit)
          <? MachineSpec.storedOn category transactions)%float = true ->
         exists a,
           In a alerts /\ Machine.Alert.category a = category
           /\ Machine.Alert.budget a
              = Binary64.ofDecimal (BudgetLimit.monthly_limit limit)).
Proof.
  cbv zeta. split; [|split].
  - unfold Machine.budgetAlerts, Machine.Record.entries.
    apply alerts_NoDup64, keys_sumByCategory_NoDup.
  - intros a Ha. unfold Machine.budgetAlerts in Ha.
    apply in_flat_map in Ha. destruct Ha as ([c v] & Hin & Ha).
    destruct (categorySpending_entry64 _ _ _ Hin) as (_ & Hnum & Hoth).
    unfold Machine.alertFor in Ha.
    destruct (find _ budgetLimits) as [limit|] eqn:Ef; [|contradiction].
    destruct (Binary64.gtb _ _) eqn:Eg; [|contradiction].
    destruct Ha as [<-|[]]. cbn [Machine.Alert.category Machine.Alert.spent
                                 Machine.Alert.budget Machine.Alert.overBudget].
    assert (Hc : MachineSpec.ordinary c).
    { unfold MachineSpec.ordinary. destruct (Machine.inherited c) eqn:E; trivial.
      rewrite (Hoth eq_refl) in Eg. unfold Binary64.gtb in Eg.
      cbn [Machine.toNumber] in Eg. now rewrite nothing_below_nan in Eg. }
    split; [exact Hc|]. exists limit.
    rewrite (Hnum Hc) in *. cbn [Machine.toNumber] in *.
    repeat split; trivial.
  - intros category limit Hc Ht Hf Hlt.
    pose proof (categorySpending_has transactions category Hc Ht) as Hin.
    eexists. split.
    + unfold Machine.budgetAlerts. apply in_flat_map.
      exists (category, Machine.number (MachineSpec.storedOn category transactions)).
      split; [exact Hin|]. unfold Machine.alertFor. rewrite Hf.
      unfold Binary64.gtb. cbn [Machine.toNumber]. rewrite Hlt. now left.
    + split; reflexivity.
Qed.

Lemma budget_alerts_characterised_witness :
  MachineSpec.ordinary "Food"
  /\ (Binary64.ofDecimal 0.3
      <? MachineSpec.storedOn "Food" MachineSample.pennies)%float = true
  /\ exists a,
       In a (Machine.budgetAlerts MachineSample.pennies MachineSample.pennyLimit)
       /\ Machine.Alert.category a = "Food"
       /\ Machine.Alert.budget a = Binary64.ofDecimal 0.3.
Proof.
  assert (Hc : MachineSpec.ordinary "Food") by reflexivity.
  assert (Hlt : (Binary64.ofDecimal 0.3
                 <? MachineSpec.storedOn "Food" MachineSample.pennies)%float = true)
    by (vm_compute; reflexivity).
  split; [exact Hc|]. split; [exact Hlt|].
  destruct (budget_alerts_characterised MachineSample.pennies MachineSample.pennyLimit)
    as (_ & _ & H).
  apply (H "Food" (BudgetLimit.mk "Food" 0.3) Hc); [|reflexivity|exact Hlt].
  exists (Transaction.mk "t1" 0.1 expense "Food" "sweet" (Sample.noon 20249)).
  split; [now left | split; reflexivity].
Defined.

End BudgetAlerts.

(** ** The budget analysis on the machine *)

Section MachineBudget.
Import PrimFloat SpecFloat FloatOps FloatAxioms Binary64 Machine MachineSpec.

Lemma month_ofCategory (now : Z) (transactions : list Transaction.t) (c : string) :
  ofCategory c
    (filter Insights.isExpense (Summary.currentMonthTransactions now transactions))
  = filter (fun t => Insights.isExpense t
                     && String.eqb (Transaction.category t) c
                     && (SummaryMonths.monthIndex (Transaction.created_at t)
                         =? SummaryMonths.monthIndex now)%Z)
           transactions.
Proof.
  unfold ofCategory, Summary.currentMonthTransactions.
  rewrite !filter_twice. apply filter_ext.
  intros t. rewrite sameMonth_eqb.
  destruct (Insights.isExpense t), (String.eqb (Transaction.category t) c),
    (SummaryMonths.monthIndex (Transaction.created_at t)
     =? SummaryMonths.monthIndex now)%Z; reflexivity.
Qed.

Lemma nan_utilization (limit : float) :
  Prim2SF ((nan / limit) * 100)%float = S754_nan.
Proof.
  rewrite mul_spec, div_spec. change (Prim2SF nan) with S754_nan. reflexivity.
Qed.

Lemma nothing_below (c x : float) :
  Prim2SF x = S754_nan -> (c <? x)%float = false.
Proof.
  intros H. rewrite ltb_spec, H. unfold SFltb. now destruct (Prim2SF c).
Qed.

End MachineBudget.

Section BudgetStatus.
Import PrimFloat.

(** X15. The budget analysis has one line per limit, in order, with the
    category and the amount of the limit.  For an ordinary category the
    line holds the expenses of the category in the month of [now], as the
    program adds them up; for a category named like a member of
    [Object.prototype] it holds no number and the status is good.  The
    status follows the utilization as computed in binary64: over when it
    exceeds 100, warning when it exceeds 80 but not 100, good
    otherwise. *)
Theorem budget_status (now : Z) (transactions : list Transaction.t)
  (budgetLimits : list BudgetLimit.t) :
  List.length (Machine.budgetAnalysis now transactions budgetLimits)
  = List.length budgetLimits
  /\ forall line,
       In line (Machine.budgetAnalysis now transactions budgetLimits) ->
       exists limit,
         In limit budgetLimits
         /\ Machine.BudgetLine.category line = BudgetLimit.category limit
         /\ Machine.BudgetLine.budgeted line
            = Binary64.ofDecimal (BudgetLimit.monthly_limit limit)
         /\ (MachineSpec.ordinary (BudgetLimit.category limit) ->
             Machine.BudgetLine.spent line
             = Machine.number
                 (MachineSpec.spentThisMonth now (BudgetLimit.category limit)
                    transactions))
         /\ (Machine.inherited (BudgetLimit.category limit) = true ->
             Machine.BudgetLine.spent line = Machine.other
             /\ Machine.BudgetLine.status line = Summary.good)
         /\ Machine.BudgetLine.utilization line
            = ((Machine.toNumber (Machine.BudgetLine.spent line)
                / Machine.BudgetLine.budgeted line) * 100)%float
         /\ (Machine.BudgetLine.status line = Summary.over
             <-> (100 <? Machine.BudgetLine.utilization line)%float = true)
         /\ (Machine.BudgetLine.status line = Summary.warning
             <-> (80 <? Machine.BudgetLine.utilization line)%float = true
                 /\ (100 <? Machine.BudgetLine.utilization line)%float = false)
         /\ (Machine.BudgetLine.status line = Summary.good
             <-> (80 <? Machine.BudgetLine.utilization line)%float = false).
Proof.
  split; [unfold Machine.budgetAnalysis; apply length_map|].
  intros line Hin. unfold Machine.budgetAnalysis in Hin.
  apply in_map_iff in Hin. destruct Hin as (limit & <- & Hin).
  exists limit.
  cbn [Machine.BudgetLine.category Machine.BudgetLine.budgeted
       Machine.BudgetLine.spent Machine.BudgetLine.utilization
       Machine.BudgetLine.status].
  split; [exact Hin|]. split; [reflexivity|]. split; [reflexivity|].
  split.
  { intros Hc. unfold Machine.monthSpending.
    rewrite (getOrZero_sumByCategory64 _ _ Hc).
    unfold MachineSpec.spentThisMonth. now rewrite month_ofCategory. }
  split.
  { intros Hc. unfold Machine.monthSpending.
    rewrite (getOrZero_sumByCategory_inherited _ _ Hc).
    split; [reflexivity|]. cbn [Machine.toNumber]. unfold Binary64.gtb.
    now rewrite !(nothing_below _ _ (nan_utilization _)). }
  split; [reflexivity|].
  set (u := ((Machine.toNumber _ / _) * 100)%float).
  unfold Binary64.gtb.
  destruct (100 <? u)%float eqn:E1.
  - rewrite (above_100_above_80 u E1).
    split; [tauto|]. split; split; try discriminate.
    intros [_ H]. discriminate H.
  - destruct (80 <? u)%float eqn:E2.
    + split; [split; discriminate|]. split; [tauto|]. split; discriminate.
    + split; [split; discriminate|]. split; [|tauto].
      split; [discriminate | intros [H _]; discriminate H].
Qed.

Lemma budget_status_witness :
  exists line,
    In line (Machine.budgetAnalysis Sample.now MachineSample.eightyPercent
               [MachineSample.lunchLimit])
    /\ (80 <? Machine.BudgetLine.utilization line)%float = true
    /\ Machine.BudgetLine.status line = Summary.warning.
Proof.
  eexists. split; [left; reflexivity|].
  split; [vm_compute; reflexivity|].
  destruct (budget_status Sample.now MachineSample.eightyPercent
              [MachineSample.lunchLimit]) as [_ H].
  destruct (H _ (or_introl eq_refl)) as (limit & _ & _ & _ & _ & _ & _ & _ & Hw & _).
  apply Hw. split; vm_compute; reflexivity.
Defined.

End BudgetStatus.

(** ** The selection of the trends on the machine *)

Section MachineSort.
Import PrimFloat Binary64 Machine MachineSpec.

Let amountOf (e : Trend.t) : float := toNumber (Trend.amount e).
Let isNumber (e : Trend.t) : Prop := (amountOf e =? amountOf e)%float = true.

Lemma insertByAmount_descending64 (x : Trend.t) (l : list Trend.t) :
  isNumber x -> Forall isNumber l ->
  descending l -> descending (insertByAmount x l).
Proof.
  unfold descending. intros Hx Hl Hs.
  induction Hs as [|y ys Hys IH Hy]; simpl.
  - repeat constructor.
  - inversion Hl as [|? ? Hny Hnys]; subst.
    unfold ltb. fold (amountOf x) (amountOf y).
    destruct (amountOf x <? amountOf y)%float eqn:E.
    + constructor; [now apply IH|].
      apply Forall_forall. intros e He. apply In_insertByAmount64 in He.
      destruct He as [->|He].
      * now apply lt_le.
      * rewrite Forall_forall in Hy. now apply Hy.
    + constructor; [now constructor|].
      assert (Hyx : (amountOf y <=? amountOf x)%float = true)
        by now apply not_lt_le.
      constructor; [exact Hyx|].
      rewrite Forall_forall in *. intros e He.
      apply (le_trans _ (amountOf y)); [now apply Hy | exact Hyx].
Qed.

Lemma sortByAmountDesc_descending64 (l : list Trend.t) :
  Forall isNumber l -> descending (sortByAmountDesc l).
Proof.
  induction l as [|x l IH]; intros H; simpl; [constructor|].
  inversion H as [|? ? Hx Hl]; subst.
  apply insertByAmount_descending64; [exact Hx | | now apply IH].
  apply Forall_forall. intros e He.
  apply (proj1 (In_sortByAmountDesc64 e l)) in He.
  rewrite Forall_forall in Hl. exact (Hl e He).
Qed.

Lemma descending_app64 (a b : list Trend.t) :
  descending (a ++ b) ->
  forall x y, In x a -> In y b -> (amountOf y <=? amountOf x)%float = true.
Proof.
  unfold descending. induction a as [|h a IH]; simpl; intros Hs x y Hx Hy.
  - contradiction.
  - inversion Hs as [|? ? Hs' Hall]; subst.
    destruct Hx as [<-|Hx].
    + rewrite Forall_forall in Hall. apply Hall. apply in_or_app. now right.
    + now apply (IH Hs').
Qed.

Lemma shown_candidates_descending (lw lm : Record.t) :
  descending
    (sortByAmountDesc
       (filter (fun trend => gtb (toNumber (Trend.amount trend)) 0)
          (map (trendOf lw lm) (allCategories lw lm)))).
Proof.
  apply sortByAmountDesc_descending64. apply Forall_forall.
  intros e He. apply filter_In in He. destruct He as [_ He].
  now apply positive_number.
Qed.

End MachineSort.

Section TopFive.
Import PrimFloat.

(** X18. An ordinary category with spending last week is dropped from the
    trends only by the cut to five: either it has an entry, or five
    entries are shown and each of them has at least its amount.  A
    category named like a member of [Object.prototype] never has an
    entry. *)
Theorem keeps_top_five (now : Z) (transactions : list Transaction.t)
  (category : string) :
  let trends := Machine.spendingTrends now transactions in
  let lastWeek :=
    MachineSpec.spentIn (JsDate.startOfWeek now - 7 * JsDate.msPerDay)
                        (JsDate.startOfWeek now) category transactions in
  (MachineSpec.ordinary category -> (0 <? lastWeek)%float = true ->
   (exists e, In e trends /\ Machine.Trend.category e = category)
   \/ (List.length trends = 5%nat
       /\ forall e, In e trends ->
                    (lastWeek <=? Machine.toNumber (Machine.Trend.amount e))%float
                    = true))
  /\ (Machine.inherited category = true ->
      forall e, In e trends -> Machine.Trend.category e <> category).
Proof.
  cbv zeta. split.
  - intros Hc Hpos.
    pose proof (lastWeek_spentIn64 now transactions category Hc) as Elw.
    set (lw := Machine.lastWeekCategorySpending now transactions) in *.
    set (lm := Machine.sameWeekLastMonthCategorySpending now transactions).
    set (entry := Machine.trendOf lw lm category).
    destruct (trendOf_fields64 lw lm category) as (Ec & Ea & _). fold entry in Ec, Ea.
    assert (Hin : In entry
                     (Machine.sortByAmountDesc
                        (filter (fun trend =>
                                   Binary64.gtb
                                     (Machine.toNumber (Machine.Trend.amount trend)) 0)
                           (map (Machine.trendOf lw lm)
                                (Machine.allCategories lw lm))))).
    { apply In_sortByAmountDesc64, filter_In. split.
      - apply in_map. unfold Machine.allCategories, Insights.arrayFromSet.
        apply In_setAdd_fold. right. apply in_or_app. left.
        apply own_keys. intros Hnone.
        assert (E0 : Machine.Record.getOrZero lw category = Machine.number 0).
        { unfold Machine.Record.getOrZero, Machine.Record.get.
          unfold MachineSpec.ordinary in Hc. now rewrite Hnone, Hc. }
        rewrite Elw in E0. apply (f_equal Machine.toNumber) in E0.
        cbn [Machine.toNumber] in E0. rewrite E0 in Hpos. discriminate Hpos.
      - rewrite Ea, Elw. exact Hpos. }
    unfold Machine.spendingTrends, Machine.trendsOfWindows. fold lw lm.
    set (sorted := Machine.sortByAmountDesc _) in *.
    destruct (firstn_or_beyond 5 sorted _ Hin) as [Hf|[Hlen Hskip]].
    + left. exists entry. now split.
    + right. split; trivial. intros e He.
      assert (Hs : MachineSpec.descending (firstn 5 sorted ++ skipn 5 sorted)).
      { rewrite firstn_skipn. apply shown_candidates_descending. }
      pose proof (descending_app64 _ _ Hs e _ He Hskip) as Hle.
      cbv beta in Hle. now rewrite Ea, Elw in Hle.
  - intros Hc e He Hcat. apply In_trendsOfWindows64 in He.
    destruct He as [_ Hpos]. apply positive_is_ordinary in Hpos.
    rewrite Hcat in Hpos. unfold MachineSpec.ordinary in Hpos. congruence.
Qed.

Lemma keeps_top_five_witness :
  MachineSpec.ordinary "Snacks"
  /\ (0 <? MachineSpec.spentIn (JsDate.startOfWeek Sample.now - 7 * JsDate.msPerDay)
                               (JsDate.startOfWeek Sample.now) "Snacks"
                               InsightSample.sixCategories)%float = true
  /\ List.length (Machine.spendingTrends Sample.now InsightSample.sixCategories)
     = 5%nat
  /\ forall e,
       In e (Machine.spendingTrends Sample.now InsightSample.sixCategories) ->
       Machine.Trend.category e <> "Snacks".
Proof.
  assert (Hc : MachineSpec.ordinary "Snacks") by reflexivity.
  assert (Hpos : (0 <? MachineSpec.spentIn
                         (JsDate.startOfWeek Sample.now - 7 * JsDate.msPerDay)
                         (JsDate.startOfWeek Sample.now) "Snacks"
                         InsightSample.sixCategories)%float = true)
    by (vm_compute; reflexivity).
  assert (Hout : forall e,
             In e (Machine.spendingTrends Sample.now InsightSample.sixCategories) ->
             Machine.Trend.category e <> "Snacks").
  { intros e He. vm_compute in He.
    destruct He as [<-|[<-|[<-|[<-|[<-|[]]]]]]; discriminate. }
  split; [exact Hc|]. split; [exact Hpos|].
  destruct (keeps_top_five Sample.now InsightSample.sixCategories "Snacks") as [H _].
  destruct (H Hc Hpos) as [(e & He & Hcat)|[Hlen _]].
  - exfalso. exact (Hout e He Hcat).
  - split; [exact Hlen | exact Hout].
Defined.

End TopFive.
